(** * The HTTP server container of the library (sg_httpsrv.c) and its
      authentication gate, embedded in Rocq.

    The C code is embedded shallowly.  A nullable pointer to a struct is an
    [option] of a record; a function that mutates the struct it is given
    returns the updated record.  Calls that leave the translation unit
    (libmicrohttpd, pthreads, libc, and the sibling units of the library that
    are not part of the sources at hand) are fields of one record of
    externals acting on an abstract world [W]; every such call is also
    appended to a trace, so that the order of the calls can be stated. *)

From stdpp Require Import gmap strings list fin_maps.
From Stdlib Require Import ZArith Lia.

Local Open Scope Z_scope.

(** ** Constants of the platform and of the engine's header *)

(** errno.h (Linux values). *)
Definition EINVAL : Z := 22.
Definition EALREADY : Z := 114.

(** microhttpd.h: [enum MHD_Result]. *)
Definition MHD_Result := bool.
Definition MHD_YES : MHD_Result := true.
Definition MHD_NO : MHD_Result := false.

(** microhttpd.h: [enum MHD_FLAG]. *)
Definition MHD_USE_ERROR_LOG : Z := 1.
Definition MHD_USE_TLS : Z := 2.
Definition MHD_USE_THREAD_PER_CONNECTION : Z := 4.
Definition MHD_USE_INTERNAL_POLLING_THREAD : Z := 8.
Definition MHD_USE_IPv6 : Z := 16.
Definition MHD_USE_ITC : Z := 1024.
Definition MHD_USE_DUAL_STACK : Z := Z.lor MHD_USE_IPv6 2048.
Definition MHD_ALLOW_SUSPEND_RESUME : Z := Z.lor 8192 MHD_USE_ITC.
Definition MHD_USE_AUTO : Z := 65536.
Definition MHD_USE_AUTO_INTERNAL_THREAD : Z :=
  Z.lor MHD_USE_AUTO MHD_USE_INTERNAL_POLLING_THREAD.

(** microhttpd.h: the members of [enum MHD_OPTION] the server uses. *)
Inductive MHD_OPTION :=
| MHD_OPTION_END
| MHD_OPTION_CONNECTION_LIMIT
| MHD_OPTION_CONNECTION_TIMEOUT
| MHD_OPTION_NOTIFY_COMPLETED
| MHD_OPTION_SOCK_ADDR
| MHD_OPTION_HTTPS_MEM_KEY
| MHD_OPTION_HTTPS_MEM_CERT
| MHD_OPTION_HTTPS_PRIORITIES
| MHD_OPTION_EXTERNAL_LOGGER
| MHD_OPTION_THREAD_POOL_SIZE
| MHD_OPTION_HTTPS_MEM_TRUST
| MHD_OPTION_HTTPS_MEM_DHPARAMS
| MHD_OPTION_LISTEN_BACKLOG_SIZE
| MHD_OPTION_NOTIFY_CONNECTION
| MHD_OPTION_HTTPS_KEY_PASSWORD.

(** ** Handles owned by the engine and by the thread library *)

Inductive MHD_Connection := Connection (id : N).
Inductive MHD_Daemon := Daemon (id : N).
Inductive MHD_Response :=
| ResponseFromBuffer (buf : string)
| DenialResponse.
Definition pthread_t := N.

(** A pointer to a function of the library or of the user, kept only for
    its identity: the hooks below are stored and tested against NULL in
    this unit, never called. *)
Inductive fnptr := FnPtr (symbol : string).

(** An untyped [void *] closure argument. *)
Inductive voidp := NullPtr | SelfSrv | UserPtr (a : N).

(** [struct sockaddr_in] and [struct sockaddr_in6] after the [memset] and
    the three stores of the listener: family, port, address. *)
Inductive sa_family := AF_INET | AF_INET6.
Record sockaddr := mk_sockaddr {
  sa_fam : sa_family;
  sa_port : Z;
  sa_addr : Z }.

(** [struct MHD_OptionItem]: [value] is an [intptr_t] that carries either a
    number or a function pointer, [ptr_value] a [void *]. *)
Inductive opt_value := VNum (z : Z) | VFn (f : fnptr).
Inductive opt_ptr :=
| PNull
| PSrv
| PSockAddr (a : sockaddr)
| PStr (s : string).
Record MHD_OptionItem := mk_item {
  item_option : MHD_OPTION;
  item_value : opt_value;
  item_ptr_value : opt_ptr }.

(** ** Response, authentication and request objects *)

(** Modelled from the spec: [struct sg_httpres], whose declaration
    (sg_httpres.h) is not among the sources; the fields are the ones the
    server unit and the unit tests read and write. *)
Record sg_httpres := mk_httpres {
  res_con : option MHD_Connection;
  res_handle : option MHD_Response;
  res_headers : option (gmap string string);
  res_status : Z;
  res_ret : bool }.

(** Modelled from the spec: [struct sg_httpauth] (section 3, and the fields
    the unit tests of sg_httpauth.h read and write): the response in
    progress, the write-once realm, the credentials, the cancellation
    flag. *)
Record sg_httpauth := mk_httpauth {
  auth_res : sg_httpres;
  auth_realm : option string;
  auth_usr : option string;
  auth_pwd : option string;
  auth_canceled : bool }.

(** Modelled from the spec: [struct sg_httpreq] (section 3, and the fields
    the server unit and the unit tests of sg_httpreq.h read and write).
    [req->res] and [req->auth->res] point to one and the same response.  The
    model stores that response once, inside the authentication object, and
    reads [req->res] through it. *)
Record sg_httpreq := mk_httpreq {
  req_con : option MHD_Connection;
  req_version : option string;
  req_method : option string;
  req_path : option string;
  req_headers : option (gmap string string);
  req_cookies : option (gmap string string);
  req_params : option (gmap string string);
  req_fields : option (gmap string string);
  req_auth : sg_httpauth;
  req_is_uploading : bool;
  req_isolated : bool }.

Definition req_res (r : sg_httpreq) : sg_httpres := auth_res (req_auth r).

Definition set_res_ret (b : bool) (r : sg_httpres) : sg_httpres :=
  mk_httpres (res_con r) (res_handle r) (res_headers r) (res_status r) b.

Definition set_auth_res (r : sg_httpres) (a : sg_httpauth) : sg_httpauth :=
  mk_httpauth r (auth_realm a) (auth_usr a) (auth_pwd a) (auth_canceled a).

Definition set_req_auth (a : sg_httpauth) (r : sg_httpreq) : sg_httpreq :=
  mk_httpreq (req_con r) (req_version r) (req_method r) (req_path r)
    (req_headers r) (req_cookies r) (req_params r) (req_fields r)
    a (req_is_uploading r) (req_isolated r).

(** [req->res->ret = b]. *)
Definition set_req_ret (b : bool) (r : sg_httpreq) : sg_httpreq :=
  set_req_auth (set_auth_res (set_res_ret b (req_res r)) (req_auth r)) r.

(** Modelled from the spec: one entry of the isolation registry, a worker
    thread handle and the owning request (section 3); the declaration is in
    sg_httpreq.h, not among the sources.  [handle] points to the isolated
    request; the server unit reads only [handle->con] of it, which is fixed
    when the request is created. *)
Record sg__httpreq_isolated := mk_isolated {
  iso_thread : pthread_t;
  iso_handle_con : MHD_Connection }.

Global Instance MHD_Connection_eq_dec : EqDecision MHD_Connection.
Proof. solve_decision. Defined.
Global Instance sg__httpreq_isolated_eq_dec : EqDecision sg__httpreq_isolated.
Proof. solve_decision. Defined.

(** ** Events *)

Inductive freed := FreedUpldsDir | FreedIsolated (e : sg__httpreq_isolated) | FreedSrv.

Inductive event :=
| EvErrCb (text : string)
| EvMutexLock
| EvMutexUnlock
| EvMutexDestroy
| EvJoin (t : pthread_t)
| EvInfoSocketContext (c : MHD_Connection) (answer : option bool)
| EvInfoSuspended (c : MHD_Connection) (answer : option bool)
| EvResume (c : MHD_Connection)
| EvStartDaemon (flags port : Z) (ops : list MHD_OptionItem)
| EvStopDaemon (d : MHD_Daemon)
| EvFree (what : freed)
| EvReqNew
| EvAuthCb
| EvUpldsProcess
| EvReqCb
| EvResDispatch.

Section Server.

(** The world outside the translation unit. *)
Context {W : Type}.

(** ** User callbacks *)

(** [sg_httpauth_cb]: gets the authentication object, the request and the
    response (all reachable from the request) and returns the verdict. *)
Definition sg_httpauth_cb := sg_httpreq -> W -> bool * sg_httpreq * W.
(** [sg_httpreq_cb]. *)
Definition sg_httpreq_cb := sg_httpreq -> W -> sg_httpreq * W.
(** [sg_err_cb]. *)
Definition sg_err_cb := string -> W -> W.

(** ** The server container *)

(** [struct sg_httpsrv]: its declaration (sg_httpsrv.h) is not among the
    sources; the fields are the ones sg_httpsrv.c reads and writes.  The
    mutex has no content the model follows. *)
Record sg_httpsrv := mk_httpsrv {
  srv_handle : option MHD_Daemon;
  srv_auth_cb : option sg_httpauth_cb;
  srv_req_cb : sg_httpreq_cb;
  srv_err_cb : sg_err_cb;
  srv_cls : voidp;
  srv_cli_cb : option fnptr;
  srv_cli_cls : voidp;
  srv_upld_cb : option fnptr;
  srv_upld_cls : voidp;
  srv_upld_write_cb : option fnptr;
  srv_upld_free_cb : option fnptr;
  srv_upld_save_cb : option fnptr;
  srv_upld_save_as_cb : option fnptr;
  srv_uplds_dir : option string;
  srv_post_buf_size : Z;
  srv_payld_limit : Z;
  srv_uplds_limit : Z;
  srv_thr_pool_size : Z;
  srv_con_timeout : Z;
  srv_con_limit : Z;
  srv_isolated_list : list sg__httpreq_isolated }.

Definition set_srv_handle (h : option MHD_Daemon) (s : sg_httpsrv) : sg_httpsrv :=
  mk_httpsrv h (srv_auth_cb s) (srv_req_cb s) (srv_err_cb s) (srv_cls s)
    (srv_cli_cb s) (srv_cli_cls s) (srv_upld_cb s) (srv_upld_cls s)
    (srv_upld_write_cb s) (srv_upld_free_cb s) (srv_upld_save_cb s)
    (srv_upld_save_as_cb s) (srv_uplds_dir s) (srv_post_buf_size s)
    (srv_payld_limit s) (srv_uplds_limit s) (srv_thr_pool_size s)
    (srv_con_timeout s) (srv_con_limit s) (srv_isolated_list s).

Definition set_srv_isolated_list (l : list sg__httpreq_isolated) (s : sg_httpsrv)
  : sg_httpsrv :=
  mk_httpsrv (srv_handle s) (srv_auth_cb s) (srv_req_cb s) (srv_err_cb s)
    (srv_cls s) (srv_cli_cb s) (srv_cli_cls s) (srv_upld_cb s) (srv_upld_cls s)
    (srv_upld_write_cb s) (srv_upld_free_cb s) (srv_upld_save_cb s)
    (srv_upld_save_as_cb s) (srv_uplds_dir s) (srv_post_buf_size s)
    (srv_payld_limit s) (srv_uplds_limit s) (srv_thr_pool_size s)
    (srv_con_timeout s) (srv_con_limit s) l.

Definition set_srv_post_buf_size (n : Z) (s : sg_httpsrv) : sg_httpsrv :=
  mk_httpsrv (srv_handle s) (srv_auth_cb s) (srv_req_cb s) (srv_err_cb s)
    (srv_cls s) (srv_cli_cb s) (srv_cli_cls s) (srv_upld_cb s) (srv_upld_cls s)
    (srv_upld_write_cb s) (srv_upld_free_cb s) (srv_upld_save_cb s)
    (srv_upld_save_as_cb s) (srv_uplds_dir s) n
    (srv_payld_limit s) (srv_uplds_limit s) (srv_thr_pool_size s)
    (srv_con_timeout s) (srv_con_limit s) (srv_isolated_list s).

(** The six stores of [sg_httpsrv_set_upld_cbs]. *)
Definition set_srv_upld_cbs (cb : option fnptr) (cls : voidp)
    (write_cb free_cb save_cb save_as_cb : option fnptr) (s : sg_httpsrv)
  : sg_httpsrv :=
  mk_httpsrv (srv_handle s) (srv_auth_cb s) (srv_req_cb s) (srv_err_cb s)
    (srv_cls s) (srv_cli_cb s) (srv_cli_cls s) cb cls
    write_cb free_cb save_cb save_as_cb (srv_uplds_dir s) (srv_post_buf_size s)
    (srv_payld_limit s) (srv_uplds_limit s) (srv_thr_pool_size s)
    (srv_con_timeout s) (srv_con_limit s) (srv_isolated_list s).

(** ** Externals *)

Record extern := mk_extern {
  (** build: whether [__arm__] is defined *)
  arm : bool;
  (** sg_macros.h *)
  SG_ERR_SIZE : nat;
  (** libc *)
  htons : Z -> Z;
  inet_pton4 : string -> option Z;
  inet_pton6 : string -> option Z;
  fmt_thread_ptr : sg__httpreq_isolated -> string;
  (** sg_utils *)
  sg_strerror : Z -> string;
  sg_alloc : W -> bool * W;
  sg_tmpdir : W -> option string * W;
  (** pthreads *)
  pthread_mutex_init : W -> Z * W;
  pthread_mutex_lock : W -> Z * W;
  pthread_mutex_unlock : W -> Z * W;
  pthread_mutex_destroy : W -> W;
  pthread_join : pthread_t -> W -> Z * W;
  (** libmicrohttpd; a query answers [None] for a null [info], and
      otherwise tells whether the field read from it is set *)
  MHD_get_connection_info_socket_context : MHD_Connection -> W -> option bool;
  MHD_get_connection_info_suspended : MHD_Connection -> W -> option bool;
  MHD_resume_connection : MHD_Connection -> W -> W;
  MHD_start_daemon : Z -> Z -> list MHD_OptionItem -> W -> option MHD_Daemon * W;
  MHD_stop_daemon : MHD_Daemon -> W -> W;
  (** sibling units of the library: request, uploads, response *)
  sg__httpreq_new :
    sg_httpsrv -> option MHD_Connection -> option string -> option string ->
    option string -> W -> option sg_httpreq * W;
  sg__httpuplds_process :
    sg_httpsrv -> sg_httpreq -> option MHD_Connection -> option string -> Z ->
    W -> bool * sg_httpreq * Z * W;
  sg__httpres_dispatch : sg_httpres -> W -> MHD_Result * sg_httpres * W }.

(** ** State: [errno], the world, and the trace of outside calls *)

Record state := mk_state {
  st_errno : Z;
  st_world : W;
  st_trace : list event }.

Definition M (A : Type) : Type := state -> A * state.

Definition set_errno (e : Z) : M unit :=
  fun s => (tt, mk_state e (st_world s) (st_trace s)).

(** An outside call: the world steps, the call is logged. *)
Definition call {A} (ev : event) (f : W -> A * W) : M A :=
  fun s => let (a, w) := f (st_world s) in
           (a, mk_state (st_errno s) w (st_trace s ++ [ev])).

(** An outside query that leaves the world as it is; the answer is logged
    with the call. *)
Definition query {A} (ev : A -> event) (f : W -> A) : M A :=
  fun s => let a := f (st_world s) in
           (a, mk_state (st_errno s) (st_world s) (st_trace s ++ [ev a])).

End Server.

Arguments sg_httpsrv : clear implicits.
Arguments extern : clear implicits.
Arguments state : clear implicits.
Arguments M : clear implicits.

(** The state monad with stdpp's notation for it. *)
Global Instance M_ret {W} : MRet (M W) := fun A a s => (a, s).
Global Instance M_bind {W} : MBind (M W) :=
  fun A B k m s => let (a, s') := m s in k a s'.

(** [!p] for a pointer [p]. *)
Definition is_null {A} (p : option A) : bool :=
  match p with
  | None => true
  | Some _ => false
  end.

(** ["\n"]. *)
Definition LF : string := String (Ascii.ascii_of_nat 10) EmptyString.

(** [vsnprintf(err, size, ...)] keeps at most [size - 1] characters of the
    formatted text. *)
Definition vsnprintf (size : nat) (text : string) : string :=
  String.substring 0 (Nat.pred size) text.

(** utlist.h: [LL_DELETE(head, del)] unlinks the node [del]; a list without
    that node is left as it is. *)
Fixpoint LL_DELETE (head : list sg__httpreq_isolated) (del : sg__httpreq_isolated)
  : list sg__httpreq_isolated :=
  match head with
  | [] => []
  | e :: rest => if decide (e = del) then rest else e :: LL_DELETE rest del
  end.

(** The option array [struct MHD_OptionItem ops[14]] of the listener. *)
Definition OPS_SLOTS : Z := 14.

(** A slot that was never written holds no meaningful item; it is never read
    as long as the terminating item fits into the array. *)
Definition unwritten_item : MHD_OptionItem := mk_item MHD_OPTION_END (VNum 0) PNull.

Definition ops_init : list MHD_OptionItem := replicate (Z.to_nat OPS_SLOTS) unwritten_item.

(** [sg__httpsrv_addopt(ops, &pos, opt, val, ptr)]: stores the item at
    [ops[*pos]] and increments [*pos] (an [unsigned char]).  A store at an
    index outside the fourteen slots has no defined behaviour: [None]. *)
Definition sg__httpsrv_addopt (ops : list MHD_OptionItem) (pos : Z)
    (opt : MHD_OPTION) (val : opt_value) (ptr : opt_ptr)
  : option (list MHD_OptionItem * Z) :=
  if (0 <=? pos) && (pos <? OPS_SLOTS)
  then Some (<[Z.to_nat pos := mk_item opt val ptr]> ops, (pos + 1) mod 256)
  else None.

(** The same on a buffer that may already be overrun. *)
Definition addopt (buf : option (list MHD_OptionItem * Z))
    (opt : MHD_OPTION) (val : opt_value) (ptr : opt_ptr)
  : option (list MHD_OptionItem * Z) :=
  match buf with
  | Some (ops, pos) => sg__httpsrv_addopt ops pos opt val ptr
  | None => None
  end.

(** [if (p) addopt(..., p)] for an optional string. *)
Definition addopt_str (buf : option (list MHD_OptionItem * Z))
    (opt : MHD_OPTION) (p : option string) : option (list MHD_OptionItem * Z) :=
  match p with
  | Some s => addopt buf opt (VNum 0) (PStr s)
  | None => buf
  end.

(** [if (n > 0) addopt(..., n, NULL)] for an unsigned setting. *)
Definition addopt_pos (buf : option (list MHD_OptionItem * Z))
    (opt : MHD_OPTION) (n : Z) : option (list MHD_OptionItem * Z) :=
  if 0 <? n then addopt buf opt (VNum n) PNull else buf.

(** ** sg_httpauth.c, from the specification *)

Definition set_auth_canceled (b : bool) (a : sg_httpauth) : sg_httpauth :=
  mk_httpauth (auth_res a) (auth_realm a) (auth_usr a) (auth_pwd a) b.

Definition set_auth_realm (r : option string) (a : sg_httpauth) : sg_httpauth :=
  mk_httpauth (auth_res a) r (auth_usr a) (auth_pwd a) (auth_canceled a).

(** Modelled from the spec: the three verdicts of the authentication gate
    (section 4.3). *)
Inductive auth_verdict := Proceed | ProceedWithResponse | RejectWithoutResponse.

(** Modelled from the spec: the decision of [sg__httpauth_dispatch], whose
    unit (sg_httpauth.c) is not among the sources.  Section 4.3: canceled
    with a composed denial proceeds with that response, canceled without a
    response rejects; not canceled, a composed denial is honoured only
    while the response still has its connection.  In the remaining case the
    callback's own result, left in [res->ret] by the dispatcher, decides, as
    [test__httpauth_dispatch] has it. *)
Definition auth_gate (auth : sg_httpauth) : auth_verdict :=
  let res := auth_res auth in
  if auth_canceled auth then
    if is_null (res_handle res) then RejectWithoutResponse else ProceedWithResponse
  else if negb (is_null (res_handle res)) then
    if is_null (res_con res) then RejectWithoutResponse else ProceedWithResponse
  else if res_ret res then Proceed else RejectWithoutResponse.

(** Modelled from the spec: [sg__httpauth_dispatch] as the dispatcher calls
    it.  The boolean tells the dispatcher to go on; [res->ret] receives the
    verdict for the engine.  A denial that the callback canceled goes on
    with [MHD_YES] (third block of [test__httpauth_dispatch]); a denial that
    was not canceled stops the dispatcher, which hands [res->ret] to the
    engine. *)
Definition sg__httpauth_dispatch (auth : sg_httpauth) : bool * sg_httpauth :=
  match auth_gate auth with
  | Proceed =>
      (true, set_auth_res (set_res_ret MHD_YES (auth_res auth)) auth)
  | ProceedWithResponse =>
      (auth_canceled auth, set_auth_res (set_res_ret MHD_YES (auth_res auth)) auth)
  | RejectWithoutResponse =>
      (false, set_auth_res (set_res_ret MHD_NO (auth_res auth)) auth)
  end.

(** Modelled from the spec: [sg_httpauth_cancel], an idempotent flag flip;
    a null object is an invalid argument ([test_httpauth_cancel]). *)
Definition sg_httpauth_cancel (auth : option sg_httpauth) : Z * option sg_httpauth :=
  match auth with
  | None => (EINVAL, None)
  | Some a => (0, Some (set_auth_canceled true a))
  end.

(** Modelled from the spec: [sg_httpauth_set_realm].  Null arguments are
    invalid ([test_httpauth_set_realm]); the realm is stored by the first
    call and every later call is turned away. *)
Definition sg_httpauth_set_realm (auth : option sg_httpauth) (realm : option string)
  : Z * option sg_httpauth :=
  match auth, realm with
  | Some a, Some r =>
      if is_null (auth_realm a)
      then (0, Some (set_auth_realm (Some r) a))
      else (EALREADY, Some a)
  | _, _ => (EINVAL, auth)
  end.

(** Modelled from the spec: [sg_strmap_add] of the generic key-value map
    container (sg_strmap.c is not among the sources), on the map a slot
    points to: a null slot becomes a map with one pair. *)
Definition sg_strmap_add (map : option (gmap string string)) (name val : string)
  : option (gmap string string) :=
  Some (<[name := val]> (default ∅ map)).

(** Modelled from the spec: [sg_strmap_count] of the same container; a null
    map has no pairs, as the unit tests of the request maps have it. *)
Definition sg_strmap_count (map : option (gmap string string)) : Z :=
  match map with
  | None => 0
  | Some m => Z.of_nat (size m)
  end.

(** Modelled from the spec: [sg_strmap_get] of the same container. *)
Definition sg_strmap_get (map : option (gmap string string)) (name : string)
  : option string :=
  match map with
  | None => None
  | Some m => m !! name
  end.

(** Modelled from the spec: the denial as the first successful call composes
    it (section 4.3): a response handle, the status, the header with its
    value, and the result recorded as true. *)
Definition compose_denial (header value : string) (status : Z) (res : sg_httpres)
  : sg_httpres :=
  mk_httpres (res_con res) (Some DenialResponse)
    (sg_strmap_add (res_headers res) header value) status true.

(** Modelled from the spec: [sg_httpauth_deny2].  Null arguments and a
    status outside [100, 600) are invalid; otherwise the first call composes
    the denial and records the result, and a later call is turned away. *)
Definition sg_httpauth_deny2 (auth : option sg_httpauth)
    (header value : option string) (status : Z) : Z * option sg_httpauth :=
  match auth, header, value with
  | Some a, Some h, Some v =>
      if (status <? 100) || (600 <=? status) then (EINVAL, Some a)
      else if negb (is_null (res_handle (auth_res a))) then (EALREADY, Some a)
      else (0, Some (set_auth_res (compose_denial h v status (auth_res a)) a))
  | _, _, _ => (EINVAL, auth)
  end.

(** [MHD_HTTP_UNAUTHORIZED]. *)
Definition MHD_HTTP_UNAUTHORIZED : Z := 401.

(** Modelled from the spec: [sg_httpauth_deny], the denial with status
    401. *)
Definition sg_httpauth_deny (auth : option sg_httpauth) (header value : option string)
  : Z * option sg_httpauth :=
  sg_httpauth_deny2 auth header value MHD_HTTP_UNAUTHORIZED.

(** ** sg_httpreq.c, from the specification *)

(** Modelled from the spec: the address of one of the four map slots of a
    request, the value the accessors return ([struct sg_strmap **] in the
    unit tests). *)
Inductive map_slot := SlotHeaders | SlotCookies | SlotParams | SlotFields.

(** [*ref] for a slot address [ref] of the request [req]. *)
Definition slot_read (ref : map_slot) (req : sg_httpreq) : option (gmap string string) :=
  match ref with
  | SlotHeaders => req_headers req
  | SlotCookies => req_cookies req
  | SlotParams => req_params req
  | SlotFields => req_fields req
  end.

(** [*ref = m]. *)
Definition slot_write (ref : map_slot) (m : option (gmap string string))
    (req : sg_httpreq) : sg_httpreq :=
  mk_httpreq (req_con req) (req_version req) (req_method req) (req_path req)
    (match ref with SlotHeaders => m | _ => req_headers req end)
    (match ref with SlotCookies => m | _ => req_cookies req end)
    (match ref with SlotParams => m | _ => req_params req end)
    (match ref with SlotFields => m | _ => req_fields req end)
    (req_auth req) (req_is_uploading req) (req_isolated req).

(** [sg_strmap_add(&req->slot, name, val)]. *)
Definition slot_add (ref : map_slot) (name val : string) (req : sg_httpreq)
  : sg_httpreq :=
  slot_write ref (sg_strmap_add (slot_read ref req) name val) req.

(** Modelled from the spec: the four map accessors of a request (sg_httpreq.c
    is not among the sources).  A null request is an invalid argument and
    yields a null reference; otherwise the accessor yields the address of
    the slot, whatever the slot holds.  [errno] is threaded explicitly. *)
Definition map_accessor (ref : map_slot) (req : option sg_httpreq) (errno : Z)
  : option map_slot * Z :=
  match req with
  | None => (None, EINVAL)
  | Some _ => (Some ref, errno)
  end.

Definition sg_httpreq_headers := map_accessor SlotHeaders.
Definition sg_httpreq_cookies := map_accessor SlotCookies.
Definition sg_httpreq_params := map_accessor SlotParams.
Definition sg_httpreq_fields := map_accessor SlotFields.

Section Functions.

Context {W : Type} (X : extern W).

Abbreviation srv_t := (sg_httpsrv W).

(** A world step that is not logged. *)
Definition step {A} (f : W -> A * W) : M W A :=
  fun s => let (a, w) := f (st_world s) in (a, mk_state (st_errno s) w (st_trace s)).

(** A logged call without a result. *)
Definition call_ (ev : event) (f : W -> W) : M W unit :=
  call ev (fun w => (tt, f w)).

(** A call such as [sg_free] that is logged and has no further effect the
    model follows. *)
Definition log_ (ev : event) : M W unit := call_ ev (fun w => w).

(** ** sg_httpsrv.c *)

Definition sg__httpsrv_eprintf (srv : srv_t) (text : string) : M W unit :=
  let err := vsnprintf (SG_ERR_SIZE X) text in
  call_ (EvErrCb err) (srv_err_cb srv err).

Definition sg__httpsrv_lock (srv : srv_t) : M W unit :=
  errnum ← call EvMutexLock (pthread_mutex_lock X);
  if negb (errnum =? 0)
  then sg__httpsrv_eprintf srv
         (String.append "Failed to lock mutex: "
            (String.append (sg_strerror X errnum) (String.append "." LF)))
  else mret tt.

Definition sg__httpsrv_unlock (srv : srv_t) : M W unit :=
  errnum ← call EvMutexUnlock (pthread_mutex_unlock X);
  if negb (errnum =? 0)
  then sg__httpsrv_eprintf srv
         (String.append "Failed to unlock mutex: "
            (String.append (sg_strerror X errnum) (String.append "." LF)))
  else mret tt.

(** The default upload hooks installed by the constructor. *)
Definition sg__httpupld_cb : fnptr := FnPtr "sg__httpupld_cb".
Definition sg__httpupld_write_cb : fnptr := FnPtr "sg__httpupld_write_cb".
Definition sg__httpupld_free_cb : fnptr := FnPtr "sg__httpupld_free_cb".
Definition sg__httpupld_save_cb : fnptr := FnPtr "sg__httpupld_save_cb".
Definition sg__httpupld_save_as_cb : fnptr := FnPtr "sg__httpupld_save_as_cb".

(** [sg_alloc] returns zeroed memory: the fields the constructor does not
    store are null or zero. *)
Definition sg_httpsrv_new2 (auth_cb : option (@sg_httpauth_cb W))
    (req_cb : option (@sg_httpreq_cb W)) (err_cb : option (@sg_err_cb W))
    (cls : voidp) : M W (option srv_t) :=
  match req_cb, err_cb with
  | Some req_cb, Some err_cb =>
      allocated ← step (sg_alloc X);
      if negb allocated then mret None else
      dir ← step (sg_tmpdir X);
      match dir with
      | None => mret None
      | Some d =>
          errnum ← step (pthread_mutex_init X);
          if negb (errnum =? 0) then (set_errno errnum ;; mret None) else
          mret (Some (mk_httpsrv None auth_cb req_cb err_cb cls
                       None NullPtr
                       (Some sg__httpupld_cb) SelfSrv
                       (Some sg__httpupld_write_cb) (Some sg__httpupld_free_cb)
                       (Some sg__httpupld_save_cb) (Some sg__httpupld_save_as_cb)
                       (Some d)
                       (if arm X then 1024 else 4096)
                       (if arm X then 1048576 else 4194304)
                       (if arm X then 16777216 else 67108864)
                       0 0 0 []))
      end
  | _, _ => set_errno EINVAL ;; mret None
  end.

Definition sg_httpsrv_shutdown (srv : option srv_t) : M W (Z * option srv_t) :=
  match srv with
  | None => mret (EINVAL, None)
  | Some srv =>
      match srv_handle srv with
      | None => mret (EALREADY, Some srv)
      | Some h =>
          call_ (EvStopDaemon h) (MHD_stop_daemon X h) ;;
          mret (0, Some (set_srv_handle None srv))
      end
  end.

Definition sg_httpsrv_set_upld_cbs (srv : option srv_t) (cb : option fnptr)
    (cls : voidp) (write_cb free_cb save_cb save_as_cb : option fnptr)
  : Z * option srv_t :=
  match srv with
  | None => (EINVAL, None)
  | Some s =>
      if is_null cb || is_null write_cb || is_null save_cb || is_null save_as_cb
      then (EINVAL, Some s)
      else (0, Some (set_srv_upld_cbs cb cls write_cb free_cb save_cb save_as_cb s))
  end.

Definition sg_httpsrv_set_post_buf_size (srv : option srv_t) (size : Z)
  : Z * option srv_t :=
  match srv with
  | None => (EINVAL, None)
  | Some s =>
      if size <? 256 then (EINVAL, Some s)
      else (0, Some (set_srv_post_buf_size size s))
  end.

(** *** The listener *)

Definition sg__httpsrv_oel : fnptr := FnPtr "sg__httpsrv_oel".
Definition sg__httpsrv_rcc : fnptr := FnPtr "sg__httpsrv_rcc".
Definition sg__httpsrv_ncc : fnptr := FnPtr "sg__httpsrv_ncc".

(** The guard that opens [sg__httpsrv_listen2], for a server that is not
    null. *)
Definition listen_guard (srv : srv_t) : bool :=
  is_null (srv_upld_cb srv) || is_null (srv_upld_write_cb srv) ||
  is_null (srv_upld_save_cb srv) || is_null (srv_upld_save_as_cb srv) ||
  is_null (srv_uplds_dir srv) || (srv_post_buf_size srv <? 256).

(** The flags the listener starts from. *)
Definition listen_flags (threaded : bool) : Z :=
  Z.lor (Z.lor (Z.lor MHD_USE_ITC MHD_USE_ERROR_LOG) MHD_ALLOW_SUSPEND_RESUME)
    (if threaded
     then Z.lor MHD_USE_INTERNAL_POLLING_THREAD MHD_USE_THREAD_PER_CONNECTION
     else MHD_USE_AUTO_INTERNAL_THREAD).

(** The TLS block of the listener: the flag and up to seven items. *)
Definition listen_tls (key pwd cert trust dhparams priorities : option string)
    (backlog : Z) (flags : Z) (buf : option (list MHD_OptionItem * Z))
  : Z * option (list MHD_OptionItem * Z) :=
  match key, cert with
  | Some k, Some c =>
      let buf := addopt buf MHD_OPTION_HTTPS_MEM_KEY (VNum 0) (PStr k) in
      let buf := addopt_str buf MHD_OPTION_HTTPS_KEY_PASSWORD pwd in
      let buf := addopt buf MHD_OPTION_HTTPS_MEM_CERT (VNum 0) (PStr c) in
      let buf := addopt_str buf MHD_OPTION_HTTPS_MEM_TRUST trust in
      let buf := addopt_str buf MHD_OPTION_HTTPS_MEM_DHPARAMS dhparams in
      let buf := addopt_str buf MHD_OPTION_HTTPS_PRIORITIES priorities in
      let buf := addopt_pos buf MHD_OPTION_LISTEN_BACKLOG_SIZE backlog in
      (Z.lor flags MHD_USE_TLS, buf)
  | _, _ => (flags, buf)
  end.

(** The listener from the two notifier items on, that is everything after
    the host name has been resolved.  The result [None] stands for a run
    that stored past the end of the option array.  The engine is handed the
    items up to and including the terminating one. *)
Definition listen_start (srv : srv_t)
    (key pwd cert trust dhparams priorities : option string)
    (port backlog : Z) (flags : Z) (buf : option (list MHD_OptionItem * Z))
  : M W (option bool * option srv_t) :=
  let buf := addopt buf MHD_OPTION_NOTIFY_COMPLETED (VFn sg__httpsrv_rcc) PSrv in
  let buf := addopt buf MHD_OPTION_NOTIFY_CONNECTION (VFn sg__httpsrv_ncc) PSrv in
  let buf := addopt_pos buf MHD_OPTION_CONNECTION_LIMIT (srv_con_limit srv) in
  let buf := addopt_pos buf MHD_OPTION_CONNECTION_TIMEOUT (srv_con_timeout srv) in
  let buf := addopt_pos buf MHD_OPTION_THREAD_POOL_SIZE (srv_thr_pool_size srv) in
  let '(flags, buf) :=
    listen_tls key pwd cert trust dhparams priorities backlog flags buf in
  let buf := addopt buf MHD_OPTION_END (VNum 0) PNull in
  match buf with
  | None => mret (None, Some srv)
  | Some (ops, pos) =>
      let items := take (Z.to_nat pos) ops in
      h ← call (EvStartDaemon flags port items) (MHD_start_daemon X flags port items);
      mret (Some (negb (is_null h)), Some (set_srv_handle h srv))
  end.

Definition sg__httpsrv_listen2 (srv : option srv_t)
    (key pwd cert trust dhparams priorities hostname : option string)
    (port backlog : Z) (threaded : bool)
  : M W (option bool * option srv_t) :=
  match srv with
  | None => set_errno EINVAL;; mret (Some false, None)
  | Some srv =>
      if listen_guard srv then (set_errno EINVAL;; mret (Some false, Some srv))
      else
        let flags := listen_flags threaded in
        let buf :=
          sg__httpsrv_addopt ops_init 0
            MHD_OPTION_EXTERNAL_LOGGER (VFn sg__httpsrv_oel) PSrv in
        match hostname with
        | Some host =>
            match inet_pton4 X host with
            | Some a =>
                let addr := mk_sockaddr AF_INET (htons X port) a in
                listen_start srv key pwd cert trust dhparams priorities
                  port backlog flags
                  (addopt buf MHD_OPTION_SOCK_ADDR (VNum 0) (PSockAddr addr))
            | None =>
                match inet_pton6 X host with
                | None =>
                    sg__httpsrv_eprintf srv
                      (String.append "Invalid host name: "
                         (String.append host (String.append "." LF)));;
                    set_errno EINVAL;;
                    mret (Some false, Some srv)
                | Some a6 =>
                    let addr6 := mk_sockaddr AF_INET6 (htons X port) a6 in
                    listen_start srv key pwd cert trust dhparams priorities
                      port backlog (Z.lor flags MHD_USE_DUAL_STACK)
                      (addopt buf MHD_OPTION_SOCK_ADDR (VNum 0) (PSockAddr addr6))
                end
            end
        | None =>
            listen_start srv key pwd cert trust dhparams priorities
              port backlog (Z.lor flags MHD_USE_DUAL_STACK) buf
        end
  end.

Definition sg__httpsrv_listen (srv : option srv_t)
    (key pwd cert trust dhparams priorities : option string)
    (port : Z) (threaded : bool) : M W (option bool * option srv_t) :=
  sg__httpsrv_listen2 srv key pwd cert trust dhparams priorities None
    port 0 threaded.

Definition sg_httpsrv_listen2 (srv : option srv_t) (hostname : option string)
    (port backlog : Z) (threaded : bool) : M W (option bool * option srv_t) :=
  sg__httpsrv_listen2 srv None None None None None None hostname
    port backlog threaded.

Definition sg_httpsrv_listen (srv : option srv_t) (port : Z) (threaded : bool)
  : M W (option bool * option srv_t) :=
  sg__httpsrv_listen srv None None None None None None port threaded.

(** *** Releasing the server *)

(** First [LL_FOREACH_SAFE] of [sg_httpsrv_free]: the joins.  The loop
    walks the registry as it stands when the loop is entered; nothing in the
    body relinks it. *)
Fixpoint free_join_all (srv : srv_t) (l : list sg__httpreq_isolated) : M W unit :=
  match l with
  | [] => mret tt
  | isolated :: tmp =>
      sg__httpsrv_unlock srv;;
      errnum ← call (EvJoin (iso_thread isolated))
                 (pthread_join X (iso_thread isolated));
      (if negb (errnum =? 0)
       then sg__httpsrv_eprintf srv
              (String.append "Failed to join thread "
                 (String.append (fmt_thread_ptr X isolated)
                    (String.append ": "
                       (String.append (sg_strerror X errnum)
                          (String.append "." LF)))))
       else mret tt);;
      sg__httpsrv_lock srv;;
      free_join_all srv tmp
  end.

(** Second [LL_FOREACH_SAFE]: resume what is still suspended, unlink and
    release every entry.  [tmp] is read before the body unlinks the current
    node, so the walk follows the registry as it stood at loop entry. *)
Fixpoint free_resume_all (srv : srv_t) (l : list sg__httpreq_isolated)
  : M W srv_t :=
  match l with
  | [] => mret srv
  | isolated :: tmp =>
      info ← query (EvInfoSuspended (iso_handle_con isolated))
               (MHD_get_connection_info_suspended X (iso_handle_con isolated));
      (match info with
       | Some true =>
           call_ (EvResume (iso_handle_con isolated))
             (MHD_resume_connection X (iso_handle_con isolated))
       | _ => mret tt
       end);;
      let srv :=
        set_srv_isolated_list (LL_DELETE (srv_isolated_list srv) isolated) srv in
      log_ (EvFree (FreedIsolated isolated));;
      free_resume_all srv tmp
  end.

(** [sg_httpsrv_free].  The result is the container as it stands when it is
    handed to [sg_free], the last call of the function. *)
Definition sg_httpsrv_free (srv : option srv_t) : M W (option srv_t) :=
  match srv with
  | None => mret None
  | Some srv =>
      sg__httpsrv_lock srv;;
      free_join_all srv (srv_isolated_list srv);;
      sg__httpsrv_unlock srv;;
      sg__httpsrv_lock srv;;
      srv ← free_resume_all srv (srv_isolated_list srv);
      sg__httpsrv_unlock srv;;
      '(_, srv') ← sg_httpsrv_shutdown (Some srv);
      log_ (EvFree FreedUpldsDir);;
      call_ EvMutexDestroy (pthread_mutex_destroy X);;
      log_ (EvFree FreedSrv);;
      mret srv'
  end.

(** *** The access handler *)

(** The tail of [sg__httpsrv_ahc]: keep waiting on a suspended connection,
    dispatch the response otherwise. *)
Definition ahc_finish (con : option MHD_Connection) (req : sg_httpreq) (size : Z)
  : M W (MHD_Result * Z * option sg_httpreq) :=
  info ← match con with
         | Some c =>
             query (EvInfoSuspended c) (MHD_get_connection_info_suspended X c)
         | None => mret None
         end;
  match info with
  | Some true => mret (MHD_YES, size, Some req)
  | _ =>
      '(r, res) ← call EvResDispatch (sg__httpres_dispatch X (req_res req));
      mret (r, size, Some (set_req_auth (set_auth_res res (req_auth req)) req))
  end.

(** [sg__httpsrv_ahc].  [*con_cls] and [*upld_data_size] are read from the
    arguments and returned next to the verdict. *)
Definition sg__httpsrv_ahc (srv : srv_t) (con : option MHD_Connection)
    (url method version upld_data : option string) (upld_data_size : Z)
    (con_cls : option sg_httpreq)
  : M W (MHD_Result * Z * option sg_httpreq) :=
  info ← match con with
         | Some c =>
             query (EvInfoSocketContext c)
               (MHD_get_connection_info_socket_context X c)
         | None => mret None
         end;
  match info with
  | Some true => mret (MHD_NO, upld_data_size, con_cls)
  | _ =>
      match con_cls with
      | None =>
          req ← call EvReqNew (sg__httpreq_new X srv con version method url);
          match req with
          | None => mret (MHD_NO, upld_data_size, None)
          | Some req =>
              match srv_auth_cb srv with
              | Some auth_cb =>
                  '(r, req) ← call EvAuthCb (auth_cb req);
                  let req := set_req_ret r req in
                  let '(go_on, auth) := sg__httpauth_dispatch (req_auth req) in
                  let req := set_req_auth auth req in
                  if negb go_on
                  then mret (res_ret (req_res req), upld_data_size, Some req)
                  else mret (MHD_YES, upld_data_size, Some req)
              | None => mret (MHD_YES, upld_data_size, Some req)
              end
          end
      | Some req =>
          if negb (auth_canceled (req_auth req)) then
            '(terminal, req, size) ←
              call EvUpldsProcess
                (sg__httpuplds_process X srv req con upld_data upld_data_size);
            if (terminal : bool) then mret (res_ret (req_res req), size, Some req)
            else
              req ← (if negb (req_isolated req)
                     then call EvReqCb (srv_req_cb srv req)
                     else mret req);
              ahc_finish con req size
          else ahc_finish con req upld_data_size
      end
  end.

End Functions.

Arguments sg_httpauth_cb : clear implicits.
Arguments sg_httpreq_cb : clear implicits.
Arguments sg_err_cb : clear implicits.

(** ** Observations used in the statements *)

Definition is_err_report (e : event) : bool :=
  match e with
  | EvErrCb _ => true
  | _ => false
  end.

(** A trace without the error reports handed to the error callback. *)
Definition without_reports (tr : list event) : list event :=
  List.filter (fun e => negb (is_err_report e)) tr.

Definition is_uplds_process (e : event) : bool :=
  match e with
  | EvUpldsProcess => true
  | _ => false
  end.

Definition is_req_cb (e : event) : bool :=
  match e with
  | EvReqCb => true
  | _ => false
  end.

Definition is_res_dispatch (e : event) : bool :=
  match e with
  | EvResDispatch => true
  | _ => false
  end.

Definition is_start_daemon (e : event) : bool :=
  match e with
  | EvStartDaemon _ _ _ => true
  | _ => false
  end.

(** The events a run appended to the trace it started from. *)
Definition events_since {W} (s s' : state W) : list event :=
  drop (length (st_trace s)) (st_trace s').

(** What the registry drain is expected to log for the join of each
    worker: release the mutex, join, take the mutex again. *)
Definition join_events (l : list sg__httpreq_isolated) : list event :=
  List.flat_map
    (fun e => [EvMutexUnlock; EvJoin (iso_thread e); EvMutexLock]) l.

(** What it is expected to log for each entry afterwards, given the answer
    of the engine to the question whether the connection is suspended. *)
Definition resume_events (l : list (sg__httpreq_isolated * option bool))
  : list event :=
  List.flat_map
    (fun p =>
       [EvInfoSuspended (iso_handle_con p.1) p.2] ++
       (match p.2 with
        | Some true => [EvResume (iso_handle_con p.1)]
        | _ => []
        end) ++
       [EvFree (FreedIsolated p.1)]) l.

Definition stop_events (h : option MHD_Daemon) : list event :=
  match h with
  | Some d => [EvStopDaemon d]
  | None => []
  end.

(** Successive calls of the write-once setters, with the codes they
    return. *)
Fixpoint set_realm_calls (vals : list string) (auth : option sg_httpauth)
  : list Z * option sg_httpauth :=
  match vals with
  | [] => ([], auth)
  | v :: vals =>
      let '(r, auth) := sg_httpauth_set_realm auth (Some v) in
      let '(rs, auth) := set_realm_calls vals auth in
      (r :: rs, auth)
  end.


(** The four accessors with the slot each one stands for. *)
Definition accessors : list ((option sg_httpreq -> Z -> option map_slot * Z) * map_slot) :=
  [ (sg_httpreq_headers, SlotHeaders); (sg_httpreq_cookies, SlotCookies);
    (sg_httpreq_params, SlotParams); (sg_httpreq_fields, SlotFields) ].

(** What one accessor guarantees. *)
Definition accessor_ok (req : sg_httpreq) (errno : Z)
    (p : (option sg_httpreq -> Z -> option map_slot * Z) * map_slot) : Prop :=
  let accessor := p.1 in
  let ref := p.2 in
  accessor (Some req) errno = (Some ref, errno) /\
  accessor None errno = (None, EINVAL) /\
  (forall r e, (accessor r e).1 = None -> r = None) /\
  (slot_read ref req = None -> sg_strmap_count (slot_read ref req) = 0) /\
  (forall name val,
     let req' := slot_add ref name val req in
     sg_strmap_get (slot_read ref req') name = Some val /\
     (sg_strmap_get (slot_read ref req) name = None ->
      sg_strmap_count (slot_read ref req')
      = sg_strmap_count (slot_read ref req) + 1) /\
     (forall other, other <> name ->
        sg_strmap_get (slot_read ref req') other
        = sg_strmap_get (slot_read ref req) other)).

Section Observations.

Context {W : Type} (X : extern W).

(** The run of [m] from [s] appends events which, error reports apart, are
    [expected]. *)
Definition emits {A} (m : M W A) (s : state W) (expected : list event) : Prop :=
  exists delta, st_trace (m s).2 = st_trace s ++ delta /\
                without_reports delta = expected.

Fixpoint shutdown_times (n : nat) (srv : option (sg_httpsrv W))
  : M W (list Z * option (sg_httpsrv W)) :=
  match n with
  | O => mret ([], srv)
  | S n =>
      '(r, srv) ← sg_httpsrv_shutdown X srv;
      '(rs, srv) ← shutdown_times n srv;
      mret (r :: rs, srv)
  end.

(** Whether the engine reports the connection as claimed by the
    connection-notify hook. *)
Definition claimed (con : option MHD_Connection) (w : W) : bool :=
  match con with
  | Some c =>
      match MHD_get_connection_info_socket_context X c w with
      | Some true => true
      | _ => false
      end
  | None => false
  end.

(** Whether the engine reports the connection as suspended. *)
Definition suspended (con : option MHD_Connection) (w : W) : bool :=
  match con with
  | Some c =>
      match MHD_get_connection_info_suspended X c w with
      | Some true => true
      | _ => false
      end
  | None => false
  end.

(** The two queries of the access handler as they appear in the trace. *)
Definition socket_context_events (con : option MHD_Connection) (w : W) : list event :=
  match con with
  | Some c => [EvInfoSocketContext c (MHD_get_connection_info_socket_context X c w)]
  | None => []
  end.

Definition suspended_events (con : option MHD_Connection) (w : W) : list event :=
  match con with
  | Some c => [EvInfoSuspended c (MHD_get_connection_info_suspended X c w)]
  | None => []
  end.

(** The reading of the cancel sentence under which body processing
    resumes: a data callback on the request feeds the upload engine and
    calls the request handler. *)
Definition resumes_processing (srv : sg_httpsrv W) (con : option MHD_Connection)
    (url method version upld_data : option string) (upld_data_size : Z)
    (req : sg_httpreq) (s : state W) : Prop :=
  let s' := (sg__httpsrv_ahc X srv con url method version upld_data
               upld_data_size (Some req) s).2 in
  existsb is_uplds_process (events_since s s') = true /\
  existsb is_req_cb (events_since s s') = true.

(** The listener turning the call down at its opening guard: no outside
    call, [errno] set, the server as it was. *)
Definition listen_rejects (srv : sg_httpsrv W)
    (key pwd cert trust dhparams priorities hostname : option string)
    (port backlog : Z) (threaded : bool) (s : state W) : Prop :=
  sg__httpsrv_listen2 X (Some srv) key pwd cert trust dhparams priorities
    hostname port backlog threaded s
  = ((Some false, Some srv), mk_state EINVAL (st_world s) (st_trace s)).

End Observations.

(** ** The option array seen as the list of the items written to it *)

(** The array and the cursor after the given items have been stored, in
    order, through [sg__httpsrv_addopt]; no buffer is left once a fifteenth
    item has been stored. *)
Definition buf_of (written : list MHD_OptionItem) : option (list MHD_OptionItem * Z) :=
  if (length written <=? Z.to_nat OPS_SLOTS)%nat
  then Some (written ++ replicate (Z.to_nat OPS_SLOTS - length written) unwritten_item,
             Z.of_nat (length written))
  else None.

Definition str_item (opt : MHD_OPTION) (p : option string) : list MHD_OptionItem :=
  match p with
  | Some s => [mk_item opt (VNum 0) (PStr s)]
  | None => []
  end.

Definition pos_item (opt : MHD_OPTION) (n : Z) : list MHD_OptionItem :=
  if 0 <? n then [mk_item opt (VNum n) PNull] else [].

Definition tls_items (key pwd cert trust dhparams priorities : option string)
    (backlog : Z) : list MHD_OptionItem :=
  match key, cert with
  | Some k, Some c =>
      [mk_item MHD_OPTION_HTTPS_MEM_KEY (VNum 0) (PStr k)] ++
      str_item MHD_OPTION_HTTPS_KEY_PASSWORD pwd ++
      [mk_item MHD_OPTION_HTTPS_MEM_CERT (VNum 0) (PStr c)] ++
      str_item MHD_OPTION_HTTPS_MEM_TRUST trust ++
      str_item MHD_OPTION_HTTPS_MEM_DHPARAMS dhparams ++
      str_item MHD_OPTION_HTTPS_PRIORITIES priorities ++
      pos_item MHD_OPTION_LISTEN_BACKLOG_SIZE backlog
  | _, _ => []
  end.

Definition tls_flags (key cert : option string) (flags : Z) : Z :=
  match key, cert with
  | Some _, Some _ => Z.lor flags MHD_USE_TLS
  | _, _ => flags
  end.

Definition logger_item : MHD_OptionItem :=
  mk_item MHD_OPTION_EXTERNAL_LOGGER (VFn (FnPtr "sg__httpsrv_oel")) PSrv.

Definition sock_addr_item (addr : sockaddr) : MHD_OptionItem :=
  mk_item MHD_OPTION_SOCK_ADDR (VNum 0) (PSockAddr addr).

Definition is_sock_addr (it : MHD_OptionItem) : bool :=
  match item_option it with
  | MHD_OPTION_SOCK_ADDR => true
  | _ => false
  end.

(** The items that follow the host resolution. *)
Definition tail_items {W} (srv : sg_httpsrv W)
    (key pwd cert trust dhparams priorities : option string) (backlog : Z)
  : list MHD_OptionItem :=
  [mk_item MHD_OPTION_NOTIFY_COMPLETED (VFn (FnPtr "sg__httpsrv_rcc")) PSrv;
   mk_item MHD_OPTION_NOTIFY_CONNECTION (VFn (FnPtr "sg__httpsrv_ncc")) PSrv] ++
  pos_item MHD_OPTION_CONNECTION_LIMIT (srv_con_limit srv) ++
  pos_item MHD_OPTION_CONNECTION_TIMEOUT (srv_con_timeout srv) ++
  pos_item MHD_OPTION_THREAD_POOL_SIZE (srv_thr_pool_size srv) ++
  tls_items key pwd cert trust dhparams priorities backlog ++
  [mk_item MHD_OPTION_END (VNum 0) PNull].

(** Every optional item of the listener is in use: the three tunings, the
    TLS material with all its optional parts, and the backlog. *)
Definition all_options_in_use {W} (srv : sg_httpsrv W)
    (key pwd cert trust dhparams priorities : option string) (backlog : Z) : Prop :=
  0 < srv_con_limit srv /\ 0 < srv_con_timeout srv /\
  0 < srv_thr_pool_size srv /\
  is_null key = false /\ is_null pwd = false /\ is_null cert = false /\
  is_null trust = false /\ is_null dhparams = false /\
  is_null priorities = false /\ 0 < backlog.

(** ** A concrete world

    The world is the list of connections the engine holds suspended.  The
    externals succeed; the two address parsers know one literal each. *)
Module Scenario.

Definition world := list MHD_Connection.

Definition loopback4 : Z := 2130706433.
Definition loopback6 : Z := 1.

Definition new_request (con : option MHD_Connection)
    (version method url : option string) : sg_httpreq :=
  mk_httpreq con version method url None None None None
    (mk_httpauth (mk_httpres con None None 0 false) None None None false)
    false false.

Definition X : extern world :=
  {| arm := false;
     SG_ERR_SIZE := 256;
     htons := fun p => Z.lor (Z.shiftl (Z.land p 255) 8) (Z.shiftr p 8);
     inet_pton4 := fun h => if String.eqb h "127.0.0.1" then Some loopback4 else None;
     inet_pton6 := fun h => if String.eqb h "::1" then Some loopback6 else None;
     fmt_thread_ptr := fun _ => "0x0"%string;
     sg_strerror := fun _ => "error"%string;
     sg_alloc := fun w => (true, w);
     sg_tmpdir := fun w => (Some "/tmp"%string, w);
     pthread_mutex_init := fun w => (0, w);
     pthread_mutex_lock := fun w => (0, w);
     pthread_mutex_unlock := fun w => (0, w);
     pthread_mutex_destroy := fun w => w;
     pthread_join := fun _ w => (0, w);
     MHD_get_connection_info_socket_context := fun _ _ => Some false;
     MHD_get_connection_info_suspended := fun c w => Some (bool_decide (c ∈ w));
     MHD_resume_connection := fun c w => List.remove MHD_Connection_eq_dec c w;
     MHD_start_daemon := fun _ _ _ w => (Some (Daemon 1), w);
     MHD_stop_daemon := fun _ w => w;
     sg__httpreq_new := fun _ con version method url w =>
                          (Some (new_request con version method url), w);
     sg__httpuplds_process := fun _ req _ _ size w => (false, req, size, w);
     sg__httpres_dispatch := fun res w => (MHD_YES, res, w) |}.

Definition s0 : state world := mk_state 0 [] [].

(** A request handler that leaves the request as it is. *)
Definition req_cb : sg_httpreq_cb world := fun req w => (req, w).

Definition err_cb : sg_err_cb world := fun _ w => w.

(** An authentication callback that composes a denial and then cancels. *)
Definition deny_then_cancel : sg_httpauth_cb world :=
  fun req w =>
    let auth := (sg_httpauth_deny (Some (req_auth req))
                   (Some "Content-Type"%string) (Some "text/plain"%string)).2 in
    let auth := (sg_httpauth_cancel auth).2 in
    (false, set_req_auth (default (req_auth req) auth) req, w).

(** An authentication callback that cancels without a denial. *)
Definition cancel_only : sg_httpauth_cb world :=
  fun req w =>
    let auth := (sg_httpauth_cancel (Some (req_auth req))).2 in
    (false, set_req_auth (default (req_auth req) auth) req, w).

(** The server the constructor builds in this world. *)
Definition srv_of (auth_cb : option (sg_httpauth_cb world)) : sg_httpsrv world :=
  default
    (mk_httpsrv None None req_cb err_cb NullPtr None NullPtr None NullPtr
       None None None None None 0 0 0 0 0 0 [])
    (sg_httpsrv_new2 X auth_cb (Some req_cb) (Some err_cb) NullPtr s0).1.

(** The same server after [sg_httpsrv_listen] on port 8080. *)
Definition listening : sg_httpsrv world :=
  default (srv_of None)
    (sg_httpsrv_listen X (Some (srv_of None)) 8080 false s0).1.2.

(** The constructed server after the setter has installed user hooks with
    a null free hook. *)
Definition no_free_hook : sg_httpsrv world :=
  default (srv_of None)
    (sg_httpsrv_set_upld_cbs (Some (srv_of None)) (Some (FnPtr "my_upld_cb"))
       NullPtr (Some (FnPtr "my_write_cb")) None (Some (FnPtr "my_save_cb"))
       (Some (FnPtr "my_save_as_cb"))).2.

(** The constructed server with the three tunings set. *)
Definition tuned : sg_httpsrv world :=
  let s := srv_of None in
  mk_httpsrv (srv_handle s) (srv_auth_cb s) (srv_req_cb s) (srv_err_cb s)
    (srv_cls s) (srv_cli_cb s) (srv_cli_cls s) (srv_upld_cb s) (srv_upld_cls s)
    (srv_upld_write_cb s) (srv_upld_free_cb s) (srv_upld_save_cb s)
    (srv_upld_save_as_cb s) (srv_uplds_dir s) (srv_post_buf_size s)
    (srv_payld_limit s) (srv_uplds_limit s) 4 30 100 (srv_isolated_list s).

Definition con1 : MHD_Connection := Connection 1.
Definition con2 : MHD_Connection := Connection 2.

(** The first callback of a GET on [con1] at a server guarded by the given
    authentication callback, and the request it leaves in the connection
    slot. *)
Definition first_call (cb : sg_httpauth_cb world) :=
  sg__httpsrv_ahc X (srv_of (Some cb)) (Some con1)
    (Some "/"%string) (Some "GET"%string) (Some "HTTP/1.1"%string) None 0
    None s0.

Definition req_after (cb : sg_httpauth_cb world) : sg_httpreq :=
  default (new_request None None None None) (first_call cb).1.2.

(** The next callback on that connection. *)
Definition next_call (cb : sg_httpauth_cb world) :=
  sg__httpsrv_ahc X (srv_of (Some cb)) (Some con1)
    (Some "/"%string) (Some "GET"%string) (Some "HTTP/1.1"%string) None 0
    (Some (req_after cb)) (first_call cb).2.

(** A listening server with two isolated workers; the world holds the
    connection of the second one suspended. *)
Definition with_workers : sg_httpsrv world :=
  set_srv_isolated_list [mk_isolated 11%N con1; mk_isolated 12%N con2] listening.

Definition s_workers : state world := mk_state 0 [con2] [].

End Scenario.

(** An authentication object as the unit tests start from. *)
Definition test_auth : sg_httpauth :=
  mk_httpauth (mk_httpres (Some Scenario.con1) None None 0 false)
    None None None false.

(** ** The rest of sg_httpsrv.c *)

Definition set_srv_cli_cb (cb : option fnptr) (cls : voidp) {W} (s : sg_httpsrv W)
  : sg_httpsrv W :=
  mk_httpsrv (srv_handle s) (srv_auth_cb s) (srv_req_cb s) (srv_err_cb s)
    (srv_cls s) cb cls (srv_upld_cb s) (srv_upld_cls s)
    (srv_upld_write_cb s) (srv_upld_free_cb s) (srv_upld_save_cb s)
    (srv_upld_save_as_cb s) (srv_uplds_dir s) (srv_post_buf_size s)
    (srv_payld_limit s) (srv_uplds_limit s) (srv_thr_pool_size s)
    (srv_con_timeout s) (srv_con_limit s) (srv_isolated_list s).

Definition set_srv_uplds_dir (d : option string) {W} (s : sg_httpsrv W)
  : sg_httpsrv W :=
  mk_httpsrv (srv_handle s) (srv_auth_cb s) (srv_req_cb s) (srv_err_cb s)
    (srv_cls s) (srv_cli_cb s) (srv_cli_cls s) (srv_upld_cb s) (srv_upld_cls s)
    (srv_upld_write_cb s) (srv_upld_free_cb s) (srv_upld_save_cb s)
    (srv_upld_save_as_cb s) d (srv_post_buf_size s)
    (srv_payld_limit s) (srv_uplds_limit s) (srv_thr_pool_size s)
    (srv_con_timeout s) (srv_con_limit s) (srv_isolated_list s).

Definition set_srv_payld_limit (n : Z) {W} (s : sg_httpsrv W) : sg_httpsrv W :=
  mk_httpsrv (srv_handle s) (srv_auth_cb s) (srv_req_cb s) (srv_err_cb s)
    (srv_cls s) (srv_cli_cb s) (srv_cli_cls s) (srv_upld_cb s) (srv_upld_cls s)
    (srv_upld_write_cb s) (srv_upld_free_cb s) (srv_upld_save_cb s)
    (srv_upld_save_as_cb s) (srv_uplds_dir s) (srv_post_buf_size s)
    n (srv_uplds_limit s) (srv_thr_pool_size s)
    (srv_con_timeout s) (srv_con_limit s) (srv_isolated_list s).

Definition set_srv_uplds_limit (n : Z) {W} (s : sg_httpsrv W) : sg_httpsrv W :=
  mk_httpsrv (srv_handle s) (srv_auth_cb s) (srv_req_cb s) (srv_err_cb s)
    (srv_cls s) (srv_cli_cb s) (srv_cli_cls s) (srv_upld_cb s) (srv_upld_cls s)
    (srv_upld_write_cb s) (srv_upld_free_cb s) (srv_upld_save_cb s)
    (srv_upld_save_as_cb s) (srv_uplds_dir s) (srv_post_buf_size s)
    (srv_payld_limit s) n (srv_thr_pool_size s)
    (srv_con_timeout s) (srv_con_limit s) (srv_isolated_list s).

Definition set_srv_thr_pool_size (n : Z) {W} (s : sg_httpsrv W) : sg_httpsrv W :=
  mk_httpsrv (srv_handle s) (srv_auth_cb s) (srv_req_cb s) (srv_err_cb s)
    (srv_cls s) (srv_cli_cb s) (srv_cli_cls s) (srv_upld_cb s) (srv_upld_cls s)
    (srv_upld_write_cb s) (srv_upld_free_cb s) (srv_upld_save_cb s)
    (srv_upld_save_as_cb s) (srv_uplds_dir s) (srv_post_buf_size s)
    (srv_payld_limit s) (srv_uplds_limit s) n
    (srv_con_timeout s) (srv_con_limit s) (srv_isolated_list s).

Definition set_srv_con_timeout (n : Z) {W} (s : sg_httpsrv W) : sg_httpsrv W :=
  mk_httpsrv (srv_handle s) (srv_auth_cb s) (srv_req_cb s) (srv_err_cb s)
    (srv_cls s) (srv_cli_cb s) (srv_cli_cls s) (srv_upld_cb s) (srv_upld_cls s)
    (srv_upld_write_cb s) (srv_upld_free_cb s) (srv_upld_save_cb s)
    (srv_upld_save_as_cb s) (srv_uplds_dir s) (srv_post_buf_size s)
    (srv_payld_limit s) (srv_uplds_limit s) (srv_thr_pool_size s)
    n (srv_con_limit s) (srv_isolated_list s).

Definition set_srv_con_limit (n : Z) {W} (s : sg_httpsrv W) : sg_httpsrv W :=
  mk_httpsrv (srv_handle s) (srv_auth_cb s) (srv_req_cb s) (srv_err_cb s)
    (srv_cls s) (srv_cli_cb s) (srv_cli_cls s) (srv_upld_cb s) (srv_upld_cls s)
    (srv_upld_write_cb s) (srv_upld_free_cb s) (srv_upld_save_cb s)
    (srv_upld_save_as_cb s) (srv_uplds_dir s) (srv_post_buf_size s)
    (srv_payld_limit s) (srv_uplds_limit s) (srv_thr_pool_size s)
    (srv_con_timeout s) n (srv_isolated_list s).

(** The notice of the engine that the logger keeps from the error
    callback. *)
Definition internal_error_notice : string :=
  String.append "Application reported internal error, closing connection." LF.

(** The six numeric settings of a server, each with a setter and a getter
    of its own in the source. *)
Inductive setting :=
| PostBufSize | PayldLimit | UpldsLimit | ThrPoolSize | ConTimeout | ConLimit.

(** [ENOMEM], which [strdup] stores in [errno] when it returns null. *)
Definition ENOMEM : Z := 12.

(** A non-null [const char *dir] handed to [sg_httpsrv_set_upld_dir]: a
    string of the caller's own, or the pointer [sg_httpsrv_upld_dir]
    returned for the same server, which is [srv->uplds_dir] itself. *)
Inductive dir_ptr :=
| CallerString (d : string)
| StoredUpldsDir.

(** The configuration calls of the public interface. *)
Inductive config_call :=
| SetCliCb (cb : option fnptr) (cls : voidp)
| SetUpldCbs (cb : option fnptr) (cls : voidp)
    (write_cb free_cb save_cb save_as_cb : option fnptr)
| SetUpldDir (dir : option dir_ptr)
| SetNumber (which : setting) (n : Z).

Section MoreFunctions.

Context {W : Type}.

(** Further externals: libc, libmicrohttpd, and the sibling units that own
    the uploads and the request. *)
Record extern_more := mk_extern_more {
  strdup : string -> W -> option string * W;
  (** [MHD_get_daemon_info(...)->port] and [->flags]; [None] for a null
      [info], which the source dereferences unchecked *)
  MHD_get_daemon_info_bind_port : MHD_Daemon -> W -> option Z;
  MHD_get_daemon_info_flags : MHD_Daemon -> W -> option Z;
  sg__httpuplds_cleanup : sg_httpsrv W -> sg_httpreq -> W -> W;
  sg__httpreq_free : sg_httpreq -> W -> W;
  (** sg_utils: the default error callback *)
  sg__err_cb : sg_err_cb W }.

Context (X : extern W) (Y : extern_more).

Abbreviation srv_t := (sg_httpsrv W).

(** A read of the world that is not logged. *)
Definition ask {A} (f : W -> A) : M W A := fun s => (f (st_world s), s).

(** [sg__httpsrv_oel]: the text is the format with its arguments filled
    in. *)
Definition sg__httpsrv_oel_run (srv : srv_t) (text : string) : M W unit :=
  let err := vsnprintf (SG_ERR_SIZE X) text in
  if negb (String.eqb err internal_error_notice)
  then call_ (EvErrCb err) (srv_err_cb srv err)
  else mret tt.

(** [sg__httpsrv_rcc]: the result is the connection slot [*con_cls] as the
    function leaves it. *)
Definition sg__httpsrv_rcc_run (srv : srv_t) (con_cls : option sg_httpreq)
  : M W (option sg_httpreq) :=
  match con_cls with
  | Some req =>
      step (fun w => (tt, sg__httpuplds_cleanup Y srv req w));;
      step (fun w => (tt, sg__httpreq_free Y req w));;
      mret None
  | None => mret None
  end.

Definition sg_httpsrv_new (cb : option (sg_httpreq_cb W)) (cls : voidp)
  : M W (option srv_t) :=
  sg_httpsrv_new2 X None cb (Some (sg__err_cb Y)) cls.

(** *** The TLS entry points *)

Definition sg_httpsrv_tls_listen4 (srv : option srv_t)
    (key pwd cert trust dhparams priorities hostname : option string)
    (port backlog : Z) (threaded : bool) : M W (option bool * option srv_t) :=
  if negb (is_null key) && negb (is_null cert)
  then sg__httpsrv_listen2 X srv key pwd cert trust dhparams priorities
         hostname port backlog threaded
  else (set_errno EINVAL;; mret (Some false, srv)).

Definition sg_httpsrv_tls_listen3 (srv : option srv_t)
    (key pwd cert trust dhparams priorities : option string)
    (port : Z) (threaded : bool) : M W (option bool * option srv_t) :=
  if negb (is_null key) && negb (is_null cert)
  then sg__httpsrv_listen X srv key pwd cert trust dhparams priorities
         port threaded
  else (set_errno EINVAL;; mret (Some false, srv)).

Definition sg_httpsrv_tls_listen2 (srv : option srv_t)
    (key pwd cert trust dhparams : option string)
    (port : Z) (threaded : bool) : M W (option bool * option srv_t) :=
  if negb (is_null key) && negb (is_null cert)
  then sg__httpsrv_listen X srv key pwd cert trust dhparams None port threaded
  else (set_errno EINVAL;; mret (Some false, srv)).

Definition sg_httpsrv_tls_listen (srv : option srv_t) (key cert : option string)
    (port : Z) (threaded : bool) : M W (option bool * option srv_t) :=
  if negb (is_null key) && negb (is_null cert)
  then sg__httpsrv_listen X srv key None cert None None None port threaded
  else (set_errno EINVAL;; mret (Some false, srv)).

(** *** Getters and setters *)

(** [sg_httpsrv_port]; [None] stands for the dereference of a null
    [info]. *)
Definition sg_httpsrv_port (srv : option srv_t) : M W (option Z) :=
  match srv with
  | Some s =>
      match srv_handle s with
      | Some h => ask (MHD_get_daemon_info_bind_port Y h)
      | None => mret (Some 0)
      end
  | None => set_errno EINVAL;; mret (Some 0)
  end.

Definition sg_httpsrv_is_threaded (srv : option srv_t) : M W (option bool) :=
  match srv with
  | Some s =>
      match srv_handle s with
      | Some h =>
          flags ← ask (MHD_get_daemon_info_flags Y h);
          mret ((fun f => negb (Z.land f MHD_USE_THREAD_PER_CONNECTION =? 0))
                  <$> flags)
      | None => mret (Some false)
      end
  | None => set_errno EINVAL;; mret (Some false)
  end.

Definition sg_httpsrv_handle (srv : option srv_t) : M W (option MHD_Daemon) :=
  match srv with
  | Some s => mret (srv_handle s)
  | None => set_errno EINVAL;; mret None
  end.

Definition sg_httpsrv_set_cli_cb (srv : option srv_t) (cb : option fnptr)
    (cls : voidp) : Z * option srv_t :=
  match srv with
  | None => (EINVAL, None)
  | Some s =>
      if is_null cb then (EINVAL, Some s)
      else (0, Some (set_srv_cli_cb cb cls s))
  end.

(** [sg_httpsrv_set_upld_dir]: the old directory is released and the copy
    that [strdup] returns is stored, null or not; a [strdup] that returns
    null has set [errno] to ENOMEM.  When [dir] is the stored directory
    itself, it is released before [strdup] reads it: the result is [None],
    for a read of released memory.  [StoredUpldsDir] on a server without a
    directory is the null pointer. *)
Definition sg_httpsrv_set_upld_dir (srv : option srv_t) (dir : option dir_ptr)
  : M W (option (Z * option srv_t)) :=
  match srv, dir with
  | Some s, Some (CallerString d) =>
      log_ (EvFree FreedUpldsDir);;
      copy ← step (strdup Y d);
      (if is_null copy then set_errno ENOMEM else mret tt);;
      mret (Some (0, Some (set_srv_uplds_dir copy s)))
  | Some s, Some StoredUpldsDir =>
      if is_null (srv_uplds_dir s) then mret (Some (EINVAL, srv))
      else (log_ (EvFree FreedUpldsDir);; mret None)
  | _, _ => mret (Some (EINVAL, srv))
  end.

Definition sg_httpsrv_upld_dir (srv : option srv_t) : M W (option string) :=
  match srv with
  | Some s => mret (srv_uplds_dir s)
  | None => set_errno EINVAL;; mret None
  end.

Definition sg_httpsrv_post_buf_size (srv : option srv_t) : M W Z :=
  match srv with
  | Some s => mret (srv_post_buf_size s)
  | None => set_errno EINVAL;; mret 0
  end.

Definition sg_httpsrv_set_payld_limit (srv : option srv_t) (limit : Z)
  : Z * option srv_t :=
  match srv with
  | None => (EINVAL, None)
  | Some s => (0, Some (set_srv_payld_limit limit s))
  end.

Definition sg_httpsrv_payld_limit (srv : option srv_t) : M W Z :=
  match srv with
  | Some s => mret (srv_payld_limit s)
  | None => set_errno EINVAL;; mret 0
  end.

Definition sg_httpsrv_set_uplds_limit (srv : option srv_t) (limit : Z)
  : Z * option srv_t :=
  match srv with
  | None => (EINVAL, None)
  | Some s => (0, Some (set_srv_uplds_limit limit s))
  end.

Definition sg_httpsrv_uplds_limit (srv : option srv_t) : M W Z :=
  match srv with
  | Some s => mret (srv_uplds_limit s)
  | None => set_errno EINVAL;; mret 0
  end.

Definition sg_httpsrv_set_thr_pool_size (srv : option srv_t) (size : Z)
  : Z * option srv_t :=
  match srv with
  | None => (EINVAL, None)
  | Some s => (0, Some (set_srv_thr_pool_size size s))
  end.

Definition sg_httpsrv_thr_pool_size (srv : option srv_t) : M W Z :=
  match srv with
  | Some s => mret (srv_thr_pool_size s)
  | None => set_errno EINVAL;; mret 0
  end.

Definition sg_httpsrv_set_con_timeout (srv : option srv_t) (timeout : Z)
  : Z * option srv_t :=
  match srv with
  | None => (EINVAL, None)
  | Some s => (0, Some (set_srv_con_timeout timeout s))
  end.

Definition sg_httpsrv_con_timeout (srv : option srv_t) : M W Z :=
  match srv with
  | Some s => mret (srv_con_timeout s)
  | None => set_errno EINVAL;; mret 0
  end.

Definition sg_httpsrv_set_con_limit (srv : option srv_t) (limit : Z)
  : Z * option srv_t :=
  match srv with
  | None => (EINVAL, None)
  | Some s => (0, Some (set_srv_con_limit limit s))
  end.

Definition sg_httpsrv_con_limit (srv : option srv_t) : M W Z :=
  match srv with
  | Some s => mret (srv_con_limit s)
  | None => set_errno EINVAL;; mret 0
  end.

(** *** The numeric settings and the configuration calls, by name *)

Definition set_number (which : setting) (srv : option srv_t) (n : Z)
  : Z * option srv_t :=
  match which with
  | PostBufSize => sg_httpsrv_set_post_buf_size srv n
  | PayldLimit => sg_httpsrv_set_payld_limit srv n
  | UpldsLimit => sg_httpsrv_set_uplds_limit srv n
  | ThrPoolSize => sg_httpsrv_set_thr_pool_size srv n
  | ConTimeout => sg_httpsrv_set_con_timeout srv n
  | ConLimit => sg_httpsrv_set_con_limit srv n
  end.

Definition get_number (which : setting) (srv : option srv_t) : M W Z :=
  match which with
  | PostBufSize => sg_httpsrv_post_buf_size srv
  | PayldLimit => sg_httpsrv_payld_limit srv
  | UpldsLimit => sg_httpsrv_uplds_limit srv
  | ThrPoolSize => sg_httpsrv_thr_pool_size srv
  | ConTimeout => sg_httpsrv_con_timeout srv
  | ConLimit => sg_httpsrv_con_limit srv
  end.

Definition run_call (c : config_call) (srv : option srv_t)
  : M W (option (Z * option srv_t)) :=
  match c with
  | SetCliCb cb cls => mret (Some (sg_httpsrv_set_cli_cb srv cb cls))
  | SetUpldCbs cb cls write_cb free_cb save_cb save_as_cb =>
      mret (Some (sg_httpsrv_set_upld_cbs srv cb cls write_cb free_cb save_cb
                    save_as_cb))
  | SetUpldDir dir => sg_httpsrv_set_upld_dir srv dir
  | SetNumber which n => mret (Some (set_number which srv n))
  end.

(** A sequence of configuration calls, with the codes they return; [None]
    once a call has no defined result. *)
Fixpoint run_calls (cs : list config_call) (srv : option srv_t)
  : M W (option (list Z * option srv_t)) :=
  match cs with
  | [] => mret (Some ([], srv))
  | c :: cs =>
      r ← run_call c srv;
      match r with
      | None => mret None
      | Some (code, srv) =>
          rs ← run_calls cs srv;
          mret ((fun p : list Z * option srv_t => (code :: p.1, p.2)) <$> rs)
      end
  end.

(** The text of the report for a host name that does not parse. *)
Definition invalid_host_text (hostname : option string) : string :=
  vsnprintf (SG_ERR_SIZE X)
    (String.append "Invalid host name: "
       (String.append (default EmptyString hostname) (String.append "." LF))).

(** *** What the listener resolves a host name to *)

(** The socket address item, if any, and the flag that goes with it;
    [None] for a host name that parses as neither kind of literal. *)
Definition host_plan (hostname : option string) (port : Z)
  : option (list MHD_OptionItem * Z) :=
  match hostname with
  | None => Some ([], MHD_USE_DUAL_STACK)
  | Some host =>
      match inet_pton4 X host with
      | Some a =>
          Some ([sock_addr_item (mk_sockaddr AF_INET (htons X port) a)], 0)
      | None =>
          match inet_pton6 X host with
          | Some a6 =>
              Some ([sock_addr_item (mk_sockaddr AF_INET6 (htons X port) a6)],
                    MHD_USE_DUAL_STACK)
          | None => None
          end
      end
  end.

End MoreFunctions.

Arguments extern_more : clear implicits.

Definition is_stop_daemon (e : event) : bool :=
  match e with
  | EvStopDaemon _ => true
  | _ => false
  end.

Definition is_auth_cb (e : event) : bool :=
  match e with
  | EvAuthCb => true
  | _ => false
  end.

Definition is_req_new (e : event) : bool :=
  match e with
  | EvReqNew => true
  | _ => false
  end.

Definition is_end (it : MHD_OptionItem) : bool :=
  match item_option it with
  | MHD_OPTION_END => true
  | _ => false
  end.

Definition is_backlog (it : MHD_OptionItem) : bool :=
  match item_option it with
  | MHD_OPTION_LISTEN_BACKLOG_SIZE => true
  | _ => false
  end.

(** An error report that fits a buffer of [size] characters. *)
Definition report_fits (size : nat) (e : event) : Prop :=
  match e with
  | EvErrCb text => (String.length text <= Nat.pred size)%nat
  | _ => True
  end.

Definition count_events (p : event -> bool) (tr : list event) : nat :=
  length (List.filter p tr).

(** Further externals for the concrete world: the engine reports port 8080
    and the flags of a listener without threads. *)
Definition more_externals : extern_more Scenario.world :=
  {| strdup := fun d (w : Scenario.world) => (Some d, w);
     MHD_get_daemon_info_bind_port := fun _ (_ : Scenario.world) => Some 8080;
     MHD_get_daemon_info_flags := fun _ (_ : Scenario.world) => Some 76825;
     sg__httpuplds_cleanup := fun _ _ (w : Scenario.world) => w;
     sg__httpreq_free := fun _ (w : Scenario.world) => w;
     sg__err_cb := Scenario.err_cb |}.

(** What the configuration calls keep of a constructed server: the four
    upload hooks the listener asks for, a post buffer of at least 256
    bytes, no engine and no worker. *)
Definition configured {W} (srv : sg_httpsrv W) : Prop :=
  is_null (srv_upld_cb srv) = false /\
  is_null (srv_upld_write_cb srv) = false /\
  is_null (srv_upld_save_cb srv) = false /\
  is_null (srv_upld_save_as_cb srv) = false /\
  256 <= srv_post_buf_size srv /\
  srv_handle srv = None /\ srv_isolated_list srv = [].

(** The concrete world with an engine that reports every connection as
    claimed by the connection-notify hook. *)
Definition claiming : extern Scenario.world :=
  {| arm := arm Scenario.X;
     SG_ERR_SIZE := SG_ERR_SIZE Scenario.X;
     htons := htons Scenario.X;
     inet_pton4 := inet_pton4 Scenario.X;
     inet_pton6 := inet_pton6 Scenario.X;
     fmt_thread_ptr := fmt_thread_ptr Scenario.X;
     sg_strerror := sg_strerror Scenario.X;
     sg_alloc := sg_alloc Scenario.X;
     sg_tmpdir := sg_tmpdir Scenario.X;
     pthread_mutex_init := pthread_mutex_init Scenario.X;
     pthread_mutex_lock := pthread_mutex_lock Scenario.X;
     pthread_mutex_unlock := pthread_mutex_unlock Scenario.X;
     pthread_mutex_destroy := pthread_mutex_destroy Scenario.X;
     pthread_join := pthread_join Scenario.X;
     MHD_get_connection_info_socket_context := fun _ _ => Some true;
     MHD_get_connection_info_suspended :=
       MHD_get_connection_info_suspended Scenario.X;
     MHD_resume_connection := MHD_resume_connection Scenario.X;
     MHD_start_daemon := MHD_start_daemon Scenario.X;
     MHD_stop_daemon := MHD_stop_daemon Scenario.X;
     sg__httpreq_new := sg__httpreq_new Scenario.X;
     sg__httpuplds_process := sg__httpuplds_process Scenario.X;
     sg__httpres_dispatch := sg__httpres_dispatch Scenario.X |}.

(** The further externals with a [strdup] that finds no memory. *)
Definition no_memory : extern_more Scenario.world :=
  {| strdup := fun _ (w : Scenario.world) => (None, w);
     MHD_get_daemon_info_bind_port := MHD_get_daemon_info_bind_port more_externals;
     MHD_get_daemon_info_flags := MHD_get_daemon_info_flags more_externals;
     sg__httpuplds_cleanup := sg__httpuplds_cleanup more_externals;
     sg__httpreq_free := sg__httpreq_free more_externals;
     sg__err_cb := sg__err_cb more_externals |}.

(** Every run of [m] appends to the trace, and every event it appends
    satisfies [P]. *)
Definition appends {W A} (P : event -> Prop) (m : M W A) : Prop :=
  forall s, exists delta,
    st_trace (m s).2 = st_trace s ++ delta /\ Forall P delta.

(** ** The log of outside calls read back

    A run logs its outside calls; what follows reads a log against the
    externals: what each logged call does to the world, whether it fails so
    that an error report is due, and whether a logged answer is the
    engine's answer in the world of the call. *)

Section Replay.

Context {W : Type} (X : extern W) (err_cb : sg_err_cb W).

(** What a logged call of a release does to the world. *)
Definition effect (e : event) (w : W) : W :=
  match e with
  | EvErrCb text => err_cb text w
  | EvMutexLock => (pthread_mutex_lock X w).2
  | EvMutexUnlock => (pthread_mutex_unlock X w).2
  | EvMutexDestroy => pthread_mutex_destroy X w
  | EvJoin t => (pthread_join X t w).2
  | EvResume c => MHD_resume_connection X c w
  | EvStopDaemon d => MHD_stop_daemon X d w
  | _ => w
  end.

(** Whether the call returns an error number, which the release reports. *)
Definition fails (e : event) (w : W) : bool :=
  match e with
  | EvMutexLock => negb ((pthread_mutex_lock X w).1 =? 0)
  | EvMutexUnlock => negb ((pthread_mutex_unlock X w).1 =? 0)
  | EvJoin t => negb ((pthread_join X t w).1 =? 0)
  | _ => false
  end.

(** The answer logged with a query is the engine's answer in that world. *)
Definition answer_ok (e : event) (w : W) : Prop :=
  match e with
  | EvInfoSuspended c a => a = MHD_get_connection_info_suspended X c w
  | EvInfoSocketContext c a => a = MHD_get_connection_info_socket_context X c w
  | _ => True
  end.

(** [faithful due tr w due']: read from the world [w], with a report due
    or not, every event of [tr] is an error report exactly when one is due,
    every logged answer is the engine's, and [due'] tells whether a report
    is due after the last event. *)
Fixpoint faithful (due : bool) (tr : list event) (w : W) (due' : bool) : Prop :=
  match tr with
  | [] => due' = due
  | e :: tr =>
      is_err_report e = due /\ answer_ok e w /\
      faithful (fails e w) tr (effect e w) due'
  end.

(** The world after the logged calls, in order. *)
Definition replay (tr : list event) (w : W) : W :=
  foldl (fun w e => effect e w) w tr.

(** [logs due m s expected due']: the run of [m] from [s] appends a log
    that is faithful, that is [expected] once the error reports are left
    out, and whose replay is the world the run ends in. *)
Definition logs {A} (due : bool) (m : M W A) (s : state W)
    (expected : list event) (due' : bool) : Prop :=
  exists delta,
    st_trace (m s).2 = st_trace s ++ delta /\
    without_reports delta = expected /\
    faithful due delta (st_world s) due' /\
    st_world (m s).2 = replay delta (st_world s).

End Replay.

(** The answers logged with the questions whether a connection is
    suspended, in order. *)
Definition suspended_answers (tr : list event) : list (option bool) :=
  omap (fun e => match e with
                 | EvInfoSuspended _ a => Some a
                 | _ => None
                 end) tr.

(** Whether every event of [tr] that satisfies [later] comes after one that
    satisfies [earlier]. *)
Fixpoint precededb (earlier later : event -> bool) (seen : bool)
    (tr : list event) : bool :=
  match tr with
  | [] => true
  | e :: tr =>
      (negb (later e) || seen) && precededb earlier later (seen || earlier e) tr
  end.

(** * Properties *)

(** Unfolds the monad and the logging wrappers. *)
Ltac run :=
  unfold mbind, M_bind, mret, M_ret, call_, log_, call, query, step, set_errno;
  simpl.

Section ShutdownProperties.

Context {W : Type} (X : extern W).

Lemma shutdown_live (srv : sg_httpsrv W) (h : MHD_Daemon) (s : state W) :
  srv_handle srv = Some h ->
  sg_httpsrv_shutdown X (Some srv) s
  = ((0, Some (set_srv_handle None srv)),
     mk_state (st_errno s) (MHD_stop_daemon X h (st_world s))
       (st_trace s ++ [EvStopDaemon h])).
Proof.
  intros Hh. unfold sg_httpsrv_shutdown. rewrite Hh. reflexivity.
Qed.

Lemma shutdown_idle (srv : sg_httpsrv W) (s : state W) :
  srv_handle srv = None ->
  sg_httpsrv_shutdown X (Some srv) s = ((EALREADY, Some srv), s).
Proof.
  intros Hh. unfold sg_httpsrv_shutdown. rewrite Hh. reflexivity.
Qed.

Lemma shutdown_times_idle (n : nat) (srv : sg_httpsrv W) (s : state W) :
  srv_handle srv = None ->
  shutdown_times X n (Some srv) s = ((replicate n EALREADY, Some srv), s).
Proof.
  intros Hh. induction n as [|n IH]; [reflexivity|].
  cbn [shutdown_times]. unfold mbind, M_bind.
  rewrite (shutdown_idle srv s Hh), IH. reflexivity.
Qed.

(** The constructor leaves the engine handle null and the registry empty,
    and installs the default hooks. *)
Lemma new2_fields auth_cb req_cb err_cb cls (s s' : state W) (srv : sg_httpsrv W) :
  sg_httpsrv_new2 X auth_cb req_cb err_cb cls s = (Some srv, s') ->
  srv_handle srv = None /\ srv_isolated_list srv = [] /\
  srv_upld_cb srv = Some sg__httpupld_cb /\
  srv_upld_write_cb srv = Some sg__httpupld_write_cb /\
  srv_upld_free_cb srv = Some sg__httpupld_free_cb /\
  srv_upld_save_cb srv = Some sg__httpupld_save_cb /\
  srv_upld_save_as_cb srv = Some sg__httpupld_save_as_cb.
Proof.
  unfold sg_httpsrv_new2. destruct req_cb, err_cb; run; try discriminate.
  destruct (sg_alloc X (st_world s)) as [[|] w1]; simpl; try discriminate.
  destruct (sg_tmpdir X w1) as [[d|] w2]; simpl; try discriminate.
  destruct (pthread_mutex_init X w2) as [e w3]; simpl.
  destruct (e =? 0); simpl; try discriminate.
  intros [= <- _]. simpl. repeat split.
Qed.

(** C5: shutdown is idempotent.  On a server with a live engine handle the
    first call stops the engine, clears the handle and returns 0; any number
    of further calls each return EALREADY and change neither the server nor
    the state; the same holds for a call on a server that the constructor
    built and that never listened. *)
Theorem sg_httpsrv_shutdown_idempotent
    (srv : sg_httpsrv W) (h : MHD_Daemon) (s : state W)
    auth_cb req_cb err_cb cls (s0 s0' : state W) (srv0 : sg_httpsrv W) :
  srv_handle srv = Some h ->
  sg_httpsrv_new2 X auth_cb req_cb err_cb cls s0 = (Some srv0, s0') ->
  let srv1 := set_srv_handle None srv in
  let s1 := mk_state (st_errno s) (MHD_stop_daemon X h (st_world s))
              (st_trace s ++ [EvStopDaemon h]) in
  sg_httpsrv_shutdown X (Some srv) s = ((0, Some srv1), s1) /\
  srv_handle srv1 = None /\
  (forall (n : nat) (s' : state W),
     shutdown_times X n (Some srv1) s'
     = ((replicate n EALREADY, Some srv1), s')) /\
  (forall (n : nat) (s' : state W),
     shutdown_times X n (Some srv0) s'
     = ((replicate n EALREADY, Some srv0), s')).
Proof.
  intros Hh Hnew srv1 s1.
  split; [exact (shutdown_live srv h s Hh)|].
  split; [reflexivity|].
  split.
  - intros n s'. apply shutdown_times_idle. reflexivity.
  - intros n s'. apply shutdown_times_idle.
    exact (proj1 (new2_fields _ _ _ _ _ _ _ Hnew)).
Qed.

End ShutdownProperties.

Lemma sg_httpsrv_shutdown_idempotent_witness :
  srv_handle Scenario.listening = Some (Daemon 1) /\
  sg_httpsrv_new2 Scenario.X None (Some Scenario.req_cb)
    (Some Scenario.err_cb) NullPtr Scenario.s0
  = (Some (Scenario.srv_of None), Scenario.s0) /\
  sg_httpsrv_shutdown Scenario.X (Some Scenario.listening) Scenario.s0
  = ((0, Some (set_srv_handle None Scenario.listening)),
     mk_state 0 [] [EvStopDaemon (Daemon 1)]).
Proof.
  split; [reflexivity|]. split; [reflexivity|].
  apply (sg_httpsrv_shutdown_idempotent Scenario.X Scenario.listening
           (Daemon 1) Scenario.s0 None (Some Scenario.req_cb)
           (Some Scenario.err_cb) NullPtr Scenario.s0 Scenario.s0
           (Scenario.srv_of None)); reflexivity.
Defined.

Section SetterProperties.

Context {W : Type} (X : extern W).

(** C10: the upload-hook setter checks the server, the upload callback and
    the write, save and save-as hooks, and not the free hook.  With any of
    the five null it returns EINVAL and the server is as before; with the
    five set and a null free hook it returns 0 and installs the null free
    hook in place of the default one the constructor had stored. *)
Theorem sg_httpsrv_set_upld_cbs_free_unchecked
    (srv : sg_httpsrv W) (cb write_cb free_cb save_cb save_as_cb : option fnptr)
    (cls : voidp) (f_cb f_write f_save f_save_as : fnptr)
    auth_cb req_cb err_cb cls0 (s0 s0' : state W) (srv0 : sg_httpsrv W) :
  sg_httpsrv_new2 X auth_cb req_cb err_cb cls0 s0 = (Some srv0, s0') ->
  sg_httpsrv_set_upld_cbs (@None (sg_httpsrv W)) cb cls write_cb free_cb
    save_cb save_as_cb
  = (EINVAL, None) /\
  sg_httpsrv_set_upld_cbs (Some srv) None cls write_cb free_cb save_cb save_as_cb
  = (EINVAL, Some srv) /\
  sg_httpsrv_set_upld_cbs (Some srv) cb cls None free_cb save_cb save_as_cb
  = (EINVAL, Some srv) /\
  sg_httpsrv_set_upld_cbs (Some srv) cb cls write_cb free_cb None save_as_cb
  = (EINVAL, Some srv) /\
  sg_httpsrv_set_upld_cbs (Some srv) cb cls write_cb free_cb save_cb None
  = (EINVAL, Some srv) /\
  sg_httpsrv_set_upld_cbs (Some srv) (Some f_cb) cls (Some f_write) None
    (Some f_save) (Some f_save_as)
  = (0, Some (set_srv_upld_cbs (Some f_cb) cls (Some f_write) None
                (Some f_save) (Some f_save_as) srv)) /\
  srv_upld_free_cb srv0 = Some sg__httpupld_free_cb /\
  (forall srv1,
     (sg_httpsrv_set_upld_cbs (Some srv0) (Some f_cb) cls (Some f_write) None
        (Some f_save) (Some f_save_as)).2 = Some srv1 ->
     srv_upld_free_cb srv1 = None /\
     srv_upld_cb srv1 = Some f_cb /\
     srv_upld_write_cb srv1 = Some f_write /\
     srv_upld_save_cb srv1 = Some f_save /\
     srv_upld_save_as_cb srv1 = Some f_save_as /\
     srv_upld_cls srv1 = cls).
Proof.
  intros Hnew. unfold sg_httpsrv_set_upld_cbs.
  split; [reflexivity|]. split; [reflexivity|].
  split; [by destruct cb|].
  split; [by destruct cb, write_cb|].
  split; [by destruct cb, write_cb, save_cb|].
  split; [reflexivity|].
  split; [apply (new2_fields X _ _ _ _ _ _ _ Hnew)|].
  intros srv1 [= <-]. by repeat split.
Qed.

End SetterProperties.

Lemma sg_httpsrv_set_upld_cbs_free_unchecked_witness :
  sg_httpsrv_new2 Scenario.X None (Some Scenario.req_cb)
    (Some Scenario.err_cb) NullPtr Scenario.s0
  = (Some (Scenario.srv_of None), Scenario.s0) /\
  sg_httpsrv_set_upld_cbs (Some (Scenario.srv_of None))
    (Some (FnPtr "my_upld_cb")) NullPtr (Some (FnPtr "my_write_cb")) None
    (Some (FnPtr "my_save_cb")) (Some (FnPtr "my_save_as_cb"))
  = (0, Some (set_srv_upld_cbs (Some (FnPtr "my_upld_cb")) NullPtr
                (Some (FnPtr "my_write_cb")) None (Some (FnPtr "my_save_cb"))
                (Some (FnPtr "my_save_as_cb")) (Scenario.srv_of None))).
Proof.
  split; [reflexivity|].
  apply (sg_httpsrv_set_upld_cbs_free_unchecked Scenario.X
           (Scenario.srv_of None) None None None None None NullPtr
           (FnPtr "my_upld_cb") (FnPtr "my_write_cb") (FnPtr "my_save_cb")
           (FnPtr "my_save_as_cb") None (Some Scenario.req_cb)
           (Some Scenario.err_cb) NullPtr Scenario.s0 Scenario.s0
           (Scenario.srv_of None)); reflexivity.
Defined.

(** ** The listener *)

Lemma addopt_buf_of written opt val ptr :
  addopt (buf_of written) opt val ptr = buf_of (written ++ [mk_item opt val ptr]).
Proof.
  unfold buf_of, addopt, sg__httpsrv_addopt, OPS_SLOTS.
  rewrite length_app. simpl length.
  change (Z.to_nat 14) with 14%nat.
  destruct (Nat.leb_spec (length written) 14) as [Hle|Hgt].
  - destruct (Nat.leb_spec (length written + 1) 14) as [Hlt|Hge].
    + assert (Hin : (0 <=? Z.of_nat (length written)) && (Z.of_nat (length written) <? 14) = true).
      { apply andb_true_intro. split; [apply Z.leb_le | apply Z.ltb_lt]; lia. }
      rewrite Hin. f_equal. f_equal.
      * rewrite Nat2Z.id.
        replace (14 - length written)%nat with (S (14 - (length written + 1)))%nat by lia.
        simpl replicate.
        rewrite (insert_app_r_alt written _ (length written)) by lia.
        rewrite Nat.sub_diag. simpl. by rewrite <- app_assoc.
      * rewrite Z.mod_small; lia.
    + assert (Hout : (0 <=? Z.of_nat (length written)) && (Z.of_nat (length written) <? 14) = false).
      { apply andb_false_intro2. apply Z.ltb_ge. lia. }
      by rewrite Hout.
  - destruct (Nat.leb_spec (length written + 1) 14); [lia|done].
Qed.

Lemma addopt_str_buf_of written opt p :
  addopt_str (buf_of written) opt p = buf_of (written ++ str_item opt p).
Proof.
  destruct p; simpl; [apply addopt_buf_of | by rewrite app_nil_r].
Qed.

Lemma addopt_pos_buf_of written opt n :
  addopt_pos (buf_of written) opt n = buf_of (written ++ pos_item opt n).
Proof.
  unfold addopt_pos, pos_item.
  destruct (0 <? n); [apply addopt_buf_of | by rewrite app_nil_r].
Qed.

Lemma listen_tls_buf_of key pwd cert trust dhparams priorities backlog flags written :
  listen_tls key pwd cert trust dhparams priorities backlog flags (buf_of written)
  = (tls_flags key cert flags,
     buf_of (written ++ tls_items key pwd cert trust dhparams priorities backlog)).
Proof.
  unfold listen_tls, tls_items, tls_flags.
  destruct key, cert; rewrite ?app_nil_r; try reflexivity.
  rewrite addopt_buf_of, addopt_str_buf_of, addopt_buf_of, !addopt_str_buf_of,
    addopt_pos_buf_of.
  by rewrite <- !app_assoc.
Qed.

Lemma buf_of_first : 
  sg__httpsrv_addopt ops_init 0 MHD_OPTION_EXTERNAL_LOGGER (VFn sg__httpsrv_oel) PSrv
  = buf_of [logger_item].
Proof. reflexivity. Qed.

Section ListenProperties.

Context {W : Type} (X : extern W).

(** The listener after host resolution, in terms of the items written. *)
Lemma listen_start_items (srv : sg_httpsrv W)
    key pwd cert trust dhparams priorities port backlog flags written (s : state W) :
  let items := written ++ tail_items srv key pwd cert trust dhparams priorities backlog in
  listen_start X srv key pwd cert trust dhparams priorities port backlog flags
    (buf_of written) s
  = if (length items <=? 14)%nat
    then
      let '(h, w') := MHD_start_daemon X (tls_flags key cert flags) port items (st_world s) in
      ((Some (negb (is_null h)), Some (set_srv_handle h srv)),
       mk_state (st_errno s) w'
         (st_trace s ++ [EvStartDaemon (tls_flags key cert flags) port items]))
    else ((None, Some srv), s).
Proof.
  intros items. unfold listen_start.
  rewrite !addopt_buf_of, !addopt_pos_buf_of, listen_tls_buf_of, addopt_buf_of.
  rewrite <- !app_assoc.
  match goal with |- context [buf_of ?l] => change l with items end.
  unfold buf_of. change (Z.to_nat OPS_SLOTS) with 14%nat.
  destruct (length items <=? 14)%nat; [|reflexivity].
  rewrite Nat2Z.id, take_app_length. run.
  by destruct (MHD_start_daemon X _ _ _ _).
Qed.


Lemma tail_items_no_sock_addr (srv : sg_httpsrv W) key pwd cert trust dhparams priorities backlog :
  List.filter is_sock_addr (tail_items srv key pwd cert trust dhparams priorities backlog) = [].
Proof.
  unfold tail_items, tls_items, pos_item, str_item.
  destruct (0 <? srv_con_limit srv), (0 <? srv_con_timeout srv),
    (0 <? srv_thr_pool_size srv), key, cert; try reflexivity;
    destruct pwd, trust, dhparams, priorities, (0 <? backlog); reflexivity.
Qed.

Lemma tail_items_length (srv : sg_httpsrv W) key pwd cert trust dhparams priorities backlog :
  (length (tail_items srv key pwd cert trust dhparams priorities backlog) <= 13)%nat /\
  ((13 <= length (tail_items srv key pwd cert trust dhparams priorities backlog))%nat ->
   all_options_in_use srv key pwd cert trust dhparams priorities backlog).
Proof.
  unfold tail_items, tls_items, pos_item, str_item, all_options_in_use.
  destruct (Z.ltb_spec 0 (srv_con_limit srv)), (Z.ltb_spec 0 (srv_con_timeout srv)),
    (Z.ltb_spec 0 (srv_thr_pool_size srv)), key, cert; simpl; 
    try (split; [lia | intros; lia]);
    destruct pwd, trust, dhparams, priorities, (Z.ltb_spec 0 backlog); simpl;
    (split; [lia | intros; first [lia | by repeat split]]).
Qed.

Lemma tls_flags_dual_stack key cert flags :
  Z.land (tls_flags key cert flags) MHD_USE_DUAL_STACK = Z.land flags MHD_USE_DUAL_STACK.
Proof.
  unfold tls_flags. destruct key, cert; try reflexivity.
  rewrite Z.land_lor_distr_l. change (Z.land MHD_USE_TLS MHD_USE_DUAL_STACK) with 0.
  apply Z.lor_0_r.
Qed.

Lemma listen_flags_dual_stack threaded :
  Z.land (listen_flags threaded) MHD_USE_DUAL_STACK = 0 /\
  Z.land (Z.lor (listen_flags threaded) MHD_USE_DUAL_STACK) MHD_USE_DUAL_STACK
  = MHD_USE_DUAL_STACK.
Proof. destruct threaded; split; reflexivity. Qed.

(** The listener on a server that passed the opening guard, with no host
    name: the items are the logger and the tail, and the engine is
    started with the dual-stack flag. *)
Lemma listen2_no_host (srv : sg_httpsrv W)
    key pwd cert trust dhparams priorities port backlog threaded (s : state W) :
  listen_guard srv = false ->
  let items := logger_item :: tail_items srv key pwd cert trust dhparams priorities backlog in
  let flags := tls_flags key cert (Z.lor (listen_flags threaded) MHD_USE_DUAL_STACK) in
  sg__httpsrv_listen2 X (Some srv) key pwd cert trust dhparams priorities None
    port backlog threaded s
  = let '(h, w') := MHD_start_daemon X flags port items (st_world s) in
    ((Some (negb (is_null h)), Some (set_srv_handle h srv)),
     mk_state (st_errno s) w' (st_trace s ++ [EvStartDaemon flags port items])).
Proof.
  intros Hg items flags. unfold sg__httpsrv_listen2. rewrite Hg, buf_of_first.
  rewrite listen_start_items.
  destruct (tail_items_length srv key pwd cert trust dhparams priorities backlog)
    as [Hlen _].
  match goal with |- context [(length ?l <=? 14)%nat] => set (l0 := l) end.
  assert (Hl0 : length l0 =
                S (length (tail_items srv key pwd cert trust dhparams priorities backlog))).
  { unfold l0. by rewrite length_app. }
  destruct (Nat.leb_spec (length l0) 14) as [_|Hgt]; [reflexivity|lia].
Qed.

(** The same with a socket address: either the array is overrun, which
    takes every optional item, or the engine is started with the address as
    the second item. *)
Lemma listen_start_with_addr (srv : sg_httpsrv W)
    key pwd cert trust dhparams priorities port backlog flags addr (s : state W) :
  let r := listen_start X srv key pwd cert trust dhparams priorities port backlog
             flags
             (addopt (sg__httpsrv_addopt ops_init 0 MHD_OPTION_EXTERNAL_LOGGER
                        (VFn sg__httpsrv_oel) PSrv)
                MHD_OPTION_SOCK_ADDR (VNum 0) (PSockAddr addr)) s in
  (r = ((None, Some srv), s) /\
   all_options_in_use srv key pwd cert trust dhparams priorities backlog) \/
  (exists items h w',
     items !! 1%nat = Some (sock_addr_item addr) /\
     List.filter is_sock_addr items = [sock_addr_item addr] /\
     MHD_start_daemon X (tls_flags key cert flags) port items (st_world s) = (h, w') /\
     r = ((Some (negb (is_null h)), Some (set_srv_handle h srv)),
          mk_state (st_errno s) w'
            (st_trace s ++ [EvStartDaemon (tls_flags key cert flags) port items]))).
Proof.
  intros r. subst r. rewrite buf_of_first, addopt_buf_of, listen_start_items.
  set (tl := tail_items srv key pwd cert trust dhparams priorities backlog).
  destruct (tail_items_length srv key pwd cert trust dhparams priorities backlog)
    as [Hlen Hfull]. fold tl in Hlen, Hfull.
  match goal with |- context [(length ?l <=? 14)%nat] => set (items := l) end.
  assert (Hitems : length items = (2 + length tl)%nat).
  { unfold items. by rewrite length_app. }
  destruct (Nat.leb_spec (length items) 14) as [Hle|Hgt].
  - right.
    destruct (MHD_start_daemon X (tls_flags key cert flags) port items (st_world s))
      as [h w'] eqn:E.
    exists items, h, w'.
    split; [reflexivity|]. split; [|split; [exact E|reflexivity]].
    unfold items. rewrite List.filter_app. unfold tl.
    by rewrite tail_items_no_sock_addr.
  - left. split; [reflexivity|]. apply Hfull. lia.
Qed.

(** A host name that parses as an IPv4 literal. *)
Lemma listen2_host_ipv4 (srv : sg_httpsrv W)
    key pwd cert trust dhparams priorities port backlog threaded (s : state W)
    host a :
  listen_guard srv = false ->
  inet_pton4 X host = Some a ->
  let r := sg__httpsrv_listen2 X (Some srv) key pwd cert trust dhparams
             priorities (Some host) port backlog threaded s in
  (r = ((None, Some srv), s) /\
   all_options_in_use srv key pwd cert trust dhparams priorities backlog) \/
  (exists flags items h w',
     Z.land flags MHD_USE_DUAL_STACK = 0 /\
     items !! 1%nat
     = Some (sock_addr_item (mk_sockaddr AF_INET (htons X port) a)) /\
     List.filter is_sock_addr items
     = [sock_addr_item (mk_sockaddr AF_INET (htons X port) a)] /\
     MHD_start_daemon X flags port items (st_world s) = (h, w') /\
     r = ((Some (negb (is_null h)), Some (set_srv_handle h srv)),
          mk_state (st_errno s) w'
            (st_trace s ++ [EvStartDaemon flags port items]))).
Proof.
  intros Hg H4 r. subst r. unfold sg__httpsrv_listen2. rewrite Hg, H4.
  destruct (listen_start_with_addr srv key pwd cert trust dhparams priorities
              port backlog (listen_flags threaded)
              (mk_sockaddr AF_INET (htons X port) a) s)
    as [Hover|(items & h & w' & H1 & Hf & E & Hr)]; [by left|right].
  exists (tls_flags key cert (listen_flags threaded)), items, h, w'.
  repeat split; try assumption.
  rewrite tls_flags_dual_stack. apply listen_flags_dual_stack.
Qed.

(** A host name that parses as an IPv6 literal only. *)
Lemma listen2_host_ipv6 (srv : sg_httpsrv W)
    key pwd cert trust dhparams priorities port backlog threaded (s : state W)
    host a6 :
  listen_guard srv = false ->
  inet_pton4 X host = None ->
  inet_pton6 X host = Some a6 ->
  let r := sg__httpsrv_listen2 X (Some srv) key pwd cert trust dhparams
             priorities (Some host) port backlog threaded s in
  (r = ((None, Some srv), s) /\
   all_options_in_use srv key pwd cert trust dhparams priorities backlog) \/
  (exists flags items h w',
     Z.land flags MHD_USE_DUAL_STACK = MHD_USE_DUAL_STACK /\
     items !! 1%nat
     = Some (sock_addr_item (mk_sockaddr AF_INET6 (htons X port) a6)) /\
     List.filter is_sock_addr items
     = [sock_addr_item (mk_sockaddr AF_INET6 (htons X port) a6)] /\
     MHD_start_daemon X flags port items (st_world s) = (h, w') /\
     r = ((Some (negb (is_null h)), Some (set_srv_handle h srv)),
          mk_state (st_errno s) w'
            (st_trace s ++ [EvStartDaemon flags port items]))).
Proof.
  intros Hg H4 H6 r. subst r. unfold sg__httpsrv_listen2. rewrite Hg, H4, H6.
  destruct (listen_start_with_addr srv key pwd cert trust dhparams priorities
              port backlog (Z.lor (listen_flags threaded) MHD_USE_DUAL_STACK)
              (mk_sockaddr AF_INET6 (htons X port) a6) s)
    as [Hover|(items & h & w' & H1 & Hf & E & Hr)]; [by left|right].
  exists (tls_flags key cert (Z.lor (listen_flags threaded) MHD_USE_DUAL_STACK)),
    items, h, w'.
  repeat split; try assumption.
  rewrite tls_flags_dual_stack. apply listen_flags_dual_stack.
Qed.

(** A host name that parses as neither. *)
Lemma listen2_host_invalid (srv : sg_httpsrv W)
    key pwd cert trust dhparams priorities port backlog threaded (s : state W)
    host :
  listen_guard srv = false ->
  inet_pton4 X host = None ->
  inet_pton6 X host = None ->
  let text := vsnprintf (SG_ERR_SIZE X)
                (String.append "Invalid host name: "
                   (String.append host (String.append "." LF))) in
  sg__httpsrv_listen2 X (Some srv) key pwd cert trust dhparams priorities
    (Some host) port backlog threaded s
  = ((Some false, Some srv),
     mk_state EINVAL (srv_err_cb srv text (st_world s))
       (st_trace s ++ [EvErrCb text])).
Proof.
  intros Hg H4 H6 text. unfold sg__httpsrv_listen2. rewrite Hg, H4, H6.
  reflexivity.
Qed.

(** What a run that passed the guard does. *)
Lemma sg__httpsrv_listen2_run_passes (srv : sg_httpsrv W)
    key pwd cert trust dhparams priorities hostname port backlog threaded
    (s : state W) :
  listen_guard srv = false ->
  let r := sg__httpsrv_listen2 X (Some srv) key pwd cert trust dhparams
             priorities hostname port backlog threaded s in
  (r = ((None, Some srv), s) \/
   exists ev, st_trace r.2 = st_trace s ++ [ev] /\
              (is_start_daemon ev = true \/ is_err_report ev = true)) /\
  (hostname = None ->
   exists ev, st_trace r.2 = st_trace s ++ [ev] /\ is_start_daemon ev = true).
Proof.
  intros Hg r.
  assert (Hnone : hostname = None ->
            exists ev, st_trace r.2 = st_trace s ++ [ev] /\ is_start_daemon ev = true).
  { intros ->. subst r.
    rewrite (listen2_no_host srv _ _ _ _ _ _ _ _ threaded s Hg).
    destruct (MHD_start_daemon X _ port _ (st_world s)) as [h w']. by eexists. }
  split; [|exact Hnone].
  destruct hostname as [host|].
  - destruct (inet_pton4 X host) as [a|] eqn:H4.
    + destruct (listen2_host_ipv4 srv key pwd cert trust dhparams priorities
                  port backlog threaded s host a Hg H4)
        as [[Hover _]|(f & i & h & w' & _ & _ & _ & _ & Hr)]; [by left|right].
      subst r. rewrite Hr. eexists. split; [reflexivity|by left].
    + destruct (inet_pton6 X host) as [a6|] eqn:H6.
      * destruct (listen2_host_ipv6 srv key pwd cert trust dhparams priorities
                    port backlog threaded s host a6 Hg H4 H6)
          as [[Hover _]|(f & i & h & w' & _ & _ & _ & _ & Hr)]; [by left|right].
        subst r. rewrite Hr. eexists. split; [reflexivity|by left].
      * right. subst r.
        rewrite (listen2_host_invalid srv key pwd cert trust dhparams priorities
                   port backlog threaded s host Hg H4 H6).
        eexists. split; [reflexivity|by right].
  - right. destruct (Hnone eq_refl) as (ev & Htr & Hev). exists ev. auto.
Qed.

(** Host resolution in the listener, on a server that passed the
    opening guard.  Without a host name the engine is started on the
    dual-stack wildcard: no socket address item, dual-stack flag set.  A host
    name that parses as an IPv4 literal is bound as such, whatever the IPv6
    parser would say, and the dual-stack flag stays clear; one that parses
    only as IPv6 is bound as IPv6 with the dual-stack flag set; one that
    parses as neither is reported through the error callback, [errno]
    becomes EINVAL, the result is false and the engine is not started.  A
    run that stores a fifteenth item into the option array has no defined
    result; it takes a host name and every optional item. *)
Lemma listen2_host_resolution (srv : sg_httpsrv W)
    (key pwd cert trust dhparams priorities : option string)
    (port backlog : Z) (threaded : bool) (s : state W) :
  listen_guard srv = false ->
  let listen := fun hostname =>
    sg__httpsrv_listen2 X (Some srv) key pwd cert trust dhparams priorities
      hostname port backlog threaded s in
  (exists flags items h w',
     Z.land flags MHD_USE_DUAL_STACK = MHD_USE_DUAL_STACK /\
     List.filter is_sock_addr items = [] /\
     MHD_start_daemon X flags port items (st_world s) = (h, w') /\
     listen None
     = ((Some (negb (is_null h)), Some (set_srv_handle h srv)),
        mk_state (st_errno s) w' (st_trace s ++ [EvStartDaemon flags port items]))) /\
  (forall host a,
     inet_pton4 X host = Some a ->
     (listen (Some host) = ((None, Some srv), s) /\
      all_options_in_use srv key pwd cert trust dhparams priorities backlog) \/
     (exists flags items h w',
        Z.land flags MHD_USE_DUAL_STACK = 0 /\
        items !! 1%nat
        = Some (sock_addr_item (mk_sockaddr AF_INET (htons X port) a)) /\
        List.filter is_sock_addr items
        = [sock_addr_item (mk_sockaddr AF_INET (htons X port) a)] /\
        MHD_start_daemon X flags port items (st_world s) = (h, w') /\
        listen (Some host)
        = ((Some (negb (is_null h)), Some (set_srv_handle h srv)),
           mk_state (st_errno s) w'
             (st_trace s ++ [EvStartDaemon flags port items])))) /\
  (forall host a6,
     inet_pton4 X host = None ->
     inet_pton6 X host = Some a6 ->
     (listen (Some host) = ((None, Some srv), s) /\
      all_options_in_use srv key pwd cert trust dhparams priorities backlog) \/
     (exists flags items h w',
        Z.land flags MHD_USE_DUAL_STACK = MHD_USE_DUAL_STACK /\
        items !! 1%nat
        = Some (sock_addr_item (mk_sockaddr AF_INET6 (htons X port) a6)) /\
        List.filter is_sock_addr items
        = [sock_addr_item (mk_sockaddr AF_INET6 (htons X port) a6)] /\
        MHD_start_daemon X flags port items (st_world s) = (h, w') /\
        listen (Some host)
        = ((Some (negb (is_null h)), Some (set_srv_handle h srv)),
           mk_state (st_errno s) w'
             (st_trace s ++ [EvStartDaemon flags port items])))) /\
  (forall host,
     inet_pton4 X host = None ->
     inet_pton6 X host = None ->
     let text := vsnprintf (SG_ERR_SIZE X)
                   (String.append "Invalid host name: "
                      (String.append host (String.append "." LF))) in
     listen (Some host)
     = ((Some false, Some srv),
        mk_state EINVAL (srv_err_cb srv text (st_world s))
          (st_trace s ++ [EvErrCb text]))).
Proof.
  intros Hg listen. subst listen. cbv beta.
  split; [|split; [|split]].
  - rewrite (listen2_no_host srv _ _ _ _ _ _ _ _ threaded s Hg).
    destruct (MHD_start_daemon X _ port _ (st_world s)) as [h w'] eqn:E.
    eexists _, _, h, w'. split; [|split; [|split; [exact E|reflexivity]]].
    + rewrite tls_flags_dual_stack. apply listen_flags_dual_stack.
    + simpl. apply tail_items_no_sock_addr.
  - intros host a H4. by apply listen2_host_ipv4.
  - intros host a6 H4 H6. by apply listen2_host_ipv6.
  - intros host H4 H6. by apply listen2_host_invalid.
Qed.

(** The opening guard, field by field. *)
Lemma listen_guard_false (srv : sg_httpsrv W) :
  listen_guard srv = false <->
  is_null (srv_upld_cb srv) = false /\ is_null (srv_upld_write_cb srv) = false /\
  is_null (srv_upld_save_cb srv) = false /\
  is_null (srv_upld_save_as_cb srv) = false /\
  is_null (srv_uplds_dir srv) = false /\ 256 <= srv_post_buf_size srv.
Proof.
  unfold listen_guard. rewrite !orb_false_iff, Z.ltb_ge. tauto.
Qed.

(** C3, amended: the listener returns false with [errno] EINVAL, the server
    and the world untouched and the engine not started, whenever the server
    is null, or the upload callback, the write, save or save-as hook or the
    uploads directory is unset, or the post-buffer size is below 256.  When
    these five are set and the size is at least 256 the guard lets the call
    through, whether or not the free hook is set: the run either goes on to
    exactly one outside call (the engine start, or the error report of a
    host name that does not parse) or overruns the option array. *)
Theorem sg__httpsrv_listen2_guard (srv : sg_httpsrv W)
    (key pwd cert trust dhparams priorities hostname : option string)
    (port backlog : Z) (threaded : bool) (s : state W) :
  let r := sg__httpsrv_listen2 X (Some srv) key pwd cert trust dhparams
             priorities hostname port backlog threaded s in
  sg__httpsrv_listen2 X None key pwd cert trust dhparams priorities hostname
    port backlog threaded s
  = ((Some false, None), mk_state EINVAL (st_world s) (st_trace s)) /\
  (is_null (srv_upld_cb srv) = true \/ is_null (srv_upld_write_cb srv) = true \/
   is_null (srv_upld_save_cb srv) = true \/
   is_null (srv_upld_save_as_cb srv) = true \/
   is_null (srv_uplds_dir srv) = true \/ srv_post_buf_size srv < 256 ->
   listen_rejects X srv key pwd cert trust dhparams priorities hostname
     port backlog threaded s) /\
  (is_null (srv_upld_cb srv) = false -> is_null (srv_upld_write_cb srv) = false ->
   is_null (srv_upld_save_cb srv) = false ->
   is_null (srv_upld_save_as_cb srv) = false ->
   is_null (srv_uplds_dir srv) = false -> 256 <= srv_post_buf_size srv ->
   ~ listen_rejects X srv key pwd cert trust dhparams priorities hostname
       port backlog threaded s /\
   (r = ((None, Some srv), s) \/
    exists ev, st_trace r.2 = st_trace s ++ [ev] /\
               (is_start_daemon ev = true \/ is_err_report ev = true)) /\
   (hostname = None ->
    exists ev, st_trace r.2 = st_trace s ++ [ev] /\ is_start_daemon ev = true)).
Proof.
  intros r. split; [reflexivity|]. split.
  - intros Hbad. unfold listen_rejects, sg__httpsrv_listen2.
    assert (Hg : listen_guard srv = true).
    { unfold listen_guard. rewrite !orb_true_iff, Z.ltb_lt. tauto. }
    by rewrite Hg.
  - intros H1 H2 H3 H4 H5 H6.
    assert (Hg : listen_guard srv = false) by (by apply listen_guard_false).
    pose proof (sg__httpsrv_listen2_run_passes srv key pwd cert trust dhparams
                  priorities hostname port backlog threaded s Hg) as Hrun.
    fold r in Hrun.
    split; [|split; [exact (proj1 Hrun)|exact (proj2 Hrun)]].
    unfold listen_rejects. fold r. intros Hrej.
    destruct Hrun as [[Hover|(ev & Htr & _)] _].
    + rewrite Hover in Hrej. discriminate.
    + rewrite Hrej in Htr. simpl in Htr.
      apply (f_equal length) in Htr. rewrite length_app in Htr. simpl in Htr. lia.
Qed.

End ListenProperties.

Lemma sg__httpsrv_listen2_guard_witness :
  is_null (srv_upld_cb Scenario.no_free_hook) = false /\
  is_null (srv_upld_write_cb Scenario.no_free_hook) = false /\
  is_null (srv_upld_save_cb Scenario.no_free_hook) = false /\
  is_null (srv_upld_save_as_cb Scenario.no_free_hook) = false /\
  is_null (srv_uplds_dir Scenario.no_free_hook) = false /\
  256 <= srv_post_buf_size Scenario.no_free_hook /\
  ~ listen_rejects Scenario.X Scenario.no_free_hook None None None None None
      None None 8080 0 false Scenario.s0.
Proof.
  repeat (split; [reflexivity|]).
  split; [vm_compute; discriminate|].
  apply (proj2 (proj2
           (sg__httpsrv_listen2_guard Scenario.X Scenario.no_free_hook
              None None None None None None None 8080 0 false Scenario.s0)));
    first [reflexivity | vm_compute; discriminate].
Defined.

(** C3 as stated fails: with the free hook unset and everything else in
    place the listener is not turned down; it starts the engine and returns
    true. *)
Lemma listen_accepts_unset_free_hook :
  srv_upld_free_cb Scenario.no_free_hook = None /\
  (sg__httpsrv_listen2 Scenario.X (Some Scenario.no_free_hook)
     None None None None None None None 8080 0 false Scenario.s0).1.1
  = Some true /\
  existsb is_start_daemon
    (st_trace (sg__httpsrv_listen2 Scenario.X (Some Scenario.no_free_hook)
                 None None None None None None None 8080 0 false Scenario.s0).2)
  = true /\
  ~ listen_rejects Scenario.X Scenario.no_free_hook None None None None None
      None None 8080 0 false Scenario.s0.
Proof.
  split; [reflexivity|]. split; [reflexivity|]. split; [reflexivity|].
  unfold listen_rejects. vm_compute. discriminate.
Qed.

(** ** Releasing the server *)

Lemma LL_DELETE_all (l : list sg__httpreq_isolated) :
  foldl LL_DELETE l l = [].
Proof.
  induction l as [|e l IH]; [reflexivity|].
  simpl. by rewrite decide_True.
Qed.

Lemma without_reports_app (a b : list event) :
  without_reports (a ++ b) = without_reports a ++ without_reports b.
Proof. apply List.filter_app. Qed.

Section FreeProperties.

Context {W : Type} (X : extern W).

Lemma bind_run {A B} (m : M W A) (k : A -> M W B) s :
  (m ≫= k) s = k (m s).1 (m s).2.
Proof. unfold mbind, M_bind. by destruct (m s). Qed.

Lemma emits_bind {A B} (m : M W A) (k : A -> M W B) s e1 e2 :
  emits m s e1 -> emits (k (m s).1) (m s).2 e2 -> emits (m ≫= k) s (e1 ++ e2).
Proof.
  intros (d1 & H1 & F1) (d2 & H2 & F2). exists (d1 ++ d2).
  unfold mbind, M_bind. destruct (m s) as [a s1]. simpl in *.
  rewrite H2, H1, app_assoc, without_reports_app, F1, F2. done.
Qed.

Lemma emits_ret {A} (a : A) (s : state W) : emits (mret a : M W A) s [].
Proof. exists []. by rewrite app_nil_r. Qed.

Lemma emits_eprintf (srv : sg_httpsrv W) text s :
  emits (sg__httpsrv_eprintf X srv text) s [].
Proof. by eexists [_]. Qed.

Lemma emits_call {A} ev (f : W -> A * W) s :
  is_err_report ev = false -> emits (call ev f) s [ev].
Proof.
  intros Hev. exists [ev]. unfold call. destruct (f (st_world s)). simpl.
  unfold without_reports. simpl. by rewrite Hev.
Qed.

Lemma emits_call_ ev (f : W -> W) s :
  is_err_report ev = false -> emits (call_ ev f) s [ev].
Proof. intros Hev. by apply emits_call. Qed.

Lemma emits_log ev (s : state W) :
  is_err_report ev = false -> emits (log_ ev) s [ev].
Proof. intros Hev. by apply emits_call. Qed.

Lemma emits_query {A} (ev : A -> event) (f : W -> A) s :
  is_err_report (ev (f (st_world s))) = false ->
  emits (query ev f) s [ev (f (st_world s))].
Proof.
  intros Hev. exists [ev (f (st_world s))]. unfold query. simpl.
  unfold without_reports. simpl. by rewrite Hev.
Qed.

Lemma emits_lock (srv : sg_httpsrv W) s : emits (sg__httpsrv_lock X srv) s [EvMutexLock].
Proof.
  unfold sg__httpsrv_lock.
  change [EvMutexLock] with ([EvMutexLock] ++ @nil event).
  apply emits_bind; [by apply emits_call|].
  destruct (negb _); [apply emits_eprintf | apply emits_ret].
Qed.

Lemma emits_unlock (srv : sg_httpsrv W) s :
  emits (sg__httpsrv_unlock X srv) s [EvMutexUnlock].
Proof.
  unfold sg__httpsrv_unlock.
  change [EvMutexUnlock] with ([EvMutexUnlock] ++ @nil event).
  apply emits_bind; [by apply emits_call|].
  destruct (negb _); [apply emits_eprintf | apply emits_ret].
Qed.

Lemma emits_join_all (srv : sg_httpsrv W) l s :
  emits (free_join_all X srv l) s (join_events l).
Proof.
  revert s. induction l as [|e l IH]; intros s; [apply emits_ret|].
  cbn [free_join_all join_events List.flat_map].
  change ([EvMutexUnlock; EvJoin (iso_thread e); EvMutexLock] ++ List.flat_map _ l)
    with ([EvMutexUnlock] ++ [EvJoin (iso_thread e)] ++ [] ++ [EvMutexLock] ++ join_events l).
  apply emits_bind; [apply emits_unlock|].
  apply emits_bind; [by apply emits_call|].
  apply emits_bind; [destruct (negb _); [apply emits_eprintf | apply emits_ret]|].
  apply emits_bind; [apply emits_lock|].
  apply IH.
Qed.

(** The server is only read by the two locking helpers and by the join
    loop; the state they leave keeps [errno]. *)
Lemma resume_all_spec (l : list sg__httpreq_isolated) (srv : sg_httpsrv W) s :
  exists answers,
    length answers = length l /\
    emits (free_resume_all X srv l) s (resume_events (zip l answers)) /\
    (free_resume_all X srv l s).1
    = set_srv_isolated_list (foldl LL_DELETE (srv_isolated_list srv) l) srv.
Proof.
  revert srv s. induction l as [|e l IH]; intros srv s.
  - exists []. split; [reflexivity|]. split; [apply emits_ret|]. by destruct srv.
  - cbn [free_resume_all]. 
    set (ans := MHD_get_connection_info_suspended X (iso_handle_con e) (st_world s)).
    set (srv1 := set_srv_isolated_list (LL_DELETE (srv_isolated_list srv) e) srv).
    set (s1 := mk_state (st_errno s) (st_world s)
                 (st_trace s ++ [EvInfoSuspended (iso_handle_con e) ans])).
    set (resume := match ans with
                   | Some true =>
                       call_ (EvResume (iso_handle_con e))
                         (MHD_resume_connection X (iso_handle_con e))
                   | _ => mret tt
                   end).
    set (s2 := (resume s1).2).
    set (s3 := (log_ (EvFree (FreedIsolated e)) s2).2).
    destruct (IH srv1 s3) as (answers & Hlen & Hemit & Hsrv).
    exists (ans :: answers). split; [simpl; by rewrite Hlen|]. split.
    + cbn [zip zip_with resume_events List.flat_map fst snd].
      rewrite <- !app_assoc.
      apply emits_bind; [by apply emits_query|].
      apply emits_bind.
      { unfold query. cbn [fst snd]. fold ans.
        destruct ans as [[|]|]; [by apply emits_call_|apply emits_ret..]. }
      apply emits_bind; [by apply emits_log|].
      exact Hemit.
    + rewrite !bind_run. fold srv1.
      etrans; [exact Hsrv|]. by destruct srv.
Qed.

Lemma emits_shutdown (srv : sg_httpsrv W) s :
  emits (sg_httpsrv_shutdown X (Some srv)) s (stop_events (srv_handle srv)) /\
  (sg_httpsrv_shutdown X (Some srv) s).1.2 = Some (set_srv_handle None srv).
Proof.
  unfold sg_httpsrv_shutdown. destruct (srv_handle srv) as [h|] eqn:Hh.
  - split; [|reflexivity]. 
    change (stop_events (Some h)) with ([EvStopDaemon h] ++ []).
    apply emits_bind; [by apply emits_call_|apply emits_ret].
  - split; [apply emits_ret|]. simpl. destruct srv. simpl in Hh. by subst.
Qed.

(** The events of a release, error reports apart, given the answers of the
    engine about the registered connections. *)
Lemma free_spec (srv : sg_httpsrv W) s :
  exists answers,
    length answers = length (srv_isolated_list srv) /\
    emits (sg_httpsrv_free X (Some srv)) s
      ([EvMutexLock] ++ join_events (srv_isolated_list srv) ++
       [EvMutexUnlock; EvMutexLock] ++
       resume_events (zip (srv_isolated_list srv) answers) ++
       [EvMutexUnlock] ++ stop_events (srv_handle srv) ++
       [EvFree FreedUpldsDir; EvMutexDestroy; EvFree FreedSrv]) /\
    (sg_httpsrv_free X (Some srv) s).1
    = Some (set_srv_handle None (set_srv_isolated_list [] srv)).
Proof.
  set (l := srv_isolated_list srv).
  set (s1 := (sg__httpsrv_lock X srv s).2).
  set (s2 := (free_join_all X srv l s1).2).
  set (s3 := (sg__httpsrv_unlock X srv s2).2).
  set (s4 := (sg__httpsrv_lock X srv s3).2).
  destruct (resume_all_spec l srv s4) as (answers & Hlen & Hemit & Hsrv).
  rewrite LL_DELETE_all in Hsrv.
  set (srv1 := set_srv_isolated_list [] srv) in *.
  set (s5 := (free_resume_all X srv l s4).2).
  set (s6 := (sg__httpsrv_unlock X srv1 s5).2).
  destruct (emits_shutdown srv1 s6) as [Hstop Hsrv'].
  exists answers. split; [exact Hlen|]. split.
  - unfold sg_httpsrv_free. fold l.
    change ([EvMutexUnlock; EvMutexLock] ++ ?a) with ([EvMutexUnlock] ++ [EvMutexLock] ++ a).
    apply emits_bind; [apply emits_lock|].
    apply emits_bind; [apply emits_join_all|].
    apply emits_bind; [apply emits_unlock|].
    apply emits_bind; [apply emits_lock|].
    apply emits_bind; [exact Hemit|].
    fold s1 s2 s3 s4. rewrite Hsrv. 
    apply emits_bind; [apply emits_unlock|].
    apply emits_bind; [exact Hstop|].
    fold s5 s6.
    destruct (sg_httpsrv_shutdown X (Some srv1) s6) as [[r srv'] s7]. cbn [fst snd].
    change [EvFree FreedUpldsDir; EvMutexDestroy; EvFree FreedSrv]
      with ([EvFree FreedUpldsDir] ++ [EvMutexDestroy] ++ [EvFree FreedSrv] ++ []).
    apply emits_bind; [by apply emits_log|].
    apply emits_bind; [by apply emits_call_|].
    apply emits_bind; [by apply emits_log|].
    apply emits_ret.
  - unfold sg_httpsrv_free. fold l. rewrite !bind_run. fold s1 s2 s3 s4.
    rewrite Hsrv. fold s5 s6.
    destruct (sg_httpsrv_shutdown X (Some srv1) s6) as [[r srv'] s7] eqn:E.
    cbn [fst snd] in *. rewrite !bind_run. cbn [fst snd mret M_ret].
    exact Hsrv'.
Qed.

End FreeProperties.

(** ** The log of a release read back *)

Lemma suspended_answers_reports (tr : list event) :
  suspended_answers (without_reports tr) = suspended_answers tr.
Proof.
  induction tr as [|e tr IH]; [reflexivity|].
  destruct e; simpl; unfold suspended_answers in *; simpl; by rewrite ?IH.
Qed.

Lemma suspended_answers_app (a b : list event) :
  suspended_answers (a ++ b) = suspended_answers a ++ suspended_answers b.
Proof. apply omap_app. Qed.

Lemma suspended_answers_join (l : list sg__httpreq_isolated) :
  suspended_answers (join_events l) = [].
Proof. induction l as [|e l IH]; [reflexivity|exact IH]. Qed.

Lemma suspended_answers_resume (l : list sg__httpreq_isolated) :
  forall answers, length answers = length l ->
  suspended_answers (resume_events (zip l answers)) = answers.
Proof.
  induction l as [|e l IH]; intros [|a answers] Hlen; try discriminate;
    [reflexivity|].
  injection Hlen as Hlen. specialize (IH answers Hlen).
  cbn [zip zip_with resume_events List.flat_map fst snd].
  rewrite !suspended_answers_app. unfold resume_events in IH. rewrite IH.
  by destruct a as [[|]|].
Qed.

Section ReleaseLog.

Context {W : Type} (X : extern W) (err_cb : sg_err_cb W).

Lemma replay_app (a b : list event) (w : W) :
  replay X err_cb (a ++ b) w = replay X err_cb b (replay X err_cb a w).
Proof. apply foldl_app. Qed.

Lemma faithful_app (a b : list event) :
  forall due w mid due',
  faithful X err_cb due a w mid ->
  faithful X err_cb mid b (replay X err_cb a w) due' ->
  faithful X err_cb due (a ++ b) w due'.
Proof.
  induction a as [|e a IH]; intros due w mid due' Ha Hb.
  - simpl in *. by subst.
  - destruct Ha as (Hr & Hans & Ha). simpl. split; [exact Hr|].
    split; [exact Hans|]. by apply (IH _ _ mid).
Qed.

Lemma logs_bind {A B} (m : M W A) (k : A -> M W B) s e1 e2 due mid due' :
  logs X err_cb due m s e1 mid ->
  logs X err_cb mid (k (m s).1) (m s).2 e2 due' ->
  logs X err_cb due (m ≫= k) s (e1 ++ e2) due'.
Proof.
  intros (d1 & T1 & F1 & P1 & W1) (d2 & T2 & F2 & P2 & W2). exists (d1 ++ d2).
  unfold mbind, M_bind. destruct (m s) as [a s1]. simpl in *.
  split; [by rewrite T2, T1, app_assoc|].
  split; [by rewrite without_reports_app, F1, F2|].
  split; [apply (faithful_app _ _ _ _ mid); [exact P1|by rewrite <- W1]|].
  by rewrite replay_app, <- W1.
Qed.

Lemma logs_ret {A} (a : A) (s : state W) due :
  logs X err_cb due (mret a : M W A) s [] due.
Proof. exists []. simpl. by rewrite app_nil_r. Qed.

(** A logged call that is not a report: the log tells whether a report is
    due next. *)
Lemma logs_call {A} ev (f : W -> A * W) s :
  is_err_report ev = false ->
  answer_ok X ev (st_world s) ->
  effect X err_cb ev (st_world s) = (f (st_world s)).2 ->
  logs X err_cb false (call ev f) s [ev] (fails X ev (st_world s)).
Proof.
  intros Hev Hans Heff. exists [ev]. unfold call.
  destruct (f (st_world s)) as [a w'] eqn:E. simpl in *.
  split; [reflexivity|]. unfold without_reports. simpl. rewrite Hev. simpl.
  split; [reflexivity|]. split; [by repeat split|]. by rewrite Heff.
Qed.

End ReleaseLog.

Section ReleaseFacts.

Context {W : Type} (X : extern W).

Lemma logs_eprintf (srv : sg_httpsrv W) text s :
  logs X (srv_err_cb srv) true (sg__httpsrv_eprintf X srv text) s [] false.
Proof. eexists [_]. by repeat split. Qed.

Lemma logs_lock (srv : sg_httpsrv W) s :
  logs X (srv_err_cb srv) false (sg__httpsrv_lock X srv) s [EvMutexLock] false.
Proof.
  unfold sg__httpsrv_lock.
  change [EvMutexLock] with ([EvMutexLock] ++ @nil event).
  eapply logs_bind; [by apply logs_call|].
  unfold call. cbn [fails]. destruct (pthread_mutex_lock X (st_world s)) as [e w'].
  cbn [fst snd]. destruct (negb (e =? 0)); [apply logs_eprintf|apply logs_ret].
Qed.

Lemma logs_unlock (srv : sg_httpsrv W) s :
  logs X (srv_err_cb srv) false (sg__httpsrv_unlock X srv) s [EvMutexUnlock] false.
Proof.
  unfold sg__httpsrv_unlock.
  change [EvMutexUnlock] with ([EvMutexUnlock] ++ @nil event).
  eapply logs_bind; [by apply logs_call|].
  unfold call. cbn [fails]. destruct (pthread_mutex_unlock X (st_world s)) as [e w'].
  cbn [fst snd]. destruct (negb (e =? 0)); [apply logs_eprintf|apply logs_ret].
Qed.

Lemma logs_join_all (srv : sg_httpsrv W) l s :
  logs X (srv_err_cb srv) false (free_join_all X srv l) s (join_events l) false.
Proof.
  revert s. induction l as [|e l IH]; intros s; [apply logs_ret|].
  cbn [free_join_all join_events List.flat_map].
  change ([EvMutexUnlock; EvJoin (iso_thread e); EvMutexLock] ++ List.flat_map _ l)
    with ([EvMutexUnlock] ++ [EvJoin (iso_thread e)] ++ [] ++ [EvMutexLock]
          ++ join_events l).
  eapply logs_bind; [apply logs_unlock|].
  eapply logs_bind; [by apply logs_call|].
  eapply logs_bind.
  { unfold call. cbn [fails].
    destruct (pthread_join X (iso_thread e) _) as [r w']. cbn [fst snd].
    destruct (negb (r =? 0)); [apply logs_eprintf|apply logs_ret]. }
  eapply logs_bind; [apply logs_lock|].
  apply IH.
Qed.

Lemma logs_resume_all (l : list sg__httpreq_isolated) :
  forall (srv : sg_httpsrv W) s,
  exists answers,
    length answers = length l /\
    logs X (srv_err_cb srv) false (free_resume_all X srv l) s
      (resume_events (zip l answers)) false.
Proof.
  induction l as [|e l IH]; intros srv s.
  - exists []. split; [reflexivity|]. apply logs_ret.
  - cbn [free_resume_all].
    set (ans := MHD_get_connection_info_suspended X (iso_handle_con e) (st_world s)).
    set (srv1 := set_srv_isolated_list (LL_DELETE (srv_isolated_list srv) e) srv).
    set (s1 := mk_state (st_errno s) (st_world s)
                 (st_trace s ++ [EvInfoSuspended (iso_handle_con e) ans])).
    set (resume := match ans with
                   | Some true =>
                       call_ (EvResume (iso_handle_con e))
                         (MHD_resume_connection X (iso_handle_con e))
                   | _ => mret tt
                   end).
    set (s2 := (resume s1).2).
    set (s3 := (log_ (EvFree (FreedIsolated e)) s2).2).
    destruct (IH srv1 s3) as (answers & Hlen & Hlogs).
    exists (ans :: answers). split; [simpl; by rewrite Hlen|].
    cbn [zip zip_with resume_events List.flat_map fst snd].
    rewrite <- !app_assoc.
    eapply logs_bind.
    { exists [EvInfoSuspended (iso_handle_con e) ans]. by repeat split. }
    eapply logs_bind.
    { unfold query. cbn [fst snd]. fold ans. fold s1.
      destruct ans as [[|]|]; cbn [fails];
        [exists [EvResume (iso_handle_con e)]; by repeat split
        |apply logs_ret..]. }
    eapply logs_bind.
    { exists [EvFree (FreedIsolated e)]. by repeat split. }
    exact Hlogs.
Qed.

Lemma logs_shutdown (srv : sg_httpsrv W) s :
  logs X (srv_err_cb srv) false (sg_httpsrv_shutdown X (Some srv)) s
    (stop_events (srv_handle srv)) false.
Proof.
  unfold sg_httpsrv_shutdown. destruct (srv_handle srv) as [h|].
  - change (stop_events (Some h)) with ([EvStopDaemon h] ++ []).
    eapply logs_bind; [|apply logs_ret].
    exists [EvStopDaemon h]. by repeat split.
  - apply logs_ret.
Qed.

(** The log of a release, given the answers of the engine about the
    registered connections. *)
Lemma logs_free (srv : sg_httpsrv W) s :
  exists answers,
    length answers = length (srv_isolated_list srv) /\
    logs X (srv_err_cb srv) false (sg_httpsrv_free X (Some srv)) s
      ([EvMutexLock] ++ join_events (srv_isolated_list srv) ++
       [EvMutexUnlock; EvMutexLock] ++
       resume_events (zip (srv_isolated_list srv) answers) ++
       [EvMutexUnlock] ++ stop_events (srv_handle srv) ++
       [EvFree FreedUpldsDir; EvMutexDestroy; EvFree FreedSrv]) false.
Proof.
  set (l := srv_isolated_list srv).
  set (s1 := (sg__httpsrv_lock X srv s).2).
  set (s2 := (free_join_all X srv l s1).2).
  set (s3 := (sg__httpsrv_unlock X srv s2).2).
  set (s4 := (sg__httpsrv_lock X srv s3).2).
  destruct (logs_resume_all l srv s4) as (answers & Hlen & Hlogs).
  destruct (resume_all_spec X l srv s4) as (_ & _ & _ & Hsrv).
  rewrite LL_DELETE_all in Hsrv.
  set (srv1 := set_srv_isolated_list [] srv) in *.
  exists answers. split; [exact Hlen|].
  unfold sg_httpsrv_free. fold l.
  change ([EvMutexUnlock; EvMutexLock] ++ ?a) with ([EvMutexUnlock] ++ [EvMutexLock] ++ a).
  eapply logs_bind; [apply logs_lock|].
  eapply logs_bind; [apply logs_join_all|].
  eapply logs_bind; [apply logs_unlock|].
  eapply logs_bind; [apply logs_lock|].
  eapply logs_bind; [exact Hlogs|].
  fold s1 s2 s3 s4. rewrite Hsrv.
  eapply logs_bind; [apply (logs_unlock srv1)|].
  eapply logs_bind; [apply (logs_shutdown srv1)|].
  destruct (sg_httpsrv_shutdown X (Some srv1) _) as [[r srv'] s7]. cbn [fst snd].
  change [EvFree FreedUpldsDir; EvMutexDestroy; EvFree FreedSrv]
    with ([EvFree FreedUpldsDir] ++ [EvMutexDestroy] ++ [EvFree FreedSrv] ++ []).
  eapply logs_bind; [exists [EvFree FreedUpldsDir]; by repeat split|].
  eapply logs_bind; [exists [EvMutexDestroy]; by repeat split|].
  eapply logs_bind; [exists [EvFree FreedSrv]; by repeat split|].
  apply logs_ret.
Qed.

(** C9: releasing the server drains the isolation registry.  The log of a
    release is, error reports apart and in this order: the mutex taken; for
    every registered worker, in registry order, the mutex released, the
    join, the mutex taken again; the mutex released and taken; for every
    registered connection the question whether it is suspended, a resume
    exactly when the answer is that it is, and the release of the entry;
    the mutex released; the engine stopped if a handle is live; the
    directory, the mutex and the container released.  The log is faithful:
    every answer in it is the engine's answer in the world of the question,
    an error report follows exactly the lock, unlock or join that failed,
    and the world the release ends in is the world after the logged calls,
    in order, on the externals.  The container is released with an empty
    registry and no handle.  On a server that the constructor built and
    that never listened the release neither joins, resumes nor stops
    anything.  A null server is left alone. *)
Theorem sg_httpsrv_free_drains_registry (srv : sg_httpsrv W) (s : state W)
    auth_cb req_cb err_cb cls (s0 s0' : state W) (srv0 : sg_httpsrv W) :
  sg_httpsrv_new2 X auth_cb req_cb err_cb cls s0 = (Some srv0, s0') ->
  (let r := sg_httpsrv_free X (Some srv) s in
   let ev := events_since s r.2 in
   st_trace r.2 = st_trace s ++ ev /\
   length (suspended_answers ev) = length (srv_isolated_list srv) /\
   without_reports ev
   = [EvMutexLock] ++ join_events (srv_isolated_list srv) ++
     [EvMutexUnlock; EvMutexLock] ++
     resume_events (zip (srv_isolated_list srv) (suspended_answers ev)) ++
     [EvMutexUnlock] ++ stop_events (srv_handle srv) ++
     [EvFree FreedUpldsDir; EvMutexDestroy; EvFree FreedSrv] /\
   faithful X (srv_err_cb srv) false ev (st_world s) false /\
   st_world r.2 = replay X (srv_err_cb srv) ev (st_world s) /\
   r.1 = Some (set_srv_handle None (set_srv_isolated_list [] srv))) /\
  (forall s',
     emits (sg_httpsrv_free X (Some srv0)) s'
       [EvMutexLock; EvMutexUnlock; EvMutexLock; EvMutexUnlock;
        EvFree FreedUpldsDir; EvMutexDestroy; EvFree FreedSrv]) /\
  sg_httpsrv_free X None s = (None, s).
Proof.
  intros Hnew. split; [|split; [|reflexivity]].
  - cbv zeta.
    destruct (logs_free srv s) as (answers & Hlen & delta & Ht & Hshape & Hf & Hw).
    destruct (free_spec X srv s) as (_ & _ & _ & Hres).
    assert (Hev : events_since s (sg_httpsrv_free X (Some srv) s).2 = delta).
    { unfold events_since. rewrite Ht. apply drop_app_length. }
    rewrite Hev.
    assert (Hans : suspended_answers delta = answers).
    { rewrite <- suspended_answers_reports, Hshape.
      rewrite !suspended_answers_app, suspended_answers_join,
        (suspended_answers_resume _ _ Hlen).
      destruct (srv_handle srv); simpl; by rewrite app_nil_r. }
    rewrite Hans. by repeat split.
  - intros s'. destruct (new2_fields X _ _ _ _ _ _ _ Hnew) as (Hh & Hl & _).
    destruct (free_spec X srv0 s') as (answers & _ & Hemit & _).
    rewrite Hh, Hl in Hemit. exact Hemit.
Qed.

End ReleaseFacts.

(** ** The authentication gate and the access handler *)

Lemma events_since_app {W} (s : state W) e w (delta : list event) :
  events_since s (mk_state e w (st_trace s ++ delta)) = delta.
Proof. unfold events_since. simpl. apply drop_app_length. Qed.

(** The gate on an object whose canceled flag is set. *)
Lemma auth_gate_canceled (auth : sg_httpauth) :
  auth_canceled auth = true ->
  (is_null (res_handle (auth_res auth)) = false ->
   auth_gate auth = ProceedWithResponse /\
   sg__httpauth_dispatch auth
   = (true, set_auth_res (set_res_ret MHD_YES (auth_res auth)) auth)) /\
  (is_null (res_handle (auth_res auth)) = true ->
   auth_gate auth = RejectWithoutResponse /\
   sg__httpauth_dispatch auth
   = (false, set_auth_res (set_res_ret MHD_NO (auth_res auth)) auth)).
Proof.
  intros Hc. unfold sg__httpauth_dispatch, auth_gate. rewrite Hc.
  split; intros ->; split; reflexivity.
Qed.

Lemma cancel_sets_flag (auth auth' : sg_httpauth) :
  sg_httpauth_cancel (Some auth) = (0, Some auth') ->
  auth_canceled auth' = true /\ auth_res auth' = auth_res auth.
Proof. intros [= <-]. split; reflexivity. Qed.

Section AccessHandlerProperties.

Context {W : Type} (X : extern W).

(** The first callback of a connection on a server with an authentication
    callback. *)
Lemma ahc_first_call (srv : sg_httpsrv W) con url method version upld_data size
    (s : state W) req0 w1 cb b req1 w2 :
  claimed X con (st_world s) = false ->
  sg__httpreq_new X srv con version method url (st_world s) = (Some req0, w1) ->
  srv_auth_cb srv = Some cb ->
  cb req0 w1 = (b, req1, w2) ->
  let d := sg__httpauth_dispatch (req_auth (set_req_ret b req1)) in
  let req3 := set_req_auth d.2 (set_req_ret b req1) in
  sg__httpsrv_ahc X srv con url method version upld_data size None s
  = ((if d.1 then MHD_YES else res_ret (req_res req3), size, Some req3),
     mk_state (st_errno s) w2
       (st_trace s ++ socket_context_events X con (st_world s) ++
        [EvReqNew; EvAuthCb])).
Proof.
  intros Hcl Hnew Hcb Hrun d req3. subst d req3.
  unfold sg__httpsrv_ahc, claimed, socket_context_events in *.
  destruct con as [c|]; run.
  - destruct (MHD_get_connection_info_socket_context X c (st_world s))
      as [[|]|]; try discriminate; simpl;
      rewrite Hnew, Hcb; simpl; rewrite Hrun; simpl;
      destruct (sg__httpauth_dispatch _) as [[|] a]; simpl;
      by rewrite <- !app_assoc.
  - rewrite Hnew, Hcb. simpl. rewrite Hrun. simpl.
    destruct (sg__httpauth_dispatch _) as [[|] a]; simpl;
      by rewrite <- !app_assoc.
Qed.

(** A later callback on a request whose authentication was canceled. *)
Lemma ahc_data_canceled (srv : sg_httpsrv W) con url method version upld_data size
    req (s : state W) :
  claimed X con (st_world s) = false ->
  auth_canceled (req_auth req) = true ->
  sg__httpsrv_ahc X srv con url method version upld_data size (Some req) s
  = if suspended X con (st_world s)
    then ((MHD_YES, size, Some req),
          mk_state (st_errno s) (st_world s)
            (st_trace s ++ socket_context_events X con (st_world s) ++
             suspended_events X con (st_world s)))
    else
      let '(r, res, w') := sg__httpres_dispatch X (req_res req) (st_world s) in
      ((r, size, Some (set_req_auth (set_auth_res res (req_auth req)) req)),
       mk_state (st_errno s) w'
         (st_trace s ++ socket_context_events X con (st_world s) ++
          suspended_events X con (st_world s) ++ [EvResDispatch])).
Proof.
  intros Hcl Hc.
  unfold sg__httpsrv_ahc, ahc_finish, claimed, suspended, socket_context_events,
    suspended_events in *.
  rewrite Hc. destruct con as [c|]; run.
  - destruct (MHD_get_connection_info_socket_context X c (st_world s))
      as [[|]|]; try discriminate; simpl;
      destruct (MHD_get_connection_info_suspended X c (st_world s)) as [[|]|];
      simpl; rewrite <- ?app_assoc; try reflexivity;
      destruct (sg__httpres_dispatch X (req_res req) (st_world s)) as [[r res] w'];
      simpl; by rewrite <- ?app_assoc.
  - destruct (sg__httpres_dispatch X (req_res req) (st_world s)) as [[r res] w'].
    reflexivity.
Qed.

(** The events of a later callback on a canceled request: the two
    questions to the engine and, unless the connection is suspended, the
    dispatch of the response. *)
Lemma ahc_data_canceled_events (srv : sg_httpsrv W) con url method version upld_data
    size req (s : state W) :
  claimed X con (st_world s) = false ->
  auth_canceled (req_auth req) = true ->
  events_since s
    (sg__httpsrv_ahc X srv con url method version upld_data size (Some req) s).2
  = socket_context_events X con (st_world s) ++
    suspended_events X con (st_world s) ++
    (if suspended X con (st_world s) then [] else [EvResDispatch]).
Proof.
  intros Hcl Hc. rewrite (ahc_data_canceled _ _ _ _ _ _ _ _ _ Hcl Hc).
  destruct (suspended X con (st_world s)).
  - simpl. rewrite events_since_app. by rewrite app_nil_r.
  - destruct (sg__httpres_dispatch X (req_res req) (st_world s)) as [[r res] w'].
    simpl. by rewrite events_since_app.
Qed.

Lemma no_handler_in_queries (con : option MHD_Connection) (w : W) (tl : list event) :
  existsb is_uplds_process tl = false -> existsb is_req_cb tl = false ->
  existsb is_uplds_process
    (socket_context_events X con w ++ suspended_events X con w ++ tl) = false /\
  existsb is_req_cb
    (socket_context_events X con w ++ suspended_events X con w ++ tl) = false.
Proof.
  intros H1 H2. unfold socket_context_events, suspended_events.
  destruct con; simpl; auto.
Qed.

(** A later callback on a request that was not canceled, whose body is not
    at a terminal condition and which is not isolated: the upload engine
    is fed and the request handler is called. *)
Lemma ahc_data_normal (srv : sg_httpsrv W) con url method version upld_data size
    req (s : state W) req' size' w1 :
  claimed X con (st_world s) = false ->
  auth_canceled (req_auth req) = false ->
  sg__httpuplds_process X srv req con upld_data size (st_world s)
  = (false, req', size', w1) ->
  req_isolated req' = false ->
  resumes_processing X srv con url method version upld_data size req s.
Proof.
  intros Hcl Hc Hup Hiso.
  unfold resumes_processing, sg__httpsrv_ahc, ahc_finish, claimed in *.
  rewrite Hc.
  destruct con as [c|]; run.
  - destruct (MHD_get_connection_info_socket_context X c (st_world s))
      as [[|]|]; try discriminate; simpl; rewrite Hup; simpl; rewrite Hiso; simpl;
      destruct (srv_req_cb srv req' w1) as [req2 w2]; simpl;
      destruct (MHD_get_connection_info_suspended X c w2) as [[|]|]; simpl;
      try destruct (sg__httpres_dispatch X (req_res req2) w2) as [[r res] w3];
      simpl; rewrite <- !app_assoc, events_since_app; split; reflexivity.
  - rewrite Hup. simpl. rewrite Hiso. simpl.
    destruct (srv_req_cb srv req' w1) as [req2 w2]. simpl.
    destruct (sg__httpres_dispatch X (req_res req2) w2) as [[r res] w3]. simpl.
    rewrite <- !app_assoc, events_since_app. split; reflexivity.
Qed.

(** C1: verdicts of the authentication gate after a cancel.  For every
    authentication object with the canceled flag set, the gate proceeds
    with the response when a response handle exists and rejects without a
    response when none does.  In the dispatcher, when the authentication
    callback has canceled: with a composed response the first callback
    returns MHD_YES, keeps the request with its flag and its response, and
    never calls the request handler, and every later callback on that
    request skips the upload engine and the handler and, unless the engine
    reports the connection suspended, returns what the dispatch of that
    response returns; without a response the first callback returns MHD_NO
    and the request handler is not called. *)
Theorem auth_gate_verdicts_after_cancel (srv : sg_httpsrv W)
    con url method version upld_data size (s : state W) req0 w1 cb b req1 w2 :
  claimed X con (st_world s) = false ->
  sg__httpreq_new X srv con version method url (st_world s) = (Some req0, w1) ->
  srv_auth_cb srv = Some cb ->
  cb req0 w1 = (b, req1, w2) ->
  auth_canceled (req_auth req1) = true ->
  let first := sg__httpsrv_ahc X srv con url method version upld_data size None s in
  let s1 := mk_state (st_errno s) w2
              (st_trace s ++ socket_context_events X con (st_world s) ++
               [EvReqNew; EvAuthCb]) in
  (forall auth : sg_httpauth,
     auth_canceled auth = true ->
     (is_null (res_handle (auth_res auth)) = false ->
      auth_gate auth = ProceedWithResponse /\
      sg__httpauth_dispatch auth
      = (true, set_auth_res (set_res_ret MHD_YES (auth_res auth)) auth)) /\
     (is_null (res_handle (auth_res auth)) = true ->
      auth_gate auth = RejectWithoutResponse /\
      sg__httpauth_dispatch auth
      = (false, set_auth_res (set_res_ret MHD_NO (auth_res auth)) auth))) /\
  (is_null (res_handle (req_res req1)) = false ->
   exists req3,
     first = ((MHD_YES, size, Some req3), s1) /\
     auth_canceled (req_auth req3) = true /\
     res_handle (req_res req3) = res_handle (req_res req1) /\
     forall con' url' method' version' upld_data' size' (s' : state W),
       claimed X con' (st_world s') = false ->
       let later := sg__httpsrv_ahc X srv con' url' method' version' upld_data'
                      size' (Some req3) s' in
       existsb is_uplds_process (events_since s' later.2) = false /\
       existsb is_req_cb (events_since s' later.2) = false /\
       (suspended X con' (st_world s') = true -> later.1.1.1 = MHD_YES) /\
       (suspended X con' (st_world s') = false ->
        later.1.1.1 = (sg__httpres_dispatch X (req_res req3) (st_world s')).1.1 /\
        existsb is_res_dispatch (events_since s' later.2) = true)) /\
  (is_null (res_handle (req_res req1)) = true ->
   exists req3,
     first = ((MHD_NO, size, Some req3), s1) /\
     res_ret (req_res req3) = MHD_NO) /\
  existsb is_req_cb (events_since s first.2) = false.
Proof.
  intros Hcl Hnew Hcb Hrun Hc first s1.
  pose proof (ahc_first_call srv con url method version upld_data size s
                req0 w1 cb b req1 w2 Hcl Hnew Hcb Hrun) as Hfirst.
  cbv zeta in Hfirst. fold first s1 in Hfirst.
  assert (Hc2 : auth_canceled (req_auth (set_req_ret b req1)) = true) by exact Hc.
  destruct (auth_gate_canceled _ Hc2) as [Hyes Hno].
  split; [exact auth_gate_canceled|]. split; [|split].
  - intros Hh. destruct (Hyes Hh) as [_ Hd]. rewrite Hd in Hfirst.
    eexists. split; [exact Hfirst|]. split; [exact Hc|]. split; [reflexivity|].
    intros con' url' method' version' upld_data' size' s' Hcl' later.
    match goal with
    | later := sg__httpsrv_ahc _ _ _ _ _ _ _ _ (Some ?r) _ |- _ => set (req3 := r) in *
    end.
    assert (Hc3 : auth_canceled (req_auth req3) = true) by exact Hc.
    pose proof (ahc_data_canceled_events srv con' url' method' version'
                  upld_data' size' req3 s' Hcl' Hc3) as Hev.
    pose proof (ahc_data_canceled srv con' url' method' version'
                  upld_data' size' req3 s' Hcl' Hc3) as Hrun'.
    fold later in Hev, Hrun'. rewrite Hev.
    split; [|split; [|split]].
    + apply no_handler_in_queries; by destruct (suspended X con' (st_world s')).
    + apply no_handler_in_queries; by destruct (suspended X con' (st_world s')).
    + intros Hs. rewrite Hs in Hrun'. by rewrite Hrun'.
    + intros Hs. rewrite Hs in Hrun'. rewrite Hs. split.
      * rewrite Hrun'.
        by destruct (sg__httpres_dispatch X (req_res req3) (st_world s'))
          as [[r res] w'].
      * rewrite !existsb_app. simpl. by rewrite !orb_true_r.
  - intros Hh. destruct (Hno Hh) as [_ Hd]. rewrite Hd in Hfirst.
    eexists. split; [exact Hfirst|]. reflexivity.
  - rewrite Hfirst. cbn [snd]. unfold s1. rewrite events_since_app.
    unfold socket_context_events. by destruct con.
Qed.

(** C2, amended: once the canceled flag of a request's authentication
    object is set (which is all a cancel does, any number of times), a
    later callback for the connection neither feeds the upload engine nor
    calls the request handler: it asks the engine whether the connection is
    suspended and, if it is not, dispatches the response.  The upload
    engine and the handler run on the callbacks of a request that was not
    canceled. *)
Theorem canceled_request_skips_body_and_handler (srv : sg_httpsrv W)
    con url method version upld_data size req (s : state W) :
  claimed X con (st_world s) = false ->
  auth_canceled (req_auth req) = true ->
  let later := sg__httpsrv_ahc X srv con url method version upld_data size
                 (Some req) s in
  (forall auth,
     sg_httpauth_cancel (Some auth) = (0, Some (set_auth_canceled true auth)) /\
     auth_canceled (set_auth_canceled true auth) = true /\
     sg_httpauth_cancel (Some (set_auth_canceled true auth))
     = (0, Some (set_auth_canceled true auth))) /\
  events_since s later.2
  = socket_context_events X con (st_world s) ++
    suspended_events X con (st_world s) ++
    (if suspended X con (st_world s) then [] else [EvResDispatch]) /\
  existsb is_uplds_process (events_since s later.2) = false /\
  existsb is_req_cb (events_since s later.2) = false /\
  ~ resumes_processing X srv con url method version upld_data size req s /\
  (forall req0 req' size' w1,
     auth_canceled (req_auth req0) = false ->
     sg__httpuplds_process X srv req0 con upld_data size (st_world s)
     = (false, req', size', w1) ->
     req_isolated req' = false ->
     resumes_processing X srv con url method version upld_data size req0 s).
Proof.
  intros Hcl Hc later.
  pose proof (ahc_data_canceled_events srv con url method version upld_data
                size req s Hcl Hc) as Hev.
  fold later in Hev.
  assert (Hno : existsb is_uplds_process (events_since s later.2) = false /\
                existsb is_req_cb (events_since s later.2) = false).
  { rewrite Hev.
    apply no_handler_in_queries; by destruct (suspended X con (st_world s)). }
  split; [by intros auth|]. split; [exact Hev|].
  split; [exact (proj1 Hno)|]. split; [exact (proj2 Hno)|]. split.
  - unfold resumes_processing. fold later. intros [H _].
    rewrite (proj1 Hno) in H. discriminate.
  - intros req0 req' size' w1 Hc0 Hup Hiso.
    by apply (ahc_data_normal srv con url method version upld_data size req0 s
                req' size' w1).
Qed.

End AccessHandlerProperties.

(** ** The write-once setters of the authentication object *)

Lemma set_realm_calls_later (vals : list string) (auth : sg_httpauth) :
  is_null (auth_realm auth) = false ->
  set_realm_calls vals (Some auth) = (replicate (length vals) EALREADY, Some auth).
Proof.
  intros Hr. induction vals as [|v vals IH]; [reflexivity|].
  simpl. rewrite Hr, IH. reflexivity.
Qed.

(** C6: the realm is write-once.  On an object without a realm the first
    call with a value returns 0 and stores the value; each later call with
    a value, the same or another, returns EALREADY; no later call, whatever
    its argument, changes the object. *)
Theorem sg_httpauth_set_realm_write_once (auth : sg_httpauth) (value : string)
    (later : list string) :
  auth_realm auth = None ->
  let auth1 := set_auth_realm (Some value) auth in
  sg_httpauth_set_realm (Some auth) (Some value) = (0, Some auth1) /\
  auth_realm auth1 = Some value /\
  sg_httpauth_set_realm (Some auth1) (Some value) = (EALREADY, Some auth1) /\
  set_realm_calls later (Some auth1)
  = (replicate (length later) EALREADY, Some auth1) /\
  (forall v : option string, (sg_httpauth_set_realm (Some auth1) v).2 = Some auth1).
Proof.
  intros Hnone auth1. unfold sg_httpauth_set_realm at 1. rewrite Hnone. simpl.
  repeat split.
  - by apply set_realm_calls_later.
  - by intros [v|].
Qed.




(** ** The map accessors of a request *)

Lemma slot_read_write (ref : map_slot) m (req : sg_httpreq) :
  slot_read ref (slot_write ref m req) = m.
Proof. by destruct ref. Qed.

Lemma sg_strmap_add_get map name val :
  sg_strmap_get (sg_strmap_add map name val) name = Some val.
Proof. simpl. apply lookup_insert_eq. Qed.

Lemma sg_strmap_add_get_other map name val other :
  other <> name ->
  sg_strmap_get (sg_strmap_add map name val) other = sg_strmap_get map other.
Proof.
  intros Hne. simpl. rewrite lookup_insert_ne by done. by destruct map.
Qed.

Lemma sg_strmap_add_count map name val :
  sg_strmap_get map name = None ->
  sg_strmap_count (sg_strmap_add map name val) = sg_strmap_count map + 1.
Proof.
  intros Hfresh. unfold sg_strmap_count, sg_strmap_add.
  destruct map as [m|]; simpl in *.
  - rewrite map_size_insert_None by done. lia.
  - rewrite map_size_insert_None by done. by rewrite map_size_empty.
Qed.

Lemma map_accessor_ok (ref : map_slot) (req : sg_httpreq) (errno : Z) :
  accessor_ok req errno (map_accessor ref, ref).
Proof.
  unfold accessor_ok. cbn [fst snd]. repeat split.
  - intros [r|] e; [discriminate|done].
  - by intros ->.
  - unfold slot_add. rewrite slot_read_write. apply sg_strmap_add_get.
  - intros Hfresh. unfold slot_add. rewrite slot_read_write.
    by apply sg_strmap_add_count.
  - intros other Hne. unfold slot_add. rewrite slot_read_write.
    by apply sg_strmap_add_get_other.
Qed.

(** C8: the map references of a request are never null.  For a request that
    is not null each of the four accessors returns the address of its slot
    and leaves [errno] alone, also while the slot itself is still null; the
    map read through the reference then has count 0; a pair added to the
    slot afterwards is read back through the same reference, and raises the
    count by one when its name was not present.  An accessor returns a null
    reference only for a null request, with [errno] EINVAL. *)
Theorem map_accessors_never_null (req : sg_httpreq) (errno : Z) :
  Forall (accessor_ok req errno) accessors.
Proof.
  unfold accessors.
  repeat (apply Forall_cons_2; [apply map_accessor_ok|]).
  apply Forall_nil_2.
Qed.

(** ** The statements on the concrete world *)

Lemma auth_gate_verdicts_after_cancel_witness :
  claimed Scenario.X (Some Scenario.con1) [] = false /\
  srv_auth_cb (Scenario.srv_of (Some Scenario.deny_then_cancel))
  = Some Scenario.deny_then_cancel /\
  auth_canceled
    (req_auth
       (Scenario.deny_then_cancel
          (Scenario.new_request (Some Scenario.con1) (Some "HTTP/1.1"%string)
             (Some "GET"%string) (Some "/"%string)) []).1.2) = true /\
  existsb is_req_cb
    (events_since Scenario.s0 (Scenario.first_call Scenario.deny_then_cancel).2)
  = false.
Proof.
  split; [reflexivity|]. split; [reflexivity|]. split; [reflexivity|].
  exact (proj2 (proj2 (proj2
    (auth_gate_verdicts_after_cancel Scenario.X
       (Scenario.srv_of (Some Scenario.deny_then_cancel))
       (Some Scenario.con1) (Some "/"%string) (Some "GET"%string)
       (Some "HTTP/1.1"%string) None 0 Scenario.s0
       (Scenario.new_request (Some Scenario.con1) (Some "HTTP/1.1"%string)
          (Some "GET"%string) (Some "/"%string))
       [] Scenario.deny_then_cancel false
       (Scenario.deny_then_cancel
          (Scenario.new_request (Some Scenario.con1) (Some "HTTP/1.1"%string)
             (Some "GET"%string) (Some "/"%string)) []).1.2
       [] eq_refl eq_refl eq_refl eq_refl eq_refl)))).
Defined.

Lemma canceled_request_skips_body_and_handler_witness :
  claimed Scenario.X (Some Scenario.con1)
    (st_world (Scenario.first_call Scenario.deny_then_cancel).2) = false /\
  auth_canceled (req_auth (Scenario.req_after Scenario.deny_then_cancel)) = true /\
  events_since (Scenario.first_call Scenario.deny_then_cancel).2
    (Scenario.next_call Scenario.deny_then_cancel).2
  = [EvInfoSocketContext Scenario.con1 (Some false);
     EvInfoSuspended Scenario.con1 (Some false); EvResDispatch].
Proof.
  split; [reflexivity|]. split; [reflexivity|].
  exact (proj1 (proj2
    (canceled_request_skips_body_and_handler Scenario.X
       (Scenario.srv_of (Some Scenario.deny_then_cancel))
       (Some Scenario.con1) (Some "/"%string) (Some "GET"%string)
       (Some "HTTP/1.1"%string) None 0
       (Scenario.req_after Scenario.deny_then_cancel)
       (Scenario.first_call Scenario.deny_then_cancel).2 eq_refl eq_refl))).
Defined.

(** C2 as stated fails: the authentication callback composed a denial and
    canceled, the request is not isolated, and the next callback on the
    connection runs neither the upload engine nor the request handler. *)
Lemma cancel_does_not_resume_processing :
  auth_canceled (req_auth (Scenario.req_after Scenario.deny_then_cancel)) = true /\
  req_isolated (Scenario.req_after Scenario.deny_then_cancel) = false /\
  ~ resumes_processing Scenario.X
      (Scenario.srv_of (Some Scenario.deny_then_cancel))
      (Some Scenario.con1) (Some "/"%string) (Some "GET"%string)
      (Some "HTTP/1.1"%string) None 0
      (Scenario.req_after Scenario.deny_then_cancel)
      (Scenario.first_call Scenario.deny_then_cancel).2.
Proof.
  split; [reflexivity|]. split; [reflexivity|].
  unfold resumes_processing. vm_compute. intros [H _]. discriminate H.
Qed.

Lemma sg_httpsrv_free_drains_registry_witness :
  let r := sg_httpsrv_free Scenario.X (Some Scenario.with_workers)
             Scenario.s_workers in
  let ev := events_since Scenario.s_workers r.2 in
  sg_httpsrv_new2 Scenario.X None (Some Scenario.req_cb)
    (Some Scenario.err_cb) NullPtr Scenario.s0
  = (Some (Scenario.srv_of None), Scenario.s0) /\
  suspended_answers ev = [Some false; Some true] /\
  without_reports ev
  = [EvMutexLock;
     EvMutexUnlock; EvJoin 11%N; EvMutexLock;
     EvMutexUnlock; EvJoin 12%N; EvMutexLock;
     EvMutexUnlock; EvMutexLock;
     EvInfoSuspended Scenario.con1 (Some false);
     EvFree (FreedIsolated (mk_isolated 11%N Scenario.con1));
     EvInfoSuspended Scenario.con2 (Some true);
     EvResume Scenario.con2;
     EvFree (FreedIsolated (mk_isolated 12%N Scenario.con2));
     EvMutexUnlock;
     EvStopDaemon (Daemon 1);
     EvFree FreedUpldsDir; EvMutexDestroy; EvFree FreedSrv] /\
  st_world Scenario.s_workers = [Scenario.con2] /\
  st_world r.2 = [] /\
  emits (sg_httpsrv_free Scenario.X (Some (Scenario.srv_of None))) Scenario.s0
    [EvMutexLock; EvMutexUnlock; EvMutexLock; EvMutexUnlock;
     EvFree FreedUpldsDir; EvMutexDestroy; EvFree FreedSrv].
Proof.
  intros r ev. split; [reflexivity|].
  destruct (sg_httpsrv_free_drains_registry Scenario.X Scenario.with_workers
              Scenario.s_workers None (Some Scenario.req_cb)
              (Some Scenario.err_cb) NullPtr Scenario.s0 Scenario.s0
              (Scenario.srv_of None) eq_refl)
    as ((_ & _ & Hshape & _ & Hworld & _) & Hfresh & _).
  split; [reflexivity|]. split; [exact Hshape|]. split; [reflexivity|].
  split; [exact Hworld|exact (Hfresh Scenario.s0)].
Defined.

(** The release of a listening server with two workers, the second of
    which left its connection suspended. *)
Example free_with_workers :
  sg_httpsrv_free Scenario.X (Some Scenario.with_workers) Scenario.s_workers
  = (Some (set_srv_handle None (set_srv_isolated_list [] Scenario.with_workers)),
     mk_state 0 []
       [EvMutexLock;
        EvMutexUnlock; EvJoin 11%N; EvMutexLock;
        EvMutexUnlock; EvJoin 12%N; EvMutexLock;
        EvMutexUnlock; EvMutexLock;
        EvInfoSuspended Scenario.con1 (Some false);
        EvFree (FreedIsolated (mk_isolated 11%N Scenario.con1));
        EvInfoSuspended Scenario.con2 (Some true);
        EvResume Scenario.con2;
        EvFree (FreedIsolated (mk_isolated 12%N Scenario.con2));
        EvMutexUnlock;
        EvStopDaemon (Daemon 1);
        EvFree FreedUpldsDir; EvMutexDestroy; EvFree FreedSrv]).
Proof. reflexivity. Qed.

Lemma sg_httpauth_set_realm_write_once_witness :
  auth_realm test_auth = None /\
  set_realm_calls ["foo"; "bar"]%string
    (Some (set_auth_realm (Some "foo"%string) test_auth))
  = ([EALREADY; EALREADY], Some (set_auth_realm (Some "foo"%string) test_auth)).
Proof.
  split; [reflexivity|].
  exact (proj1 (proj2 (proj2 (proj2
    (sg_httpauth_set_realm_write_once test_auth "foo"%string
       ["foo"; "bar"]%string eq_refl))))).
Defined.



Lemma map_accessors_never_null_witness :
  slot_read SlotHeaders (Scenario.new_request None None None None) = None /\
  sg_httpreq_headers (Some (Scenario.new_request None None None None)) 0
  = (Some SlotHeaders, 0) /\
  sg_strmap_count
    (slot_read SlotHeaders (Scenario.new_request None None None None)) = 0.
Proof.
  split; [reflexivity|].
  pose proof (map_accessors_never_null
                (Scenario.new_request None None None None) 0) as H.
  apply Forall_cons_1 in H as [(Hnonnull & _ & _ & Hcount & _) _].
  split; [exact Hnonnull|exact (Hcount eq_refl)].
Defined.

(** ** The unit tests replayed on the model *)

(** test__httpauth_dispatch, its five blocks in order. *)
Example test__httpauth_dispatch :
  let auth := test_auth in
  let with_ret b a := set_auth_res (set_res_ret b (auth_res a)) a in
  let with_handle h a :=
    set_auth_res (mk_httpres (res_con (auth_res a)) h (res_headers (auth_res a))
                    (res_status (auth_res a)) (res_ret (auth_res a))) a in
  let with_con c a :=
    set_auth_res (mk_httpres c (res_handle (auth_res a)) (res_headers (auth_res a))
                    (res_status (auth_res a)) (res_ret (auth_res a))) a in
  let foo := Some (ResponseFromBuffer "foo") in
  let ret_of a := res_ret (auth_res (sg__httpauth_dispatch a).2) in
  let a1 := with_ret true auth in
  let a2 := set_auth_canceled true (with_ret false auth) in
  let a3 := with_handle foo a2 in
  let a4 := with_handle None (set_auth_canceled false a3) in
  let a5 := with_handle foo (with_con None a4) in
  ((sg__httpauth_dispatch a1).1, ret_of a1) = (true, MHD_YES) /\
  ((sg__httpauth_dispatch a2).1, ret_of a2) = (false, MHD_NO) /\
  ((sg__httpauth_dispatch a3).1, ret_of a3) = (true, MHD_YES) /\
  ((sg__httpauth_dispatch a4).1, ret_of a4) = (false, MHD_NO) /\
  ((sg__httpauth_dispatch a5).1, ret_of a5) = (false, MHD_NO).
Proof. repeat split. Qed.

(** test_httpauth_set_realm. *)
Example test_httpauth_set_realm :
  (sg_httpauth_set_realm None (Some EmptyString)).1 = EINVAL /\
  (sg_httpauth_set_realm (Some test_auth) None).1 = EINVAL /\
  (let '(r1, a1) := sg_httpauth_set_realm (Some test_auth) (Some "foo"%string) in
   let '(r2, a2) := sg_httpauth_set_realm a1 (Some "foo"%string) in
   let '(r3, a3) := sg_httpauth_set_realm a2 (Some "bar"%string) in
   (r1, r2, r3, auth_realm <$> a3))
  = (0, EALREADY, EALREADY, Some (Some "foo"%string)).
Proof. repeat split. Qed.

(** test_httpauth_deny2. *)
Example test_httpauth_deny2 :
  (sg_httpauth_deny2 None (Some EmptyString) (Some EmptyString) 200).1 = EINVAL /\
  (sg_httpauth_deny2 (Some test_auth) None (Some EmptyString) 200).1 = EINVAL /\
  (sg_httpauth_deny2 (Some test_auth) (Some EmptyString) None 200).1 = EINVAL /\
  (sg_httpauth_deny2 (Some test_auth) (Some EmptyString) (Some EmptyString) 99).1
  = EINVAL /\
  (sg_httpauth_deny2 (Some test_auth) (Some EmptyString) (Some EmptyString) 600).1
  = EINVAL /\
  (let '(r1, a1) := sg_httpauth_deny2 (Some test_auth)
                      (Some "Content-Type"%string) (Some "foo"%string) 403 in
   let '(r2, a2) := sg_httpauth_deny2 a1
                      (Some "Content-Type"%string) (Some "bar"%string) 200 in
   let '(r3, a3) := sg_httpauth_deny2 a2
                      (Some "bar"%string) (Some "foo"%string) 200 in
   (r1, res_status ∘ auth_res <$> a1, r2, r3,
    (fun a => sg_strmap_get (res_headers (auth_res a)) "Content-Type") <$> a3))
  = (0, Some 403, EALREADY, EALREADY, Some (Some "foo"%string)).
Proof. repeat split. Qed.

(** test_httpauth_deny. *)
Example test_httpauth_deny :
  (let '(r1, a1) := sg_httpauth_deny (Some test_auth)
                      (Some "Content-Type"%string) (Some "foo"%string) in
   let '(r2, a2) := sg_httpauth_deny a1
                      (Some "Content-Type"%string) (Some "bar"%string) in
   (r1, res_status ∘ auth_res <$> a1, r2))
  = (0, Some MHD_HTTP_UNAUTHORIZED, EALREADY).
Proof. repeat split. Qed.

(** test_httpreq_headers, and the same for the three other maps. *)
Example test_httpreq_maps :
  Forall
    (fun p =>
       let req := Scenario.new_request None None None None in
       (p.1 None 0).1 = None /\ (p.1 None 0).2 = EINVAL /\
       p.1 (Some req) 0 = (Some p.2, 0) /\
       sg_strmap_count (slot_read p.2 req) = 0 /\
       let req' := slot_add p.2 "abc" "123" (slot_add p.2 "foo" "bar" req) in
       sg_strmap_count (slot_read p.2 req') = 2 /\
       sg_strmap_get (slot_read p.2 req') "foo" = Some "bar"%string /\
       sg_strmap_get (slot_read p.2 req') "abc" = Some "123"%string)
    accessors.
Proof.
  unfold accessors.
  repeat (apply Forall_cons_2; [by vm_compute|]). apply Forall_nil_2.
Qed.

(** ** The option array at its limit *)

(** A TLS listener on a host name with every optional item in use stores
    fifteen items into the fourteen slots; without the backlog the items
    fit. *)
Example listen_overruns_option_array :
  (sg__httpsrv_listen2 Scenario.X (Some Scenario.tuned)
     (Some "key") (Some "pwd") (Some "cert") (Some "trust") (Some "dh")
     (Some "NORMAL") (Some "127.0.0.1") 8443 16 true Scenario.s0).1.1
  = None /\
  (sg__httpsrv_listen2 Scenario.X (Some Scenario.tuned)
     (Some "key") (Some "pwd") (Some "cert") (Some "trust") (Some "dh")
     (Some "NORMAL") (Some "127.0.0.1") 8443 0 true Scenario.s0).1.1
  = Some true.
Proof. split; reflexivity. Qed.

(** * Further properties of sg_httpsrv.c *)

(** ** The listener as a whole *)

Section ListenerFacts.

Context {W : Type} (X : extern W).

(** The listener on a server that passed the guard, by what the host name
    resolves to. *)
Lemma listen2_planned (srv : sg_httpsrv W)
    key pwd cert trust dhparams priorities hostname port backlog threaded
    (s : state W) :
  listen_guard srv = false ->
  sg__httpsrv_listen2 X (Some srv) key pwd cert trust dhparams priorities
    hostname port backlog threaded s
  = match host_plan X hostname port with
    | None =>
        ((Some false, Some srv),
         mk_state EINVAL
           (srv_err_cb srv (invalid_host_text X hostname) (st_world s))
           (st_trace s ++ [EvErrCb (invalid_host_text X hostname)]))
    | Some (addr, extra) =>
        let items :=
          (logger_item :: addr) ++
          tail_items srv key pwd cert trust dhparams priorities backlog in
        let flags := tls_flags key cert (Z.lor (listen_flags threaded) extra) in
        if (length items <=? 14)%nat
        then
          let '(h, w') := MHD_start_daemon X flags port items (st_world s) in
          ((Some (negb (is_null h)), Some (set_srv_handle h srv)),
           mk_state (st_errno s) w'
             (st_trace s ++ [EvStartDaemon flags port items]))
        else ((None, Some srv), s)
    end.
Proof.
  intros Hg. unfold sg__httpsrv_listen2, host_plan. rewrite Hg, buf_of_first.
  destruct hostname as [host|].
  - destruct (inet_pton4 X host) as [a|].
    + rewrite addopt_buf_of, listen_start_items, Z.lor_0_r. reflexivity.
    + destruct (inet_pton6 X host) as [a6|]; [|reflexivity].
      rewrite addopt_buf_of, listen_start_items. reflexivity.
  - rewrite listen_start_items. reflexivity.
Qed.

(** The events of a run of the listener: none, one error report, or one
    engine start. *)
Lemma listen2_start_inv (srv : option (sg_httpsrv W))
    key pwd cert trust dhparams priorities hostname port backlog threaded
    (s : state W) flags p items :
  In (EvStartDaemon flags p items)
     (events_since s
        (sg__httpsrv_listen2 X srv key pwd cert trust dhparams priorities
           hostname port backlog threaded s).2) ->
  exists srv0 addr extra,
    srv = Some srv0 /\ listen_guard srv0 = false /\
    host_plan X hostname port = Some (addr, extra) /\
    p = port /\
    flags = tls_flags key cert (Z.lor (listen_flags threaded) extra) /\
    items = (logger_item :: addr) ++
            tail_items srv0 key pwd cert trust dhparams priorities backlog /\
    (length items <= 14)%nat.
Proof.
  destruct srv as [srv0|].
  - destruct (listen_guard srv0) eqn:Hg.
    + unfold sg__httpsrv_listen2. rewrite Hg. run.
      unfold events_since. simpl. rewrite drop_all. intros [].
    + rewrite (listen2_planned srv0 _ _ _ _ _ _ _ _ _ _ s Hg).
      destruct (host_plan X hostname port) as [[addr extra]|] eqn:Hp.
      * cbv zeta.
        destruct (Nat.leb_spec
          (length ((logger_item :: addr) ++
                   tail_items srv0 key pwd cert trust dhparams priorities backlog))
          14) as [Hle|Hgt].
        -- destruct (MHD_start_daemon X _ _ _ _) as [h w']. cbn [snd].
           rewrite events_since_app. intros [[= <- <- <-]|[]].
           exists srv0, addr, extra. repeat split; assumption.
        -- cbn [snd]. unfold events_since. rewrite drop_all. intros [].
      * cbn [snd]. rewrite events_since_app. intros [H|[]]. discriminate H.
  - run. unfold events_since. simpl. rewrite drop_all. intros [].
Qed.

Lemma host_plan_some hostname port addr extra :
  host_plan X hostname port = Some (addr, extra) ->
  (hostname = None /\ addr = []) \/
  (exists host, hostname = Some host /\ length addr = 1%nat /\
     (is_null (inet_pton4 X host) = false \/ is_null (inet_pton6 X host) = false)).
Proof.
  unfold host_plan. destruct hostname as [host|].
  - intros Hp. right. exists host.
    destruct (inet_pton4 X host) as [a|];
      [injection Hp as <- _; repeat split; by left|].
    destruct (inet_pton6 X host) as [a6|]; [|discriminate].
    injection Hp as <- _. repeat split. by right.
  - intros [= <- _]. by left.
Qed.

Lemma host_plan_none hostname port :
  host_plan X hostname port = None ->
  exists host, hostname = Some host /\
               inet_pton4 X host = None /\ inet_pton6 X host = None.
Proof.
  unfold host_plan. destruct hostname as [host|]; [|discriminate].
  intros Hp. exists host.
  destruct (inet_pton4 X host); [discriminate|].
  by destruct (inet_pton6 X host).
Qed.

Lemma host_plan_extra hostname port addr extra :
  host_plan X hostname port = Some (addr, extra) ->
  (extra = 0 \/ extra = MHD_USE_DUAL_STACK) /\
  Z.land extra MHD_USE_DUAL_STACK
  = match hostname with
    | Some host => if is_null (inet_pton4 X host) then MHD_USE_DUAL_STACK else 0
    | None => MHD_USE_DUAL_STACK
    end.
Proof.
  unfold host_plan. destruct hostname as [host|].
  - destruct (inet_pton4 X host); [intros [= <- <-]; split; [by left|done]|].
    destruct (inet_pton6 X host); [|discriminate].
    intros [= <- <-]. split; [by right|done].
  - intros [= <- <-]. split; [by right|done].
Qed.

(** X1: the flags of every engine start.  The port is the one given; the
    TLS flag is set exactly when both key and certificate are given, the
    thread-per-connection flag exactly when [threaded] is, the automatic
    flag exactly when it is not; the inter-thread channel, the error log,
    suspend and resume and the internal polling thread are always on; dual
    stack is on unless the host name parsed as an IPv4 literal. *)
Theorem listen_start_flags (srv : option (sg_httpsrv W))
    key pwd cert trust dhparams priorities hostname port backlog threaded
    (s : state W) flags p items :
  In (EvStartDaemon flags p items)
     (events_since s
        (sg__httpsrv_listen2 X srv key pwd cert trust dhparams priorities
           hostname port backlog threaded s).2) ->
  p = port /\
  Z.land flags MHD_USE_TLS
  = (if is_null key || is_null cert then 0 else MHD_USE_TLS) /\
  Z.land flags MHD_USE_THREAD_PER_CONNECTION
  = (if threaded then MHD_USE_THREAD_PER_CONNECTION else 0) /\
  Z.land flags MHD_USE_AUTO = (if threaded then 0 else MHD_USE_AUTO) /\
  (let always := Z.lor (Z.lor MHD_USE_ERROR_LOG MHD_ALLOW_SUSPEND_RESUME)
                   MHD_USE_INTERNAL_POLLING_THREAD in
   Z.land flags always = always) /\
  Z.land flags MHD_USE_DUAL_STACK
  = match hostname with
    | Some host => if is_null (inet_pton4 X host) then MHD_USE_DUAL_STACK else 0
    | None => MHD_USE_DUAL_STACK
    end.
Proof.
  intros Hin.
  destruct (listen2_start_inv _ _ _ _ _ _ _ _ _ _ _ _ _ _ _ Hin)
    as (srv0 & addr & extra & _ & _ & Hp & -> & -> & _ & _).
  split; [reflexivity|].
  destruct (host_plan_extra _ _ _ _ Hp) as [Hextra Hdual].
  rewrite <- Hdual. clear Hdual Hp.
  unfold tls_flags.
  destruct Hextra as [-> | ->], threaded, key, cert; repeat split; reflexivity.
Qed.

(** The items after the host resolution: a front without terminating item,
    then the terminating item. *)
Lemma tail_items_shape (srv : sg_httpsrv W) key pwd cert trust dhparams priorities
    backlog :
  exists front,
    tail_items srv key pwd cert trust dhparams priorities backlog
    = front ++ [mk_item MHD_OPTION_END (VNum 0) PNull] /\
    List.filter is_end front = [] /\
    List.filter is_sock_addr front = [] /\
    In (mk_item MHD_OPTION_NOTIFY_COMPLETED (VFn sg__httpsrv_rcc) PSrv) front /\
    In (mk_item MHD_OPTION_NOTIFY_CONNECTION (VFn sg__httpsrv_ncc) PSrv) front /\
    List.filter is_backlog front
    = (if negb (is_null key) && negb (is_null cert) && (0 <? backlog)
       then [mk_item MHD_OPTION_LISTEN_BACKLOG_SIZE (VNum backlog) PNull]
       else []).
Proof.
  exists ([mk_item MHD_OPTION_NOTIFY_COMPLETED (VFn sg__httpsrv_rcc) PSrv;
           mk_item MHD_OPTION_NOTIFY_CONNECTION (VFn sg__httpsrv_ncc) PSrv] ++
          pos_item MHD_OPTION_CONNECTION_LIMIT (srv_con_limit srv) ++
          pos_item MHD_OPTION_CONNECTION_TIMEOUT (srv_con_timeout srv) ++
          pos_item MHD_OPTION_THREAD_POOL_SIZE (srv_thr_pool_size srv) ++
          tls_items key pwd cert trust dhparams priorities backlog).
  split; [unfold tail_items; by rewrite <- !app_assoc|].
  unfold tls_items, pos_item, str_item.
  destruct (0 <? srv_con_limit srv), (0 <? srv_con_timeout srv),
    (0 <? srv_thr_pool_size srv), key as [k|], cert as [c|];
    try (destruct pwd, trust, dhparams, priorities, (0 <? backlog));
    simpl; auto 10.
Qed.

(** X2: the items of every engine start.  They fit the fourteen slots; the
    first is the logger; the terminating item comes last and nowhere else;
    the two notifiers are present; there is at most one socket address; the
    backlog item is present exactly when key and certificate are given and
    the backlog is positive. *)
Theorem listen_start_items_wf (srv : option (sg_httpsrv W))
    key pwd cert trust dhparams priorities hostname port backlog threaded
    (s : state W) flags p items :
  In (EvStartDaemon flags p items)
     (events_since s
        (sg__httpsrv_listen2 X srv key pwd cert trust dhparams priorities
           hostname port backlog threaded s).2) ->
  (length items <= 14)%nat /\
  items !! 0%nat = Some logger_item /\
  (exists front, items = front ++ [mk_item MHD_OPTION_END (VNum 0) PNull] /\
                 List.filter is_end front = []) /\
  In (mk_item MHD_OPTION_NOTIFY_COMPLETED (VFn sg__httpsrv_rcc) PSrv) items /\
  In (mk_item MHD_OPTION_NOTIFY_CONNECTION (VFn sg__httpsrv_ncc) PSrv) items /\
  (length (List.filter is_sock_addr items) <= 1)%nat /\
  List.filter is_backlog items
  = (if negb (is_null key) && negb (is_null cert) && (0 <? backlog)
     then [mk_item MHD_OPTION_LISTEN_BACKLOG_SIZE (VNum backlog) PNull]
     else []).
Proof.
  intros Hin.
  destruct (listen2_start_inv _ _ _ _ _ _ _ _ _ _ _ _ _ _ _ Hin)
    as (srv0 & addr & extra & _ & _ & Hp & _ & _ & -> & Hlen).
  assert (Haddr : addr = [] \/ exists a, addr = [sock_addr_item a]).
  { unfold host_plan in Hp. destruct hostname as [host|].
    - destruct (inet_pton4 X host); [injection Hp as <- <-; right; by eexists|].
      destruct (inet_pton6 X host);
        [injection Hp as <- <-; right; by eexists|discriminate].
    - injection Hp as <- <-. by left. }
  clear Hp Hin. split; [exact Hlen|]. split; [reflexivity|]. clear Hlen.
  destruct (tail_items_shape srv0 key pwd cert trust dhparams priorities backlog)
    as (front & -> & Hend & Hsock & Hrcc & Hncc & Hback).
  split; [|split; [|split; [|split]]].
  - exists ((logger_item :: addr) ++ front). split; [by rewrite app_assoc|].
    rewrite List.filter_app, Hend.
    by destruct Haddr as [-> | [a ->]].
  - apply in_or_app. right. apply in_or_app. by left.
  - apply in_or_app. right. apply in_or_app. by left.
  - rewrite !List.filter_app, Hsock.
    destruct Haddr as [-> | [a ->]]; simpl; lia.
  - rewrite !List.filter_app, Hback.
    destruct Haddr as [-> | [a ->]]; simpl; by rewrite app_nil_r.
Qed.

(** X3: without TLS the backlog is not used.  Whatever backlog the public
    listener is given, it does what it does with a backlog of zero; the
    engine it starts has no TLS flag, no backlog item, and at most eight
    items. *)
Theorem sg_httpsrv_listen2_ignores_backlog (srv : option (sg_httpsrv W))
    hostname port backlog threaded (s : state W) :
  sg_httpsrv_listen2 X srv hostname port backlog threaded s
  = sg_httpsrv_listen2 X srv hostname port 0 threaded s /\
  forall flags p items,
    In (EvStartDaemon flags p items)
       (events_since s
          (sg_httpsrv_listen2 X srv hostname port backlog threaded s).2) ->
    Z.land flags MHD_USE_TLS = 0 /\ List.filter is_backlog items = [] /\
    (length items <= 8)%nat.
Proof.
  split; [reflexivity|]. unfold sg_httpsrv_listen2. intros flags p items Hin.
  destruct (listen2_start_inv _ _ _ _ _ _ _ _ _ _ _ _ _ _ _ Hin)
    as (srv0 & addr & extra & _ & _ & Hp & _ & -> & -> & _).
  destruct (host_plan_extra _ _ _ _ Hp) as [Hextra _].
  split; [by destruct Hextra as [-> | ->], threaded|].
  assert (Haddr : addr = [] \/ exists a, addr = [sock_addr_item a]).
  { unfold host_plan in Hp. destruct hostname as [host|].
    - destruct (inet_pton4 X host); [injection Hp as <- <-; right; by eexists|].
      destruct (inet_pton6 X host);
        [injection Hp as <- <-; right; by eexists|discriminate].
    - injection Hp as <- <-. by left. }
  unfold tail_items, tls_items, pos_item.
  destruct Haddr as [-> | [a ->]], (0 <? srv_con_limit srv0),
    (0 <? srv_con_timeout srv0), (0 <? srv_thr_pool_size srv0);
    simpl; split; (reflexivity || lia).
Qed.

Lemma tail_items_full (srv : sg_httpsrv W) key pwd cert trust dhparams priorities
    backlog :
  all_options_in_use srv key pwd cert trust dhparams priorities backlog ->
  length (tail_items srv key pwd cert trust dhparams priorities backlog) = 13%nat.
Proof.
  intros (H1 & H2 & H3 & Hk & Hp & Hc & Ht & Hd & Hr & Hb).
  unfold tail_items, tls_items, pos_item, str_item.
  apply Z.ltb_lt in H1, H2, H3, Hb. rewrite H1, H2, H3, Hb.
  by destruct key, pwd, cert, trust, dhparams, priorities.
Qed.

Lemma listen2_overrun_iff (srv : option (sg_httpsrv W))
    key pwd cert trust dhparams priorities hostname port backlog threaded
    (s : state W) :
  (sg__httpsrv_listen2 X srv key pwd cert trust dhparams priorities hostname
     port backlog threaded s).1.1 = None <->
  exists srv0 host,
    srv = Some srv0 /\ listen_guard srv0 = false /\ hostname = Some host /\
    (is_null (inet_pton4 X host) = false \/ is_null (inet_pton6 X host) = false) /\
    all_options_in_use srv0 key pwd cert trust dhparams priorities backlog.
Proof.
  destruct srv as [srv0|];
    [|unfold sg__httpsrv_listen2; run;
      split; [discriminate|by intros (? & ? & ? & _)]].
  destruct (listen_guard srv0) eqn:Hg.
  { unfold sg__httpsrv_listen2. rewrite Hg. run.
    split; [discriminate|intros (? & ? & [= <-] & Hg' & _); congruence]. }
  rewrite (listen2_planned srv0 _ _ _ _ _ _ _ _ _ _ s Hg).
  destruct (tail_items_length srv0 key pwd cert trust dhparams priorities backlog)
    as [Hle Hfull].
  pose proof (tail_items_full srv0 key pwd cert trust dhparams priorities backlog)
    as Hfull'.
  set (tl := tail_items srv0 key pwd cert trust dhparams priorities backlog) in *.
  destruct (host_plan X hostname port) as [[addr extra]|] eqn:Hp.
  - cbv zeta.
    set (items := (logger_item :: addr) ++ tl).
    assert (Hlen : length items = S (length addr + length tl)).
    { unfold items. rewrite length_app. reflexivity. }
    destruct (host_plan_some _ _ _ _ Hp)
      as [[-> ->]|(host & -> & Haddr & Hparse)].
    + destruct (Nat.leb_spec (length items) 14) as [_|Hover];
        [|change (length (@nil MHD_OptionItem)) with 0%nat in Hlen; lia].
      destruct (MHD_start_daemon X _ _ _ _) as [h w']. simpl.
      split; [discriminate|by intros (? & ? & _ & _ & ? & _)].
    + destruct (Nat.leb_spec (length items) 14) as [Hfit|Hover].
      * destruct (MHD_start_daemon X _ _ _ _) as [h w']. simpl.
        split; [discriminate|].
        intros (? & ? & [= <-] & _ & _ & _ & Hall). apply Hfull' in Hall. lia.
      * simpl. split; [intros _|reflexivity].
        exists srv0, host. do 4 (split; [done|]). apply Hfull. lia.
  - simpl. split; [discriminate|].
    destruct (host_plan_none _ _ Hp) as (host & -> & H4 & H6).
    intros (? & ? & _ & _ & [= <-] & [Hn|Hn] & _);
      [rewrite H4 in Hn|rewrite H6 in Hn]; discriminate.
Qed.

(** C4: a host name that parses is not always bound.  On a server that
    passes the guard and has every optional item in use, a host name that
    parses as an IPv4 or as an IPv6 literal makes fifteen option items: the
    listener stores the last one past the fourteen slots of its array and
    has no defined result; no engine is started on the address and nothing
    is reported.  The public TLS entry point that takes a host name and a
    backlog reaches this. *)
Theorem host_resolution_overruns_option_array (srv : sg_httpsrv W)
    key pwd cert trust dhparams priorities (host : string) port backlog threaded
    (s : state W) :
  listen_guard srv = false ->
  is_null (inet_pton4 X host) = false \/ is_null (inet_pton6 X host) = false ->
  all_options_in_use srv key pwd cert trust dhparams priorities backlog ->
  sg__httpsrv_listen2 X (Some srv) key pwd cert trust dhparams priorities
    (Some host) port backlog threaded s
  = ((None, Some srv), s) /\
  sg_httpsrv_tls_listen4 X (Some srv) key pwd cert trust dhparams priorities
    (Some host) port backlog threaded s
  = ((None, Some srv), s) /\
  existsb is_start_daemon
    (events_since s
       (sg_httpsrv_tls_listen4 X (Some srv) key pwd cert trust dhparams
          priorities (Some host) port backlog threaded s).2) = false.
Proof.
  intros Hg Hparse Hall.
  assert (Hrun : sg__httpsrv_listen2 X (Some srv) key pwd cert trust dhparams
                   priorities (Some host) port backlog threaded s
                 = ((None, Some srv), s)).
  { rewrite (listen2_planned srv _ _ _ _ _ _ _ _ _ _ s Hg).
    pose proof (tail_items_full srv key pwd cert trust dhparams priorities
                  backlog Hall) as Hfull.
    destruct (host_plan X (Some host) port) as [[addr extra]|] eqn:Hp.
    - destruct (host_plan_some _ _ _ _ Hp)
        as [[Hno _]|(host' & _ & Haddr & _)]; [discriminate|].
      cbv zeta.
      set (tl := tail_items srv key pwd cert trust dhparams priorities backlog) in *.
      set (items := (logger_item :: addr) ++ tl).
      assert (Hlen : length items = S (length addr + length tl)).
      { unfold items. rewrite length_app. reflexivity. }
      destruct (Nat.leb_spec (length items) 14) as [Hfit|Hover]; [lia|].
      reflexivity.
    - destruct (host_plan_none _ _ Hp) as (host' & [= <-] & H4 & H6).
      rewrite H4, H6 in Hparse. by destruct Hparse. }
  split; [exact Hrun|].
  destruct Hall as (H1 & H2 & H3 & Hk & Hpw & Hc & Hrest).
  unfold sg_httpsrv_tls_listen4.
  destruct key as [k|], cert as [c|]; try discriminate.
  unfold is_null. cbn [negb andb].
  rewrite Hrun. split; [reflexivity|].
  unfold events_since. cbn [snd]. by rewrite drop_all.
Qed.

(** X4: the option array is overrun exactly when the server passes the
    guard, the host name parses, and every optional item is in use.  The
    entry points without TLS, and those without a host name, never overrun
    it. *)
Theorem listen_overrun_exactly (srv : option (sg_httpsrv W))
    key pwd cert trust dhparams priorities hostname port backlog threaded
    (s : state W) :
  ((sg__httpsrv_listen2 X srv key pwd cert trust dhparams priorities hostname
      port backlog threaded s).1.1 = None <->
   exists srv0 host,
     srv = Some srv0 /\ listen_guard srv0 = false /\ hostname = Some host /\
     (is_null (inet_pton4 X host) = false \/ is_null (inet_pton6 X host) = false) /\
     all_options_in_use srv0 key pwd cert trust dhparams priorities backlog) /\
  (sg__httpsrv_listen X srv key pwd cert trust dhparams priorities
     port threaded s).1.1 <> None /\
  (sg_httpsrv_listen2 X srv hostname port backlog threaded s).1.1 <> None /\
  (sg_httpsrv_listen X srv port threaded s).1.1 <> None.
Proof.
  split; [apply listen2_overrun_iff|].
  split; [|split].
  - unfold sg__httpsrv_listen. rewrite listen2_overrun_iff.
    by intros (? & ? & _ & _ & ? & _).
  - unfold sg_httpsrv_listen2. rewrite listen2_overrun_iff.
    intros (? & ? & _ & _ & _ & _ & (_ & _ & _ & Hk & _)). discriminate.
  - unfold sg_httpsrv_listen, sg__httpsrv_listen. rewrite listen2_overrun_iff.
    by intros (? & ? & _ & _ & ? & _).
Qed.

(** X5: the TLS entry points need key and certificate.  Without both, the
    call returns false with [errno] EINVAL and nothing else happens; with
    both, every engine start carries the TLS flag, the key and the
    certificate.  The three shorter entry points are the longest one without
    host name and backlog, and never overrun the option array. *)
Theorem tls_listen_needs_key_and_cert (srv : option (sg_httpsrv W))
    key pwd cert trust dhparams priorities hostname port backlog threaded
    (s : state W) :
  (is_null key || is_null cert = true ->
   sg_httpsrv_tls_listen4 X srv key pwd cert trust dhparams priorities
     hostname port backlog threaded s
   = ((Some false, srv), mk_state EINVAL (st_world s) (st_trace s))) /\
  (forall flags p items,
     In (EvStartDaemon flags p items)
        (events_since s
           (sg_httpsrv_tls_listen4 X srv key pwd cert trust dhparams priorities
              hostname port backlog threaded s).2) ->
     Z.land flags MHD_USE_TLS = MHD_USE_TLS /\
     exists k c,
       key = Some k /\ cert = Some c /\
       In (mk_item MHD_OPTION_HTTPS_MEM_KEY (VNum 0) (PStr k)) items /\
       In (mk_item MHD_OPTION_HTTPS_MEM_CERT (VNum 0) (PStr c)) items) /\
  sg_httpsrv_tls_listen3 X srv key pwd cert trust dhparams priorities port threaded
  = sg_httpsrv_tls_listen4 X srv key pwd cert trust dhparams priorities None
      port 0 threaded /\
  sg_httpsrv_tls_listen2 X srv key pwd cert trust dhparams port threaded
  = sg_httpsrv_tls_listen4 X srv key pwd cert trust dhparams None None
      port 0 threaded /\
  sg_httpsrv_tls_listen X srv key cert port threaded
  = sg_httpsrv_tls_listen4 X srv key None cert None None None None
      port 0 threaded /\
  (sg_httpsrv_tls_listen3 X srv key pwd cert trust dhparams priorities port
     threaded s).1.1 <> None.
Proof.
  split; [|split; [|split; [|split; [|split]]]]; try reflexivity.
  - intros Hnull. unfold sg_httpsrv_tls_listen4.
    by destruct key, cert.
  - intros flags p items. unfold sg_httpsrv_tls_listen4.
    destruct key as [k|], cert as [c|]; simpl;
      try (unfold events_since; simpl; rewrite drop_all; by intros []).
    intros Hin.
    destruct (listen2_start_inv _ _ _ _ _ _ _ _ _ _ _ _ _ _ _ Hin)
      as (srv0 & addr & extra & _ & _ & Hp & _ & -> & -> & _).
    destruct (host_plan_extra _ _ _ _ Hp) as [Hextra _].
    split.
    + by destruct Hextra as [-> | ->], threaded.
    + exists k, c. do 2 (split; [reflexivity|]).
      unfold tail_items, tls_items.
      split; apply in_or_app; right; do 4 (apply in_or_app; right);
        apply in_or_app; left.
      * by left.
      * apply in_or_app. right. apply in_or_app. right. by left.
  - unfold sg_httpsrv_tls_listen3.
    destruct key, cert; simpl; try discriminate.
    unfold sg__httpsrv_listen. rewrite listen2_overrun_iff.
    by intros (? & ? & _ & _ & ? & _).
Qed.

(** X6: what a listener leaves behind for a shutdown.  A listener never
    stops an engine.  When it starts one, the handle of the server becomes
    what the engine returned, whatever it was before, and the result tells
    whether that is a handle.  After a listener that returned true, the
    next shutdown stops exactly that engine and returns 0. *)
Theorem listen_then_shutdown (srv0 : sg_httpsrv W)
    key pwd cert trust dhparams priorities hostname port backlog threaded
    (s : state W) :
  let r := sg__httpsrv_listen2 X (Some srv0) key pwd cert trust dhparams
             priorities hostname port backlog threaded s in
  existsb is_stop_daemon (events_since s r.2) = false /\
  (forall flags p items,
     In (EvStartDaemon flags p items) (events_since s r.2) ->
     r.1.2 = Some (set_srv_handle
                     (MHD_start_daemon X flags p items (st_world s)).1 srv0) /\
     r.1.1 = Some (negb (is_null
                     (MHD_start_daemon X flags p items (st_world s)).1))) /\
  (r.1.1 = Some true ->
   exists srv1 h,
     r.1.2 = Some srv1 /\ srv_handle srv1 = Some h /\
     sg_httpsrv_shutdown X (Some srv1) r.2
     = ((0, Some (set_srv_handle None srv1)),
        mk_state (st_errno r.2) (MHD_stop_daemon X h (st_world r.2))
          (st_trace r.2 ++ [EvStopDaemon h]))).
Proof.
  intros r. subst r.
  destruct (listen_guard srv0) eqn:Hg.
  { unfold sg__httpsrv_listen2. rewrite Hg. run.
    unfold events_since. simpl. rewrite drop_all.
    split; [reflexivity|]. split; [by intros ? ? ? []|discriminate]. }
  rewrite (listen2_planned srv0 _ _ _ _ _ _ _ _ _ _ s Hg).
  destruct (host_plan X hostname port) as [[addr extra]|].
  - cbv zeta.
    destruct (length _ <=? 14)%nat.
    + destruct (MHD_start_daemon X _ _ _ _) as [h w'] eqn:E. cbn [fst snd].
      rewrite events_since_app. split; [reflexivity|]. split.
      * intros flags p items [[= <- <- <-]|[]]. cbn [app] in E. by rewrite E.
      * destruct h as [h|]; [intros _|discriminate].
        exists (set_srv_handle (Some h) srv0), h. by repeat split.
    + cbn [fst snd]. unfold events_since. rewrite drop_all.
      split; [reflexivity|]. split; [by intros ? ? ? []|discriminate].
  - cbn [fst snd]. rewrite events_since_app.
    split; [reflexivity|]. split; [|discriminate].
    intros ? ? ? [H|[]]. discriminate H.
Qed.

End ListenerFacts.

(** ** The access handler on all its paths *)

Lemma precededb_sound (earlier later : event -> bool) (tr : list event) :
  forall seen, precededb earlier later seen tr = true ->
  forall pre e post, tr = pre ++ e :: post -> later e = true ->
  seen = true \/ exists e', In e' pre /\ earlier e' = true.
Proof.
  induction tr as [|x tr IH]; intros seen Hp pre e post Heq Hl.
  - by destruct pre.
  - cbn [precededb] in Hp. apply andb_prop in Hp as [Hx Hrest].
    destruct pre as [|y pre]; simplify_eq/=.
    + rewrite Hl in Hx. simpl in Hx. by left.
    + destruct (IH _ Hrest pre e post eq_refl Hl) as [Hseen|(e' & Hin & He')].
      * apply orb_prop in Hseen as [->|Hy]; [by left|].
        right. exists y. split; [by left|exact Hy].
      * right. exists e'. split; [by right|exact He'].
Qed.

(** Case analysis on every answer the outside gives during one run of the
    access handler. *)
Ltac ahc_cases X :=
  repeat match goal with
  | |- context [MHD_get_connection_info_socket_context X ?c ?w] =>
      destruct (MHD_get_connection_info_socket_context X c w) as [[|]|]; simpl
  | |- context [sg__httpreq_new X ?a ?b ?c ?d ?e ?w] =>
      destruct (sg__httpreq_new X a b c d e w) as [[?|] ?]; simpl
  | |- context [srv_auth_cb ?v] =>
      destruct (srv_auth_cb v) as [?|] eqn:?; simpl
  | |- context [auth_canceled (req_auth ?r)] =>
      destruct (auth_canceled (req_auth r)); simpl
  | |- context [sg__httpuplds_process X ?a ?b ?c ?d ?e ?w] =>
      destruct (sg__httpuplds_process X a b c d e w) as [[[[|] ?] ?] ?]; simpl
  | |- context [req_isolated ?r] => destruct (req_isolated r); simpl
  | |- context [srv_req_cb ?v ?r ?w] =>
      destruct (srv_req_cb v r w) as [? ?]; simpl
  | |- context [MHD_get_connection_info_suspended X ?c ?w] =>
      destruct (MHD_get_connection_info_suspended X c w) as [[|]|]; simpl
  | |- context [sg__httpres_dispatch X ?r ?w] =>
      destruct (sg__httpres_dispatch X r w) as [[? ?] ?]; simpl
  | |- context [match ?cb ?r ?w with pair _ _ => _ end] =>
      destruct (cb r w) as [[? ?] ?]; simpl
  | |- context [sg__httpauth_dispatch ?a] =>
      destruct (sg__httpauth_dispatch a) as [[|] ?]; simpl
  end.

Section AccessHandlerFacts.

Context {W : Type} (X : extern W).

(** X7: a connection the connection-notify hook has claimed is turned away
    before anything else.  The handler returns MHD_NO; the connection slot,
    the upload size and the world are as they were; no request is created
    and no callback runs: the one outside call is the question to the
    engine. *)
Theorem ahc_rejects_claimed_connection (srv : sg_httpsrv W)
    con url method version upld_data size con_cls (s : state W) :
  claimed X con (st_world s) = true ->
  sg__httpsrv_ahc X srv con url method version upld_data size con_cls s
  = ((MHD_NO, size, con_cls),
     mk_state (st_errno s) (st_world s)
       (st_trace s ++ socket_context_events X con (st_world s))).
Proof.
  unfold claimed, sg__httpsrv_ahc, socket_context_events.
  destruct con as [c|]; [|discriminate]. run.
  by destruct (MHD_get_connection_info_socket_context X c (st_world s))
    as [[|]|].
Qed.

(** The events of one run of the access handler. *)
Lemma ahc_events (srv : sg_httpsrv W)
    con url method version upld_data size con_cls (s : state W) :
  exists ev,
    st_trace (sg__httpsrv_ahc X srv con url method version upld_data size
                con_cls s).2 = st_trace s ++ ev /\
    (count_events is_req_new ev <= 1)%nat /\
    (count_events is_auth_cb ev <= 1)%nat /\
    (count_events is_uplds_process ev <= 1)%nat /\
    (count_events is_req_cb ev <= 1)%nat /\
    (count_events is_res_dispatch ev <= 1)%nat /\
    (is_null con_cls = true ->
     existsb is_uplds_process ev = false /\ existsb is_req_cb ev = false /\
     existsb is_res_dispatch ev = false) /\
    (is_null con_cls = false ->
     existsb is_req_new ev = false /\ existsb is_auth_cb ev = false /\
     is_null (sg__httpsrv_ahc X srv con url method version upld_data size
                con_cls s).1.2 = false) /\
    (existsb is_auth_cb ev = true -> existsb is_req_new ev = true) /\
    (existsb is_req_cb ev = true -> existsb is_uplds_process ev = true) /\
    precededb is_req_new is_auth_cb false ev = true /\
    precededb is_uplds_process is_req_cb false ev = true.
Proof.
  unfold sg__httpsrv_ahc, ahc_finish.
  destruct con as [c|], con_cls as [req|]; run.
  all: ahc_cases X.
  all: rewrite <- ?app_assoc; simpl;
    (eexists; split; [reflexivity|]);
    unfold count_events; simpl; repeat split; intros; try discriminate;
    try reflexivity; lia.
Qed.


Lemma events_since_trace (s s' : state W) (ev : list event) :
  st_trace s' = st_trace s ++ ev -> events_since s s' = ev.
Proof. unfold events_since. intros ->. apply drop_app_length. Qed.

(** X8: the call discipline of the access handler, on every input and
    whatever the outside functions answer.  One run creates at most one
    request, and asks the authentication callback, the upload engine, the
    request handler and the response dispatcher at most once each.  A
    first callback (empty connection slot) never feeds the upload engine,
    never runs the request handler and never dispatches; a later callback
    never creates a request and never authenticates, and leaves the slot
    filled.  The authentication callback only runs after the request has
    been created in the same run, and the request handler only after the
    upload engine has been fed in the same run: in the log of the run the
    creation comes before the authentication, and the upload engine before
    the request handler. *)
Theorem ahc_call_discipline (srv : sg_httpsrv W)
    con url method version upld_data size con_cls (s : state W) :
  let r := sg__httpsrv_ahc X srv con url method version upld_data size
             con_cls s in
  let ev := events_since s r.2 in
  ((count_events is_req_new ev <= 1)%nat /\
   (count_events is_auth_cb ev <= 1)%nat /\
   (count_events is_uplds_process ev <= 1)%nat /\
   (count_events is_req_cb ev <= 1)%nat /\
   (count_events is_res_dispatch ev <= 1)%nat) /\
  (is_null con_cls = true ->
   existsb is_uplds_process ev = false /\ existsb is_req_cb ev = false /\
   existsb is_res_dispatch ev = false) /\
  (is_null con_cls = false ->
   existsb is_req_new ev = false /\ existsb is_auth_cb ev = false /\
   is_null r.1.2 = false) /\
  (existsb is_auth_cb ev = true -> existsb is_req_new ev = true) /\
  (existsb is_req_cb ev = true -> existsb is_uplds_process ev = true) /\
  (forall pre post, ev = pre ++ EvAuthCb :: post -> In EvReqNew pre) /\
  (forall pre post, ev = pre ++ EvReqCb :: post -> In EvUpldsProcess pre).
Proof.
  intros r ev.
  destruct (ahc_events srv con url method version upld_data size con_cls s)
    as (ev' & Htr & H1 & H2 & H3 & H4 & H5 & Hfirst & Hnext & Hauth & Hreq
        & Hbefore_auth & Hbefore_cb).
  assert (ev = ev') as -> by (by apply events_since_trace).
  subst r. split; [done|]. split; [exact Hfirst|]. split; [exact Hnext|].
  split; [exact Hauth|]. split; [exact Hreq|]. split.
  - intros pre post Heq.
    destruct (precededb_sound _ _ _ _ Hbefore_auth pre _ post Heq eq_refl)
      as [?|(e' & Hin & He')]; [discriminate|].
    by destruct e'.
  - intros pre post Heq.
    destruct (precededb_sound _ _ _ _ Hbefore_cb pre _ post Heq eq_refl)
      as [?|(e' & Hin & He')]; [discriminate|].
    by destruct e'.
Qed.

(** X9: what a later callback does with the request in the connection slot,
    on a connection that is not claimed.  The upload engine is fed exactly
    when the request's authentication was not canceled; the request handler
    runs exactly when, besides, the upload engine did not end the callback
    and the request it returned is not isolated; and when the upload engine
    ends the callback, its size and the stored verdict are returned and
    nothing is dispatched. *)
Theorem ahc_request_handler_iff (srv : sg_httpsrv W)
    con url method version upld_data size req (s : state W) :
  claimed X con (st_world s) = false ->
  let r := sg__httpsrv_ahc X srv con url method version upld_data size
             (Some req) s in
  let ev := events_since s r.2 in
  let p := sg__httpuplds_process X srv req con upld_data size (st_world s) in
  let terminal := p.1.1.1 in
  let req' := p.1.1.2 in
  existsb is_uplds_process ev = negb (auth_canceled (req_auth req)) /\
  existsb is_req_cb ev
  = negb (auth_canceled (req_auth req)) && negb terminal
    && negb (req_isolated req') /\
  (auth_canceled (req_auth req) = false -> terminal = true ->
   r.1 = (res_ret (req_res req'), p.1.2, Some req') /\
   existsb is_res_dispatch ev = false).
Proof.
  unfold claimed, sg__httpsrv_ahc, ahc_finish. cbv zeta.
  destruct con as [c|]; run.
  all: ahc_cases X.
  all: intros Hc; try discriminate Hc.
  all: rewrite <- ?app_assoc; simpl; rewrite ?events_since_app; simpl;
    repeat split; intros; try discriminate; try reflexivity.
Qed.

(** X10: a server without an authentication callback.  The gate is never
    consulted, on any callback; and the first callback on a connection
    that is not claimed returns MHD_YES with the new request in the slot
    when the request could be created, MHD_NO with an empty slot when it
    could not, the upload size untouched either way. *)
Theorem ahc_without_auth_cb (srv : sg_httpsrv W)
    con url method version upld_data size (s : state W) :
  is_null (srv_auth_cb srv) = true ->
  (forall con_cls,
     existsb is_auth_cb
       (events_since s
          (sg__httpsrv_ahc X srv con url method version upld_data size
             con_cls s).2) = false) /\
  (claimed X con (st_world s) = false ->
   (sg__httpsrv_ahc X srv con url method version upld_data size None s).1
   = match (sg__httpreq_new X srv con version method url (st_world s)).1 with
     | Some req => (MHD_YES, size, Some req)
     | None => (MHD_NO, size, None)
     end).
Proof.
  intros Hnull. destruct (srv_auth_cb srv) as [cb|] eqn:Hcb; [discriminate|].
  split.
  - intros con_cls.
    unfold sg__httpsrv_ahc, ahc_finish. rewrite Hcb.
    destruct con as [c|], con_cls as [req|]; run.
    all: ahc_cases X.
    all: rewrite <- ?app_assoc; simpl; by rewrite ?events_since_app.
  - unfold claimed, sg__httpsrv_ahc. rewrite Hcb. intros Hc.
    destruct con as [c|]; run.
    + destruct (MHD_get_connection_info_socket_context X c (st_world s))
        as [[|]|]; try discriminate; simpl;
        by destruct (sg__httpreq_new X srv (Some c) version method url
                       (st_world s)) as [[?|] ?].
    + by destruct (sg__httpreq_new X srv None version method url (st_world s))
        as [[?|] ?].
Qed.

(** X11: a suspended connection is left waiting.  The handler asks whether
    the connection is suspended only on a later callback, about its own
    connection, and after the upload engine and the request handler; when
    the engine answers that it is, the handler returns MHD_YES and
    dispatches nothing; on any other answer it dispatches the response,
    once. *)
Theorem ahc_suspended_connection_waits (srv : sg_httpsrv W)
    con url method version upld_data size con_cls (s : state W) c a :
  let r := sg__httpsrv_ahc X srv con url method version upld_data size
             con_cls s in
  let ev := events_since s r.2 in
  In (EvInfoSuspended c a) ev ->
  con = Some c /\ is_null con_cls = false /\
  (exists before, ev = before ++ EvInfoSuspended c a :: List.filter is_res_dispatch ev /\
                  List.filter is_res_dispatch before = []) /\
  match a with
  | Some true => r.1.1.1 = MHD_YES /\ existsb is_res_dispatch ev = false
  | _ => count_events is_res_dispatch ev = 1%nat
  end.
Proof.
  unfold sg__httpsrv_ahc, ahc_finish. cbv zeta.
  destruct con as [c'|], con_cls as [req|]; run.
  all: ahc_cases X.
  all: rewrite <- ?app_assoc; simpl;
    try (rewrite events_since_app);
    try (unfold events_since; simpl; rewrite drop_all);
    simpl; intros Hin;
    repeat match goal with
           | H : _ \/ _ |- _ => destruct H
           | H : False |- _ => destruct H
           | H : _ = EvInfoSuspended _ _ |- _ =>
               first [discriminate H | injection H as <- <-]
           end.
  all: split; [reflexivity|]; split; [reflexivity|]; split;
    [|first [by split | reflexivity]].
  all: first [ by exists [] | by eexists [_] | by eexists [_; _]
             | by eexists [_; _; _] | by eexists [_; _; _; _] ].
Qed.

End AccessHandlerFacts.

(** ** Configuration *)

Section ConfigurationFacts.

Context {W : Type} (X : extern W) (Y : extern_more W).

Lemma new2_configured auth_cb req_cb err_cb cls (s s' : state W)
    (srv : sg_httpsrv W) :
  sg_httpsrv_new2 X auth_cb req_cb err_cb cls s = (Some srv, s') ->
  configured srv /\ is_null (srv_uplds_dir srv) = false /\
  srv_auth_cb srv = auth_cb /\ Some (srv_req_cb srv) = req_cb /\
  Some (srv_err_cb srv) = err_cb /\ srv_cls srv = cls.
Proof.
  unfold sg_httpsrv_new2, configured.
  destruct req_cb, err_cb; run; try discriminate.
  destruct (sg_alloc X (st_world s)) as [[|] w1]; simpl; try discriminate.
  destruct (sg_tmpdir X w1) as [[d|] w2]; simpl; try discriminate.
  destruct (pthread_mutex_init X w2) as [e w3]; simpl.
  destruct (e =? 0); simpl; try discriminate.
  intros [= <- _]. simpl. repeat split; try reflexivity.
  destruct (arm X); lia.
Qed.

(** One configuration call on a configured server: it has no defined
    result exactly when it hands the stored directory back to the
    directory setter; otherwise the server stays configured, and [errno]
    is ENOMEM whenever the stored directory is null. *)
Lemma run_call_configured (c : config_call) (srv : sg_httpsrv W) (s : state W)
    (e0 : Z) :
  configured srv ->
  (is_null (srv_uplds_dir srv) = true -> st_errno s = ENOMEM) ->
  st_errno s = e0 \/ st_errno s = ENOMEM ->
  exists ev,
    st_trace (run_call Y c (Some srv) s).2 = st_trace s ++ ev /\
    Forall (fun e => e = EvFree FreedUpldsDir) ev /\
    match (run_call Y c (Some srv) s).1 with
    | None =>
        c = SetUpldDir (Some StoredUpldsDir) /\
        is_null (srv_uplds_dir srv) = false
    | Some (code, osrv) =>
        (c = SetUpldDir (Some StoredUpldsDir) ->
         is_null (srv_uplds_dir srv) = true) /\
        (code = 0 \/ code = EINVAL) /\
        exists srv',
          osrv = Some srv' /\ configured srv' /\
          srv_auth_cb srv' = srv_auth_cb srv /\
          srv_req_cb srv' = srv_req_cb srv /\
          srv_err_cb srv' = srv_err_cb srv /\ srv_cls srv' = srv_cls srv /\
          (is_null (srv_uplds_dir srv') = true ->
           st_errno (run_call Y c (Some srv) s).2 = ENOMEM) /\
          (st_errno (run_call Y c (Some srv) s).2 = e0 \/
           st_errno (run_call Y c (Some srv) s).2 = ENOMEM)
    end.
Proof.
  intros (H1 & H2 & H3 & H4 & H5 & H6 & H7) Hdir He.
  assert (Hpure : forall (r : Z * option (sg_httpsrv W)) srv',
            c <> SetUpldDir (Some StoredUpldsDir) ->
            r.2 = Some srv' -> r.1 = 0 \/ r.1 = EINVAL ->
            configured srv' ->
            srv_auth_cb srv' = srv_auth_cb srv ->
            srv_req_cb srv' = srv_req_cb srv ->
            srv_err_cb srv' = srv_err_cb srv -> srv_cls srv' = srv_cls srv ->
            srv_uplds_dir srv' = srv_uplds_dir srv ->
            exists ev,
              st_trace ((mret (Some r) : M W _) s).2 = st_trace s ++ ev /\
              Forall (fun e => e = EvFree FreedUpldsDir) ev /\
              match ((mret (Some r) : M W _) s).1 with
              | None =>
                  c = SetUpldDir (Some StoredUpldsDir) /\
                  is_null (srv_uplds_dir srv) = false
              | Some (code, osrv) =>
                  (c = SetUpldDir (Some StoredUpldsDir) ->
                   is_null (srv_uplds_dir srv) = true) /\
                  (code = 0 \/ code = EINVAL) /\
                  exists srv',
                    osrv = Some srv' /\ configured srv' /\
                    srv_auth_cb srv' = srv_auth_cb srv /\
                    srv_req_cb srv' = srv_req_cb srv /\
                    srv_err_cb srv' = srv_err_cb srv /\
                    srv_cls srv' = srv_cls srv /\
                    (is_null (srv_uplds_dir srv') = true ->
                     st_errno ((mret (Some r) : M W _) s).2 = ENOMEM) /\
                    (st_errno ((mret (Some r) : M W _) s).2 = e0 \/
                     st_errno ((mret (Some r) : M W _) s).2 = ENOMEM)
              end).
  { intros [code osrv] srv' Hne Hs Hcode Hc' Ha Hq Herr Hcls Hd. simpl in *.
    subst osrv. exists []. rewrite app_nil_r. split; [reflexivity|].
    split; [constructor|]. split; [by intros ?|]. split; [exact Hcode|].
    exists srv'. rewrite Hd. auto 20. }
  assert (Hsame : configured srv) by (unfold configured; auto 10).
  destruct c as [cb cls|cb cls wcb fcb scb sacb|dir|which n]; cbn [run_call].
  - unfold sg_httpsrv_set_cli_cb.
    destruct (is_null cb); (eapply Hpure; [discriminate|reflexivity|..]);
      simpl; auto; unfold configured; simpl; auto 10.
  - unfold sg_httpsrv_set_upld_cbs.
    destruct cb, wcb, scb, sacb;
      (eapply Hpure; [discriminate|reflexivity|..]);
      simpl; auto; unfold configured; simpl; auto 10.
  - clear Hpure. destruct dir as [[d|]|]; unfold sg_httpsrv_set_upld_dir; run.
    + destruct (strdup Y d (st_world s)) as [[copy|] w']; simpl;
        (eexists [_]; split; [reflexivity|]; split; [by repeat constructor|];
         split; [discriminate|]; split; [auto|]; eexists;
         split; [reflexivity|]; split; [exact Hsame|];
         do 4 (split; [reflexivity|]); simpl).
      * split; [discriminate|exact He].
      * split; [reflexivity|by right].
    + destruct (srv_uplds_dir srv) as [d|] eqn:Hd; simpl.
      * eexists [_]. split; [reflexivity|]. split; [by repeat constructor|].
        by split.
      * exists []. rewrite app_nil_r. split; [reflexivity|].
        split; [constructor|]. split; [reflexivity|]. split; [auto|].
        exists srv. rewrite Hd. auto 20.
    + exists []. rewrite app_nil_r. split; [reflexivity|].
      split; [constructor|]. split; [discriminate|]. split; [auto|].
      exists srv. auto 20.
  - destruct which; cbn [set_number];
      unfold sg_httpsrv_set_post_buf_size, sg_httpsrv_set_payld_limit,
        sg_httpsrv_set_uplds_limit, sg_httpsrv_set_thr_pool_size,
        sg_httpsrv_set_con_timeout, sg_httpsrv_set_con_limit;
      try (destruct (Z.ltb_spec n 256));
      (eapply Hpure; [discriminate|reflexivity|..]);
      simpl; auto; unfold configured; simpl; auto 10.
Qed.

Lemma run_calls_cons (c : config_call) (cs : list config_call)
    (srv : option (sg_httpsrv W)) (s : state W) :
  run_calls Y (c :: cs) srv s
  = match run_call Y c srv s with
    | (None, s1) => (None, s1)
    | (Some (code, srv1), s1) =>
        ((fun p : list Z * option (sg_httpsrv W) => (code :: p.1, p.2))
           <$> (run_calls Y cs srv1 s1).1,
         (run_calls Y cs srv1 s1).2)
    end.
Proof.
  cbn [run_calls]. unfold mbind, M_bind.
  destruct (run_call Y c srv s) as [[[code srv1]|] s1]; [|reflexivity].
  unfold mret, M_ret. by destruct (run_calls Y cs srv1 s1).
Qed.

Lemma run_calls_configured (cs : list config_call) (e0 : Z) :
  forall (srv : sg_httpsrv W) (s : state W),
  configured srv ->
  (is_null (srv_uplds_dir srv) = true -> st_errno s = ENOMEM) ->
  st_errno s = e0 \/ st_errno s = ENOMEM ->
  exists ev,
    st_trace (run_calls Y cs (Some srv) s).2 = st_trace s ++ ev /\
    Forall (fun e => e = EvFree FreedUpldsDir) ev /\
    match (run_calls Y cs (Some srv) s).1 with
    | None => In (SetUpldDir (Some StoredUpldsDir)) cs
    | Some (codes, osrv) =>
        length codes = length cs /\
        Forall (fun e => e = 0 \/ e = EINVAL) codes /\
        exists srv',
          osrv = Some srv' /\ configured srv' /\
          srv_auth_cb srv' = srv_auth_cb srv /\
          srv_req_cb srv' = srv_req_cb srv /\
          srv_err_cb srv' = srv_err_cb srv /\ srv_cls srv' = srv_cls srv /\
          (is_null (srv_uplds_dir srv') = true ->
           st_errno (run_calls Y cs (Some srv) s).2 = ENOMEM) /\
          (st_errno (run_calls Y cs (Some srv) s).2 = e0 \/
           st_errno (run_calls Y cs (Some srv) s).2 = ENOMEM)
    end.
Proof.
  induction cs as [|c cs IH]; intros srv s Hc Hdir He.
  - exists []. simpl. rewrite app_nil_r. split; [reflexivity|].
    split; [constructor|]. split; [reflexivity|]. split; [constructor|].
    exists srv. auto 20.
  - destruct (run_call_configured c srv s e0 Hc Hdir He) as (ev1 & Ht1 & Hf1 & H1).
    rewrite run_calls_cons.
    destruct (run_call Y c (Some srv) s) as [[[code o1]|] s1]; cbn [fst snd] in *.
    + destruct H1 as (_ & Hcode & srv1 & -> & Hc1 & Ha1 & Hq1 & He1 & Hl1 & Hd1 & Hn1).
      destruct (IH srv1 s1 Hc1 Hd1 Hn1) as (ev2 & Ht2 & Hf2 & H2).
      destruct (run_calls Y cs (Some srv1) s1) as [[[codes o2]|] s2];
        cbn [fst snd fmap option_fmap option_map] in *.
      * exists (ev1 ++ ev2). split; [by rewrite Ht2, Ht1, app_assoc|].
        split; [by apply Forall_app|].
        destruct H2 as (Hlen & Hcodes & srv2 & -> & Hc2 & Ha2 & Hq2 & He2 & Hl2 & Hd2 & Hn2).
        split; [simpl; by rewrite Hlen|]. split; [by constructor|].
        exists srv2. split; [reflexivity|]. split; [exact Hc2|].
        repeat (split; [congruence|]). split; assumption.
      * exists (ev1 ++ ev2). split; [by rewrite Ht2, Ht1, app_assoc|].
        split; [by apply Forall_app|]. by right.
    + exists ev1. split; [exact Ht1|]. split; [exact Hf1|].
      destruct H1 as [-> _]. by left.
Qed.

(** X12: no sequence of configuration calls takes a constructed server out
    of the state the listener asks for, except through the upload
    directory.  A sequence of setter calls on a server that the constructor
    built is defined unless one of them hands the stored directory back to
    the directory setter, which that call releases before it copies it, as
    it does on the constructed server itself.  After a defined sequence the
    server still has its four upload hooks, a post buffer of at least 256
    bytes, no engine and no worker, and the callbacks and the closure it
    was constructed with; the listener's guard rejects it exactly when the
    stored upload directory is null, and then [errno] is the ENOMEM of the
    [strdup] that failed.  Every call returned 0 or EINVAL; [errno] is as it
    was or ENOMEM; and the one thing released is the old upload
    directory. *)
Theorem config_calls_keep_server_listenable
    auth_cb req_cb err_cb cls (s0 s0' : state W) (srv0 : sg_httpsrv W)
    (cs : list config_call) (s : state W) :
  sg_httpsrv_new2 X auth_cb req_cb err_cb cls s0 = (Some srv0, s0') ->
  let r := run_calls Y cs (Some srv0) s in
  Forall (fun e => e = EvFree FreedUpldsDir) (events_since s r.2) /\
  (run_call Y (SetUpldDir (Some StoredUpldsDir)) (Some srv0) s).1 = None /\
  match r.1 with
  | None => In (SetUpldDir (Some StoredUpldsDir)) cs
  | Some (codes, osrv) =>
      length codes = length cs /\
      Forall (fun e => e = 0 \/ e = EINVAL) codes /\
      (st_errno r.2 = st_errno s \/ st_errno r.2 = ENOMEM) /\
      exists srv,
        osrv = Some srv /\ configured srv /\
        listen_guard srv = is_null (srv_uplds_dir srv) /\
        (is_null (srv_uplds_dir srv) = true -> st_errno r.2 = ENOMEM) /\
        srv_auth_cb srv = auth_cb /\ Some (srv_req_cb srv) = req_cb /\
        Some (srv_err_cb srv) = err_cb /\ srv_cls srv = cls
  end.
Proof.
  intros Hnew r. subst r.
  destruct (new2_configured _ _ _ _ _ _ _ Hnew)
    as (Hc & Hdir & Ha & Hq & He & Hl).
  assert (Hdir' : is_null (srv_uplds_dir srv0) = true -> st_errno s = ENOMEM)
    by (rewrite Hdir; discriminate).
  destruct (run_calls_configured cs (st_errno s) srv0 s Hc Hdir' (or_introl eq_refl))
    as (ev & Ht & Hf & Hres).
  split.
  { unfold events_since. rewrite Ht, drop_app_length. exact Hf. }
  split.
  { simpl. destruct (srv_uplds_dir srv0); [reflexivity|discriminate Hdir]. }
  destruct (run_calls Y cs (Some srv0) s) as [[[codes osrv]|] s1];
    cbn [fst snd] in *; [|exact Hres].
  destruct Hres as (Hlen & Hcodes & srv & -> & Hc' & Ha' & Hq' & He' & Hl' & Hd' & Hn').
  split; [exact Hlen|]. split; [exact Hcodes|]. split; [exact Hn'|].
  exists srv. split; [reflexivity|]. split; [exact Hc'|].
  split.
  { destruct Hc' as (H1 & H2 & H3 & H4 & H5 & _). unfold listen_guard.
    rewrite H1, H2, H3, H4. simpl.
    destruct (Z.ltb_spec (srv_post_buf_size srv) 256); [lia|].
    by rewrite orb_false_r. }
  split; [exact Hd'|].
  split; [congruence|]. split; [congruence|]. split; congruence.
Qed.

(** X13: the six numeric settings.  A setter on a server returns 0 and the
    matching getter then reads the value back, the five other getters
    reading what they read before; the one refusal is a post buffer size
    under 256, which returns EINVAL and leaves the server as it was.  No
    other value is refused: zero is accepted for every limit.  On a null
    server every setter returns EINVAL and every getter returns 0 with
    [errno] EINVAL. *)
Theorem numeric_settings_round_trip (which : setting) (n : Z)
    (srv : sg_httpsrv W) (s : state W) :
  let r := set_number which (Some srv) n in
  (r.1 = EINVAL /\ r.2 = Some srv /\ which = PostBufSize /\ n < 256 \/
   r.1 = 0 /\ (which = PostBufSize -> 256 <= n) /\
   get_number which r.2 s = (n, s) /\
   forall other, other <> which ->
     get_number other r.2 s = get_number other (Some srv) s) /\
  set_number which (@None (sg_httpsrv W)) n = (EINVAL, None) /\
  get_number which None s
  = (0, mk_state EINVAL (st_world s) (st_trace s)).
Proof.
  intros r. subst r. split; [|by destruct which].
  destruct which; simpl; unfold sg_httpsrv_set_post_buf_size;
    try (destruct (Z.ltb_spec n 256); simpl; [left; by repeat split|]);
    right; (split; [reflexivity|]); (split; [intros; try lia; discriminate|]);
    (split; [reflexivity|]); intros [] Hne; try reflexivity; by destruct Hne.
Qed.

(** X14: the upload directory setter does not check its copy.  With a
    server and a directory of the caller's it returns 0 whatever [strdup]
    returns, releases the old directory and stores the copy.  When [strdup]
    finds no memory the call still returns 0; [errno] is the ENOMEM that
    [strdup] left; the getter returns null; and every listener call on the
    server is turned down with EINVAL before anything is started. *)
Theorem set_upld_dir_keeps_failed_copy (srv : sg_httpsrv W) (d : string)
    (s : state W) :
  (strdup Y d (st_world s)).1 = None ->
  let r := sg_httpsrv_set_upld_dir Y (Some srv) (Some (CallerString d)) s in
  r.1 = Some (0, Some (set_srv_uplds_dir None srv)) /\
  events_since s r.2 = [EvFree FreedUpldsDir] /\
  st_errno r.2 = ENOMEM /\
  st_world r.2 = (strdup Y d (st_world s)).2 /\
  sg_httpsrv_upld_dir (Some (set_srv_uplds_dir None srv)) r.2 = (None, r.2) /\
  forall key pwd cert trust dhparams priorities hostname port backlog threaded s',
    listen_rejects X (set_srv_uplds_dir None srv) key pwd cert trust dhparams
      priorities hostname port backlog threaded s'.
Proof.
  intros Hdup r. subst r. unfold sg_httpsrv_set_upld_dir. run.
  destruct (strdup Y d (st_world s)) as [copy w']. simpl in *. subst copy.
  simpl.
  split; [reflexivity|]. split; [by rewrite events_since_app|].
  split; [reflexivity|]. split; [reflexivity|]. split; [reflexivity|].
  intros. unfold listen_rejects, sg__httpsrv_listen2, listen_guard. simpl.
  rewrite orb_true_r. simpl. reflexivity.
Qed.

End ConfigurationFacts.

(** ** Error reports *)

Lemma substring_length_le (n : nat) (t : string) :
  (String.length (String.substring 0 n t) <= n)%nat.
Proof.
  revert t. induction n as [|n IH]; intros [|c t]; simpl; try lia.
  specialize (IH t). lia.
Qed.

Lemma substring_all (n : nat) (t : string) :
  (String.length t <= n)%nat -> String.substring 0 n t = t.
Proof.
  revert t. induction n as [|n IH]; intros [|c t]; simpl; intros H;
    try reflexivity; try lia.
  rewrite IH; [reflexivity|lia].
Qed.

Lemma vsnprintf_fits (size : nat) (t : string) :
  (String.length (vsnprintf size t) <= Nat.pred size)%nat.
Proof. apply substring_length_le. Qed.

Lemma vsnprintf_short (size : nat) (t : string) :
  (String.length t < size)%nat -> vsnprintf size t = t.
Proof. intros H. apply substring_all. lia. Qed.

Section ReportFacts.

Context {W : Type} (X : extern W).

Lemma appends_ret {A} (P : event -> Prop) (a : A) : appends P (mret a : M W A).
Proof. intros s. exists []. simpl. by rewrite app_nil_r. Qed.

Lemma appends_bind {A B} (P : event -> Prop) (m : M W A) (k : A -> M W B) :
  appends P m -> (forall a, appends P (k a)) -> appends P (m ≫= k).
Proof.
  intros Hm Hk s. unfold mbind, M_bind.
  destruct (Hm s) as (d1 & H1 & F1). destruct (m s) as [a s1]. simpl in *.
  destruct (Hk a s1) as (d2 & H2 & F2).
  exists (d1 ++ d2). split; [by rewrite H2, H1, app_assoc|by apply Forall_app].
Qed.

Lemma appends_call {A} (P : event -> Prop) ev (f : W -> A * W) :
  P ev -> appends P (call ev f).
Proof.
  intros Hev s. exists [ev]. unfold call. destruct (f (st_world s)). simpl.
  split; [reflexivity|by constructor].
Qed.

Lemma appends_call_ (P : event -> Prop) ev (f : W -> W) :
  P ev -> appends P (call_ ev f : M W unit).
Proof. intros Hev s. exists [ev]. split; [reflexivity|by constructor]. Qed.

Lemma appends_log (P : event -> Prop) ev : P ev -> appends P (log_ ev : M W unit).
Proof. intros Hev s. exists [ev]. split; [reflexivity|by constructor]. Qed.

Lemma appends_query {A} (P : event -> Prop) (ev : A -> event) (f : W -> A) :
  (forall a, P (ev a)) -> appends P (query ev f).
Proof. intros Hev s. exists [ev (f (st_world s))]. split; [reflexivity|by constructor]. Qed.

Lemma appends_eprintf (srv : sg_httpsrv W) text :
  appends (report_fits (SG_ERR_SIZE X)) (sg__httpsrv_eprintf X srv text).
Proof. apply appends_call_. simpl. apply vsnprintf_fits. Qed.

Lemma appends_lock (srv : sg_httpsrv W) :
  appends (report_fits (SG_ERR_SIZE X)) (sg__httpsrv_lock X srv).
Proof.
  apply appends_bind; [by apply appends_call|]. intros e.
  destruct (negb _); [apply appends_eprintf|apply appends_ret].
Qed.

Lemma appends_unlock (srv : sg_httpsrv W) :
  appends (report_fits (SG_ERR_SIZE X)) (sg__httpsrv_unlock X srv).
Proof.
  apply appends_bind; [by apply appends_call|]. intros e.
  destruct (negb _); [apply appends_eprintf|apply appends_ret].
Qed.

Lemma appends_join_all (srv : sg_httpsrv W) l :
  appends (report_fits (SG_ERR_SIZE X)) (free_join_all X srv l).
Proof.
  induction l as [|i l IH]; [apply appends_ret|]. simpl.
  apply appends_bind; [apply appends_unlock|]. intros _.
  apply appends_bind; [by apply appends_call|]. intros e.
  apply appends_bind.
  { destruct (negb _); [apply appends_eprintf|apply appends_ret]. }
  intros _. apply appends_bind; [apply appends_lock|]. intros _. exact IH.
Qed.

Lemma appends_resume_all l : forall srv : sg_httpsrv W,
  appends (report_fits (SG_ERR_SIZE X)) (free_resume_all X srv l).
Proof.
  induction l as [|i l IH]; intros srv; [apply appends_ret|]. simpl.
  apply appends_bind; [by apply appends_query|]. intros info.
  apply appends_bind.
  { destruct info as [[|]|]; [by apply appends_call_|apply appends_ret..]. }
  intros _. apply appends_bind; [by apply appends_log|]. intros _. apply IH.
Qed.

Lemma appends_shutdown (srv : option (sg_httpsrv W)) :
  appends (report_fits (SG_ERR_SIZE X)) (sg_httpsrv_shutdown X srv).
Proof.
  destruct srv as [srv|]; [|apply appends_ret]. simpl.
  destruct (srv_handle srv); [|apply appends_ret].
  apply appends_bind; [by apply appends_call_|]. intros _. apply appends_ret.
Qed.

Lemma appends_free (srv : option (sg_httpsrv W)) :
  appends (report_fits (SG_ERR_SIZE X)) (sg_httpsrv_free X srv).
Proof.
  destruct srv as [srv|]; [|apply appends_ret]. simpl.
  apply appends_bind; [apply appends_lock|]. intros _.
  apply appends_bind; [apply appends_join_all|]. intros _.
  apply appends_bind; [apply appends_unlock|]. intros _.
  apply appends_bind; [apply appends_lock|]. intros _.
  apply appends_bind; [apply appends_resume_all|]. intros srv'.
  apply appends_bind; [apply appends_unlock|]. intros _.
  apply appends_bind; [apply (appends_shutdown (Some srv'))|]. intros [? srv''].
  apply appends_bind; [by apply appends_log|]. intros _.
  apply appends_bind; [by apply appends_call_|]. intros _.
  apply appends_bind; [by apply appends_log|]. intros _.
  apply appends_ret.
Qed.

Lemma appends_oel (srv : sg_httpsrv W) text :
  appends (report_fits (SG_ERR_SIZE X)) (sg__httpsrv_oel_run X srv text).
Proof.
  unfold sg__httpsrv_oel_run.
  destruct (negb _); [|apply appends_ret].
  apply appends_call_. simpl. apply vsnprintf_fits.
Qed.

Lemma appends_listen2 (srv : option (sg_httpsrv W))
    key pwd cert trust dhparams priorities hostname port backlog threaded :
  appends (report_fits (SG_ERR_SIZE X))
    (sg__httpsrv_listen2 X srv key pwd cert trust dhparams priorities
       hostname port backlog threaded).
Proof.
  intros s. destruct srv as [srv|].
  - destruct (listen_guard srv) eqn:Hg.
    + unfold sg__httpsrv_listen2. rewrite Hg. run. exists [].
      by rewrite app_nil_r.
    + rewrite (listen2_planned X srv _ _ _ _ _ _ _ _ _ _ s Hg).
      destruct (host_plan X hostname port) as [[addr extra]|].
      * cbv zeta. destruct (length _ <=? 14)%nat.
        -- destruct (MHD_start_daemon X _ _ _ _) as [h w']. simpl.
           eexists [_]. split; [reflexivity|]. by repeat constructor.
        -- exists []. simpl. by rewrite app_nil_r.
      * eexists [_]. split; [reflexivity|]. constructor; [|constructor].
        simpl. apply vsnprintf_fits.
  - unfold sg__httpsrv_listen2. run. exists []. by rewrite app_nil_r.
Qed.

Lemma appends_events {A} (P : event -> Prop) (m : M W A) (s : state W) :
  appends P m -> Forall P (events_since s (m s).2).
Proof.
  intros Hm. destruct (Hm s) as (d & Ht & Hf).
  unfold events_since. by rewrite Ht, drop_app_length.
Qed.

(** X15: no error report overflows the buffer it was formatted in.  Every
    text the server hands to the error callback, while it releases a
    server, while it starts a listener, and from the engine's logger, has
    at most [SG_ERR_SIZE - 1] characters, whatever the length of the host
    name, of the text of the engine or of the text [sg_strerror]
    returns. *)
Theorem error_reports_fit_buffer (srv : option (sg_httpsrv W)) (srv0 : sg_httpsrv W)
    key pwd cert trust dhparams priorities hostname port backlog threaded
    (text : string) (s : state W) :
  Forall (report_fits (SG_ERR_SIZE X))
    (events_since s (sg_httpsrv_free X srv s).2) /\
  Forall (report_fits (SG_ERR_SIZE X))
    (events_since s
       (sg__httpsrv_listen2 X srv key pwd cert trust dhparams priorities
          hostname port backlog threaded s).2) /\
  Forall (report_fits (SG_ERR_SIZE X))
    (events_since s (sg__httpsrv_oel_run X srv0 text s).2).
Proof.
  split; [|split]; apply appends_events.
  - apply appends_free.
  - apply appends_listen2.
  - apply appends_oel.
Qed.

(** X16: the engine's logger filters one notice.  A text that fits the
    buffer is handed to the error callback unchanged, once, unless it is
    the notice of an internal error reported by the application, which is
    dropped without a trace. *)
Theorem oel_filters_internal_error_notice (srv : sg_httpsrv W) (text : string)
    (s : state W) :
  (String.length text < SG_ERR_SIZE X)%nat ->
  sg__httpsrv_oel_run X srv text s
  = if String.eqb text internal_error_notice
    then (tt, s)
    else (tt, mk_state (st_errno s) (srv_err_cb srv text (st_world s))
                (st_trace s ++ [EvErrCb text])).
Proof.
  intros Hlen. unfold sg__httpsrv_oel_run.
  rewrite (vsnprintf_short _ _ Hlen).
  by destruct (String.eqb text internal_error_notice).
Qed.

End ReportFacts.

(** ** A server without an engine, and one with *)

Section EngineFacts.

Context {W : Type} (X : extern W) (Y : extern_more W).

(** X17: after a shutdown the getters do not ask the engine.  Whatever the
    server was, once [sg_httpsrv_shutdown] has run on it the port is 0, the
    server is not threaded and the handle is null; the three getters leave
    the state alone, and a second shutdown reports EALREADY. *)
Theorem getters_after_shutdown (srv : sg_httpsrv W) (s : state W) :
  let r := sg_httpsrv_shutdown X (Some srv) s in
  sg_httpsrv_port Y r.1.2 r.2 = (Some 0, r.2) /\
  sg_httpsrv_is_threaded Y r.1.2 r.2 = (Some false, r.2) /\
  sg_httpsrv_handle r.1.2 r.2 = (None, r.2) /\
  (sg_httpsrv_shutdown X r.1.2 r.2).1.1 = EALREADY.
Proof.
  intros r. subst r. unfold sg_httpsrv_shutdown.
  destruct (srv_handle srv) as [h|] eqn:Hh; run.
  - repeat split.
  - unfold sg_httpsrv_port, sg_httpsrv_is_threaded, sg_httpsrv_handle.
    rewrite Hh. repeat split.
Qed.

(** X18: the threading mode read back.  On an engine that reports the flags
    it was started with, after a listener call that returned true
    [sg_httpsrv_is_threaded] returns the [threaded] argument of that
    call. *)
Theorem is_threaded_after_listen (srv0 : sg_httpsrv W)
    key pwd cert trust dhparams priorities hostname port backlog threaded
    (s : state W) :
  let r := sg__httpsrv_listen2 X (Some srv0) key pwd cert trust dhparams
             priorities hostname port backlog threaded s in
  r.1.1 = Some true ->
  (forall flags p items srv1 h,
     In (EvStartDaemon flags p items) (events_since s r.2) ->
     r.1.2 = Some srv1 -> srv_handle srv1 = Some h ->
     MHD_get_daemon_info_flags Y h (st_world r.2) = Some flags) ->
  sg_httpsrv_is_threaded Y r.1.2 r.2 = (Some threaded, r.2).
Proof.
  intros r. subst r.
  destruct (listen_guard srv0) eqn:Hg.
  { unfold sg__httpsrv_listen2. rewrite Hg. run. discriminate. }
  rewrite (listen2_planned X srv0 _ _ _ _ _ _ _ _ _ _ s Hg).
  destruct (host_plan X hostname port) as [[addr extra]|] eqn:Hp;
    [|simpl; discriminate].
  cbv zeta. destruct (length _ <=? 14)%nat; [|simpl; discriminate].
  destruct (MHD_start_daemon X _ _ _ _) as [[h|] w']; [|simpl; discriminate].
  cbn [fst snd]. rewrite events_since_app. intros _ Hflags.
  unfold sg_httpsrv_is_threaded. simpl. unfold ask, mbind, M_bind, mret, M_ret.
  simpl.
  pose proof (Hflags _ _ _ _ h (or_introl eq_refl) eq_refl eq_refl) as Hf.
  simpl in Hf. rewrite Hf. simpl.
  f_equal. f_equal.
  destruct (host_plan_extra X _ _ _ _ Hp) as [Hextra _].
  unfold tls_flags.
  by destruct Hextra as [-> | ->], threaded, key, cert.
Qed.

(** X19: a server fresh from [sg_httpsrv_new] always reaches the engine.
    It has no authentication callback and the default error callback, and
    [sg_httpsrv_listen] on it is never turned down: it starts the engine
    once, on the given port, dual stack, with the logger, the two
    notifiers and the terminating item and nothing else, stores the handle
    the engine returns and tells whether that is one. *)
Theorem new_server_listens cb cls (s s1 : state W) (srv : sg_httpsrv W)
    port threaded :
  sg_httpsrv_new X Y cb cls s = (Some srv, s1) ->
  let items :=
    [logger_item;
     mk_item MHD_OPTION_NOTIFY_COMPLETED (VFn sg__httpsrv_rcc) PSrv;
     mk_item MHD_OPTION_NOTIFY_CONNECTION (VFn sg__httpsrv_ncc) PSrv;
     mk_item MHD_OPTION_END (VNum 0) PNull] in
  let flags := Z.lor (listen_flags threaded) MHD_USE_DUAL_STACK in
  let started := MHD_start_daemon X flags port items (st_world s1) in
  is_null (srv_auth_cb srv) = true /\ srv_err_cb srv = sg__err_cb Y /\
  sg_httpsrv_listen X (Some srv) port threaded s1
  = ((Some (negb (is_null started.1)), Some (set_srv_handle started.1 srv)),
     mk_state (st_errno s1) started.2
       (st_trace s1 ++ [EvStartDaemon flags port items])).
Proof.
  unfold sg_httpsrv_new. intros Hnew.
  destruct (new2_configured X _ _ _ _ _ _ _ Hnew)
    as ((H1 & H2 & H3 & H4 & H5 & H6 & H7) & Hdir & Ha & _ & He & _).
  assert (Hg : listen_guard srv = false).
  { unfold listen_guard. rewrite H1, H2, H3, H4, Hdir. simpl.
    destruct (Z.ltb_spec (srv_post_buf_size srv) 256); [lia|reflexivity]. }
  cbv zeta. split; [by rewrite Ha|]. split; [congruence|].
  unfold sg_httpsrv_listen, sg__httpsrv_listen.
  rewrite (listen2_planned X srv _ _ _ _ _ _ _ _ _ _ s1 Hg). simpl.
  assert (Hlim : srv_con_limit srv = 0 /\ srv_con_timeout srv = 0 /\
                 srv_thr_pool_size srv = 0).
  { revert Hnew. unfold sg_httpsrv_new2. destruct cb; run; try discriminate.
    destruct (sg_alloc X (st_world s)) as [[|] w1]; simpl; try discriminate.
    destruct (sg_tmpdir X w1) as [[d|] w2]; simpl; try discriminate.
    destruct (pthread_mutex_init X w2) as [e w3]; simpl.
    destruct (e =? 0); simpl; try discriminate.
    by intros [= <- _]. }
  destruct Hlim as (L1 & L2 & L3).
  unfold tail_items, pos_item, tls_items, tls_flags. rewrite L1, L2, L3. simpl.
  by destruct (MHD_start_daemon X _ _ _ _).
Qed.

End EngineFacts.

(** ** The further properties at concrete inputs *)

Lemma host_resolution_overruns_option_array_witness :
  (sg_httpsrv_set_thr_pool_size
     (sg_httpsrv_set_con_timeout
        (sg_httpsrv_set_con_limit (Some (Scenario.srv_of None)) 100).2 30).2
     4).2 = Some Scenario.tuned /\
  inet_pton4 Scenario.X "127.0.0.1" = Some Scenario.loopback4 /\
  sg_httpsrv_tls_listen4 Scenario.X (Some Scenario.tuned)
    (Some "key"%string) (Some "pwd"%string) (Some "cert"%string)
    (Some "trust"%string) (Some "dh"%string) (Some "NORMAL"%string)
    (Some "127.0.0.1"%string) 8443 16 true Scenario.s0
  = ((None, Some Scenario.tuned), Scenario.s0).
Proof.
  split; [reflexivity|]. split; [reflexivity|].
  refine (proj1 (proj2 (host_resolution_overruns_option_array Scenario.X
            Scenario.tuned (Some "key"%string) (Some "pwd"%string)
            (Some "cert"%string) (Some "trust"%string) (Some "dh"%string)
            (Some "NORMAL"%string) "127.0.0.1"%string 8443 16 true Scenario.s0
            eq_refl (or_introl eq_refl) _))).
  unfold all_options_in_use. simpl. repeat split; lia.
Defined.

Lemma listen_start_flags_witness :
  events_since Scenario.s0
    (sg__httpsrv_listen2 Scenario.X (Some (Scenario.srv_of None))
       None None None None None None (Some "127.0.0.1"%string) 8080 0 false
       Scenario.s0).2
  = [EvStartDaemon 74761 8080
       [logger_item;
        sock_addr_item (mk_sockaddr AF_INET 36895 Scenario.loopback4);
        mk_item MHD_OPTION_NOTIFY_COMPLETED (VFn sg__httpsrv_rcc) PSrv;
        mk_item MHD_OPTION_NOTIFY_CONNECTION (VFn sg__httpsrv_ncc) PSrv;
        mk_item MHD_OPTION_END (VNum 0) PNull]] /\
  Z.land 74761 MHD_USE_TLS = 0 /\
  Z.land 74761 MHD_USE_THREAD_PER_CONNECTION = 0 /\
  Z.land 74761 MHD_USE_AUTO = MHD_USE_AUTO /\
  Z.land 74761 MHD_USE_DUAL_STACK = 0.
Proof.
  split; [reflexivity|].
  destruct (listen_start_flags Scenario.X (Some (Scenario.srv_of None))
              None None None None None None (Some "127.0.0.1"%string) 8080 0
              false Scenario.s0 74761 8080 _ (or_introl eq_refl))
    as (_ & Htls & Hthr & Hauto & _ & Hdual).
  repeat split; assumption.
Defined.

Lemma listen_start_items_wf_witness :
  let items :=
    [logger_item;
     sock_addr_item (mk_sockaddr AF_INET 36895 Scenario.loopback4);
     mk_item MHD_OPTION_NOTIFY_COMPLETED (VFn sg__httpsrv_rcc) PSrv;
     mk_item MHD_OPTION_NOTIFY_CONNECTION (VFn sg__httpsrv_ncc) PSrv;
     mk_item MHD_OPTION_END (VNum 0) PNull] in
  In (EvStartDaemon 74761 8080 items)
    (events_since Scenario.s0
       (sg__httpsrv_listen2 Scenario.X (Some (Scenario.srv_of None))
          None None None None None None (Some "127.0.0.1"%string) 8080 0 false
          Scenario.s0).2) /\
  (length items <= 14)%nat /\
  (length (List.filter is_sock_addr items) <= 1)%nat /\
  List.filter is_backlog items = [].
Proof.
  intros items. split; [left; reflexivity|].
  destruct (listen_start_items_wf Scenario.X (Some (Scenario.srv_of None))
              None None None None None None (Some "127.0.0.1"%string) 8080 0
              false Scenario.s0 74761 8080 items (or_introl eq_refl))
    as (Hlen & _ & _ & _ & _ & Hsock & Hback).
  repeat split; assumption.
Defined.

Lemma sg_httpsrv_listen2_ignores_backlog_witness :
  sg_httpsrv_listen2 Scenario.X (Some (Scenario.srv_of None))
    (Some "::1"%string) 8080 128 true Scenario.s0
  = sg_httpsrv_listen2 Scenario.X (Some (Scenario.srv_of None))
      (Some "::1"%string) 8080 0 true Scenario.s0 /\
  Z.land 11293 MHD_USE_TLS = 0.
Proof.
  destruct (sg_httpsrv_listen2_ignores_backlog Scenario.X
              (Some (Scenario.srv_of None)) (Some "::1"%string) 8080 128 true
              Scenario.s0) as [Hsame Hstart].
  split; [exact Hsame|].
  exact (proj1 (Hstart 11293 8080 _ (or_introl eq_refl))).
Defined.

Lemma listen_overrun_exactly_witness :
  all_options_in_use Scenario.tuned (Some "key"%string) (Some "pwd"%string)
    (Some "cert"%string) (Some "trust"%string) (Some "dh"%string)
    (Some "NORMAL"%string) 16 /\
  (sg__httpsrv_listen2 Scenario.X (Some Scenario.tuned)
     (Some "key"%string) (Some "pwd"%string) (Some "cert"%string)
     (Some "trust"%string) (Some "dh"%string) (Some "NORMAL"%string)
     (Some "127.0.0.1"%string) 8443 16 true Scenario.s0).1.1 = None.
Proof.
  assert (Hall : all_options_in_use Scenario.tuned (Some "key"%string)
                   (Some "pwd"%string) (Some "cert"%string)
                   (Some "trust"%string) (Some "dh"%string)
                   (Some "NORMAL"%string) 16).
  { unfold all_options_in_use. simpl. repeat split; lia. }
  split; [exact Hall|].
  apply (proj1 (listen_overrun_exactly Scenario.X (Some Scenario.tuned)
                  (Some "key"%string) (Some "pwd"%string) (Some "cert"%string)
                  (Some "trust"%string) (Some "dh"%string)
                  (Some "NORMAL"%string) (Some "127.0.0.1"%string) 8443 16
                  true Scenario.s0)).
  exists Scenario.tuned, "127.0.0.1"%string.
  split; [reflexivity|]. split; [reflexivity|]. split; [reflexivity|].
  split; [left; reflexivity|exact Hall].
Defined.

Lemma tls_listen_needs_key_and_cert_witness :
  sg_httpsrv_tls_listen4 Scenario.X (Some (Scenario.srv_of None))
    (Some "KEY"%string) None None None None None None 8443 16 true Scenario.s0
  = ((Some false, Some (Scenario.srv_of None)), mk_state EINVAL [] []) /\
  Z.land 11295 MHD_USE_TLS = MHD_USE_TLS.
Proof.
  split.
  - exact (proj1 (tls_listen_needs_key_and_cert Scenario.X
                    (Some (Scenario.srv_of None)) (Some "KEY"%string) None None
                    None None None None 8443 16 true Scenario.s0) eq_refl).
  - exact (proj1 (proj1 (proj2 (tls_listen_needs_key_and_cert Scenario.X
                    (Some (Scenario.srv_of None)) (Some "KEY"%string) None
                    (Some "CERT"%string) None None None None 8443 16 true
                    Scenario.s0)) 11295 8443 _ (or_introl eq_refl))).
Defined.

Lemma listen_then_shutdown_witness :
  let r := sg__httpsrv_listen2 Scenario.X (Some (Scenario.srv_of None))
             None None None None None None None 8080 0 false Scenario.s0 in
  r.1.1 = Some true /\
  exists srv1 h,
    r.1.2 = Some srv1 /\ srv_handle srv1 = Some h /\
    sg_httpsrv_shutdown Scenario.X (Some srv1) r.2
    = ((0, Some (set_srv_handle None srv1)),
       mk_state (st_errno r.2) (MHD_stop_daemon Scenario.X h (st_world r.2))
         (st_trace r.2 ++ [EvStopDaemon h])).
Proof.
  intros r. split; [reflexivity|].
  exact (proj2 (proj2 (listen_then_shutdown Scenario.X (Scenario.srv_of None)
                         None None None None None None None 8080 0 false
                         Scenario.s0)) eq_refl).
Defined.

Lemma ahc_rejects_claimed_connection_witness :
  claimed claiming (Some Scenario.con1) (st_world Scenario.s0) = true /\
  sg__httpsrv_ahc claiming (Scenario.srv_of None) (Some Scenario.con1)
    (Some "/"%string) (Some "GET"%string) (Some "HTTP/1.1"%string) None 0
    None Scenario.s0
  = ((MHD_NO, 0, None),
     mk_state 0 [] [EvInfoSocketContext Scenario.con1 (Some true)]).
Proof.
  split; [reflexivity|].
  exact (ahc_rejects_claimed_connection claiming (Scenario.srv_of None)
           (Some Scenario.con1) (Some "/"%string) (Some "GET"%string)
           (Some "HTTP/1.1"%string) None 0 None Scenario.s0 eq_refl).
Defined.

Lemma ahc_request_handler_iff_witness :
  let req := Scenario.new_request (Some Scenario.con1)
               (Some "HTTP/1.1"%string) (Some "GET"%string) (Some "/"%string) in
  let ev := events_since Scenario.s0
              (sg__httpsrv_ahc Scenario.X (Scenario.srv_of None)
                 (Some Scenario.con1) (Some "/"%string) (Some "GET"%string)
                 (Some "HTTP/1.1"%string) None 0 (Some req) Scenario.s0).2 in
  claimed Scenario.X (Some Scenario.con1) (st_world Scenario.s0) = false /\
  existsb is_uplds_process ev = true /\ existsb is_req_cb ev = true.
Proof.
  intros req ev. split; [reflexivity|].
  destruct (ahc_request_handler_iff Scenario.X (Scenario.srv_of None)
              (Some Scenario.con1) (Some "/"%string) (Some "GET"%string)
              (Some "HTTP/1.1"%string) None 0 req Scenario.s0 eq_refl)
    as (Hup & Hcb & _).
  split; [exact Hup|exact Hcb].
Defined.

Lemma ahc_without_auth_cb_witness :
  is_null (srv_auth_cb (Scenario.srv_of None)) = true /\
  (sg__httpsrv_ahc Scenario.X (Scenario.srv_of None) (Some Scenario.con1)
     (Some "/"%string) (Some "GET"%string) (Some "HTTP/1.1"%string) None 0
     None Scenario.s0).1
  = (MHD_YES, 0,
     Some (Scenario.new_request (Some Scenario.con1) (Some "HTTP/1.1"%string)
             (Some "GET"%string) (Some "/"%string))).
Proof.
  split; [reflexivity|].
  exact (proj2 (ahc_without_auth_cb Scenario.X (Scenario.srv_of None)
                  (Some Scenario.con1) (Some "/"%string) (Some "GET"%string)
                  (Some "HTTP/1.1"%string) None 0 Scenario.s0 eq_refl) eq_refl).
Defined.

Lemma ahc_suspended_connection_waits_witness :
  let req := Scenario.new_request (Some Scenario.con2)
               (Some "HTTP/1.1"%string) (Some "GET"%string) (Some "/"%string) in
  let r := sg__httpsrv_ahc Scenario.X (Scenario.srv_of None)
             (Some Scenario.con2) (Some "/"%string) (Some "GET"%string)
             (Some "HTTP/1.1"%string) None 0 (Some req) Scenario.s_workers in
  events_since Scenario.s_workers r.2
  = [EvInfoSocketContext Scenario.con2 (Some false); EvUpldsProcess; EvReqCb;
     EvInfoSuspended Scenario.con2 (Some true)] /\
  r.1.1.1 = MHD_YES.
Proof.
  intros req r. split; [reflexivity|].
  destruct (ahc_suspended_connection_waits Scenario.X (Scenario.srv_of None)
              (Some Scenario.con2) (Some "/"%string) (Some "GET"%string)
              (Some "HTTP/1.1"%string) None 0 (Some req) Scenario.s_workers
              Scenario.con2 (Some true)
              (or_intror (or_intror (or_intror (or_introl eq_refl)))))
    as (_ & _ & _ & Hyes & _).
  exact Hyes.
Defined.

Lemma config_calls_keep_server_listenable_witness :
  let cs := [SetNumber PostBufSize 100;
             SetUpldDir (Some (CallerString "/var/tmp"));
             SetUpldCbs None NullPtr None None None None;
             SetNumber ConLimit 10] in
  let r := run_calls no_memory cs (Some (Scenario.srv_of None)) Scenario.s0 in
  sg_httpsrv_new2 Scenario.X None (Some Scenario.req_cb) (Some Scenario.err_cb)
    NullPtr Scenario.s0 = (Some (Scenario.srv_of None), Scenario.s0) /\
  fst <$> r.1 = Some [EINVAL; 0; EINVAL; 0] /\
  st_errno r.2 = ENOMEM /\
  (run_call no_memory (SetUpldDir (Some StoredUpldsDir))
     (Some (Scenario.srv_of None)) Scenario.s0).1 = None /\
  match r.1 with
  | None => In (SetUpldDir (Some StoredUpldsDir)) cs
  | Some (codes, osrv) =>
      length codes = length cs /\
      Forall (fun e => e = 0 \/ e = EINVAL) codes /\
      (st_errno r.2 = st_errno Scenario.s0 \/ st_errno r.2 = ENOMEM) /\
      exists srv,
        osrv = Some srv /\ configured srv /\
        listen_guard srv = is_null (srv_uplds_dir srv) /\
        (is_null (srv_uplds_dir srv) = true -> st_errno r.2 = ENOMEM) /\
        srv_auth_cb srv = None /\
        Some (srv_req_cb srv) = Some Scenario.req_cb /\
        Some (srv_err_cb srv) = Some Scenario.err_cb /\ srv_cls srv = NullPtr
  end.
Proof.
  intros cs r. split; [reflexivity|]. split; [reflexivity|].
  split; [reflexivity|].
  exact (proj2 (config_calls_keep_server_listenable Scenario.X no_memory
                  None (Some Scenario.req_cb) (Some Scenario.err_cb) NullPtr
                  Scenario.s0 Scenario.s0 (Scenario.srv_of None) cs Scenario.s0
                  eq_refl)).
Defined.

Lemma set_upld_dir_keeps_failed_copy_witness :
  let r := sg_httpsrv_set_upld_dir no_memory (Some (Scenario.srv_of None))
             (Some (CallerString "/var/tmp")) Scenario.s0 in
  (strdup no_memory "/var/tmp" (st_world Scenario.s0)).1 = None /\
  r.1 = Some (0, Some (set_srv_uplds_dir None (Scenario.srv_of None))) /\
  st_errno Scenario.s0 = 0 /\ st_errno r.2 = ENOMEM /\
  listen_rejects Scenario.X (set_srv_uplds_dir None (Scenario.srv_of None))
    None None None None None None None 8080 0 false Scenario.s0.
Proof.
  intros r. split; [reflexivity|].
  destruct (set_upld_dir_keeps_failed_copy Scenario.X no_memory
              (Scenario.srv_of None) "/var/tmp"%string Scenario.s0 eq_refl)
    as (Hret & _ & Herrno & _ & _ & Hrej).
  split; [exact Hret|]. split; [reflexivity|]. split; [exact Herrno|].
  apply Hrej.
Defined.

Lemma oel_filters_internal_error_notice_witness :
  (String.length "Out of memory." < SG_ERR_SIZE Scenario.X)%nat /\
  sg__httpsrv_oel_run Scenario.X (Scenario.srv_of None) "Out of memory."
    Scenario.s0
  = (tt, mk_state 0 [] [EvErrCb "Out of memory."]) /\
  sg__httpsrv_oel_run Scenario.X (Scenario.srv_of None) internal_error_notice
    Scenario.s0
  = (tt, Scenario.s0).
Proof.
  assert (H1 : (String.length "Out of memory." < SG_ERR_SIZE Scenario.X)%nat)
    by (simpl; lia).
  assert (H2 : (String.length internal_error_notice
                < SG_ERR_SIZE Scenario.X)%nat) by (simpl; lia).
  split; [exact H1|]. split.
  - exact (oel_filters_internal_error_notice Scenario.X (Scenario.srv_of None)
             "Out of memory."%string Scenario.s0 H1).
  - exact (oel_filters_internal_error_notice Scenario.X (Scenario.srv_of None)
             internal_error_notice Scenario.s0 H2).
Defined.

Lemma is_threaded_after_listen_witness :
  let r := sg__httpsrv_listen2 Scenario.X (Some (Scenario.srv_of None))
             None None None None None None None 8080 0 false Scenario.s0 in
  r.1.1 = Some true /\
  sg_httpsrv_is_threaded more_externals r.1.2 r.2 = (Some false, r.2).
Proof.
  intros r. split; [reflexivity|].
  apply (is_threaded_after_listen Scenario.X more_externals
           (Scenario.srv_of None) None None None None None None None 8080 0
           false Scenario.s0 eq_refl).
  intros flags p items srv1 h [Hev|[]] _ _. by injection Hev as <- _ _.
Defined.

Lemma new_server_listens_witness :
  sg_httpsrv_new Scenario.X more_externals (Some Scenario.req_cb) NullPtr
    Scenario.s0 = (Some (Scenario.srv_of None), Scenario.s0) /\
  (sg_httpsrv_listen Scenario.X (Some (Scenario.srv_of None)) 8080 false
     Scenario.s0).1.1 = Some true.
Proof.
  split; [reflexivity|].
  destruct (new_server_listens Scenario.X more_externals
              (Some Scenario.req_cb) NullPtr Scenario.s0 Scenario.s0
              (Scenario.srv_of None) 8080 false eq_refl)
    as (_ & _ & Hrun).
  by rewrite Hrun.
Defined.
